(** * SummerDuck racing dashboard: the aggregation code of the three views

    A shallow embedding of the data aggregation done by
    [StatisticsComponent] (processStatistics), [DashboardComponent]
    (processData and the stats overview, in its two versions) and
    [DriversComponent] (the driver stats effect, the radar chart and the
    tables), and of the generator of the season data (the shuffle, the
    single-elimination bracket and the season), with the properties of the
    specification and further properties of the code stated over it.

    Numbers.  A JavaScript number is modelled by [JS.num]: an exact rational,
    the two infinities or NaN.  Division by zero, [Infinity - Infinity] and
    the propagation of NaN are as in IEEE 754; the rounding of binary64, the
    overflow of finite operations and the sign of zero are not modelled.
    Rationals are kept reduced, so that equal results are equal terms.

    Arrays are lists, [Array.prototype.sort] is the stable sort of its
    comparator, objects used as dictionaries are association lists in
    insertion order and [Object.values] enumerates them as the language
    does (array-index keys first).  A dictionary models the properties of
    the object's own; the names that an object literal inherits from
    [Object.prototype] are listed in [JS.inherited], and the properties
    that say which entries a dictionary of drivers or opponents holds are
    stated for records whose names are not among them.

    Random numbers.  The generator calls [Math.random]; the functions that
    do so take the stream of its results and the number of calls made so
    far, and return the number of calls made. *)

From Stdlib Require Import String Ascii DecimalString DecimalZ DecimalPos.
From Stdlib Require Import List Bool Arith ZArith QArith Qround Lia Lqa.
From Stdlib Require Import Sorted Permutation.
From Stdlib Require OrderedTypeEx.
Import ListNotations.

Set Implicit Arguments.
Close Scope Q_scope.

(* ================================================================== *)
(** ** The JavaScript values and library functions the code uses       *)
(* ================================================================== *)

Module JS.

(** *** Numbers *)

Inductive num : Type :=
| NaN
| PInf
| NInf
| Fin (q : Q).

Definition zero : num := Fin 0.
Definition ofZ (z : Z) : num := Fin (inject_Z z).
Definition ofNat (n : nat) : num := ofZ (Z.of_nat n).

(** The sign of a number against zero; [None] for NaN. *)
Definition sign (x : num) : option comparison :=
  match x with
  | NaN => None
  | PInf => Some Gt
  | NInf => Some Lt
  | Fin q => Some (q ?= 0)%Q
  end.

Definition neg (x : num) : num :=
  match x with
  | NaN => NaN
  | PInf => NInf
  | NInf => PInf
  | Fin q => Fin (Qred (- q))
  end.

Definition add (x y : num) : num :=
  match x, y with
  | NaN, _ | _, NaN => NaN
  | PInf, NInf | NInf, PInf => NaN
  | PInf, _ | _, PInf => PInf
  | NInf, _ | _, NInf => NInf
  | Fin a, Fin b => Fin (Qred (a + b))
  end.

Definition sub (x y : num) : num :=
  match x, y with
  | NaN, _ | _, NaN => NaN
  | PInf, PInf | NInf, NInf => NaN
  | PInf, _ | _, NInf => PInf
  | NInf, _ | _, PInf => NInf
  | Fin a, Fin b => Fin (Qred (a - b))
  end.

Definition mul (x y : num) : num :=
  match x, y with
  | NaN, _ | _, NaN => NaN
  | Fin a, Fin b => Fin (Qred (a * b))
  | _, _ =>
      match sign x, sign y with
      | Some Eq, _ | _, Some Eq => NaN
      | Some Lt, Some Lt | Some Gt, Some Gt => PInf
      | Some _, Some _ => NInf
      | _, _ => NaN
      end
  end.

(** [x / y]: a finite non-zero number over zero is an infinity of its
    sign, [0 / 0] and [Infinity / Infinity] are NaN. *)
Definition div (x y : num) : num :=
  match x, y with
  | NaN, _ | _, NaN => NaN
  | Fin a, Fin b =>
      match (b ?= 0)%Q with
      | Eq => match (a ?= 0)%Q with
              | Eq => NaN
              | Gt => PInf
              | Lt => NInf
              end
      | _ => Fin (Qred (a / b))
      end
  | Fin _, _ => zero
  | _, Fin b =>
      match (b ?= 0)%Q with
      | Lt => neg x
      | _ => x
      end
  | _, _ => NaN
  end.

(** [Math.pow(x, 2)]. *)
Definition pow2 (x : num) : num := mul x x.

(** The comparison of two numbers; [None] when one of them is NaN, so
    that every relational operator is then false. *)
Definition compare (x y : num) : option comparison :=
  match x, y with
  | NaN, _ | _, NaN => None
  | PInf, PInf | NInf, NInf => Some Eq
  | PInf, _ | _, NInf => Some Gt
  | NInf, _ | _, PInf => Some Lt
  | Fin a, Fin b => Some (a ?= b)%Q
  end.

Definition ltb (x y : num) : bool :=
  match compare x y with Some Lt => true | _ => false end.
Definition gtb (x y : num) : bool :=
  match compare x y with Some Gt => true | _ => false end.
Definition leb (x y : num) : bool :=
  match compare x y with Some Lt | Some Eq => true | _ => false end.
Definition geb (x y : num) : bool :=
  match compare x y with Some Gt | Some Eq => true | _ => false end.
(** [x === y] on numbers. *)
Definition eqb (x y : num) : bool :=
  match compare x y with Some Eq => true | _ => false end.

(** Truthiness of a number: [0] and NaN are falsy. *)
Definition truthy (x : num) : bool :=
  match sign x with
  | None | Some Eq => false
  | Some _ => true
  end.

(** [x || 0]. *)
Definition orZero (x : num) : num := if truthy x then x else zero.

Definition isNaN (x : num) : bool :=
  match x with NaN => true | _ => false end.

(** [Math.min(a, b)] and [Math.max(a, b)]: NaN if either is NaN. *)
Definition min2 (x y : num) : num :=
  match compare x y with
  | None => NaN
  | Some Gt => y
  | Some _ => x
  end.
Definition max2 (x y : num) : num :=
  match compare x y with
  | None => NaN
  | Some Lt => y
  | Some _ => x
  end.
(** [Math.min(...values)] and [Math.max(...values)]. *)
Definition minOf (values : list num) : num := fold_left min2 values PInf.
Definition maxOf (values : list num) : num := fold_left max2 values NInf.

(** [Math.round]: the nearest integer, halves upwards. *)
Definition round (x : num) : num :=
  match x with
  | Fin q => ofZ (Qfloor (q + (1 # 2)))
  | _ => x
  end.

(** [parseFloat(x.toFixed(d))]: [x] rounded to [d] decimals, halves away
    from zero; NaN and the infinities print and parse back as themselves. *)
Definition toFixed (d : nat) (x : num) : num :=
  match x with
  | Fin q =>
      let s := inject_Z (10 ^ Z.of_nat d) in
      let r (a : Q) := Qfloor (a * s + (1 # 2)) in
      match (q ?= 0)%Q with
      | Lt => Fin (Qred (inject_Z (- r (- q)%Q)%Z / s))
      | _ => Fin (Qred (inject_Z (r q) / s))
      end
  | _ => x
  end.

(** [values.reduce((sum, val) => sum + val, 0)]. *)
Definition sum (values : list num) : num := fold_left add values zero.

(** *** Arrays *)

Section Arrays.
Variable A : Type.

(** [a.slice(0, k)] and [a.slice(-k)]. *)
Definition sliceTo (k : nat) (a : list A) : list A := firstn k a.
Definition sliceLast (k : nat) (a : list A) : list A :=
  skipn (length a - k) a.

(** [a.sort(compareFn)].  The comparator's result [v] orders [x] after
    [y] when [v > 0]; a NaN result counts as [+0].  The sort is stable:
    an element passes only those it must come after. *)
Variable compareFn : A -> A -> num.

Definition after (x y : A) : bool := gtb (compareFn x y) zero.

Fixpoint insert (x : A) (l : list A) : list A :=
  match l with
  | [] => [x]
  | y :: l' => if after x y then y :: insert x l' else x :: l
  end.

Definition sort (a : list A) : list A := fold_right insert [] a.
End Arrays.

(** *** Strings *)

(** [s.split(' ')]. *)
Fixpoint split_space (s : string) : list string :=
  match s with
  | EmptyString => [EmptyString]
  | String c s' =>
      if Ascii.eqb c " " then EmptyString :: split_space s'
      else match split_space s' with
           | [] => [String c EmptyString]
           | w :: ws => String c w :: ws
           end
  end.

(** The template literal of an integer. *)
Definition showZ (z : Z) : string := NilZero.string_of_int (Z.to_int z).

(** *** Objects used as dictionaries, and Maps *)

Definition obj (V : Type) : Type := list (string * V).

(** The property names that an object literal inherits from
    [Object.prototype].  For such a key [o[k]] is the inherited property,
    so that the test [!o[k]] of a reduction makes no entry of the object's
    own for it.  The dictionaries below model the object for the other
    keys, and a [Map] for every key. *)
Definition inherited : list string :=
  [ "constructor"; "__defineGetter__"; "__defineSetter__"; "hasOwnProperty";
    "__lookupGetter__"; "__lookupSetter__"; "isPrototypeOf";
    "propertyIsEnumerable"; "toString"; "valueOf"; "__proto__";
    "toLocaleString" ]%string.

(** A key that names no inherited property. *)
Definition plainKey (k : string) : bool :=
  negb (existsb (String.eqb k) inherited).

Section Objects.
Variable V : Type.

(** [o[k]], for a key that is not inherited. *)
Fixpoint get (k : string) (o : obj V) : option V :=
  match o with
  | [] => None
  | (k', v) :: o' => if String.eqb k k' then Some v else get k o'
  end.

(** [o[k] = v]: an existing key keeps its place, a new one goes last. *)
Fixpoint set (k : string) (v : V) (o : obj V) : obj V :=
  match o with
  | [] => [(k, v)]
  | (k', v') :: o' =>
      if String.eqb k k' then (k', v) :: o' else (k', v') :: set k v o'
  end.

(** [if (!o[k]) o[k] = init; o[k] = f(o[k])], for a key that is not
    inherited and values that are objects or arrays. *)
Definition upsert (k : string) (init : V) (f : V -> V) (o : obj V)
  : obj V :=
  match get k o with
  | Some v => set k (f v) o
  | None => set k (f init) o
  end.

(** A key that is an array index: the canonical decimal of an integer
    below [2^32 - 1]. *)
Definition digit (c : ascii) : option N :=
  let n := N_of_ascii c in
  if ((48 <=? n) && (n <=? 57))%N then Some (n - 48)%N else None.

Fixpoint digits (s : string) (acc : N) : option N :=
  match s with
  | EmptyString => Some acc
  | String c s' =>
      match digit c with
      | Some d => digits s' (acc * 10 + d)%N
      | None => None
      end
  end.

Definition arrayIndex (k : string) : option N :=
  match k with
  | EmptyString => None
  | String c s' =>
      if Ascii.eqb c "0"
      then match s' with EmptyString => Some 0%N | _ => None end
      else match digits k 0 with
           | Some n => if (n <? 2 ^ 32 - 1)%N then Some n else None
           | None => None
           end
  end.

Definition isIndex (e : string * V) : bool :=
  match arrayIndex (fst e) with Some _ => true | None => false end.

Definition indexOrder (e1 e2 : string * V) : num :=
  match arrayIndex (fst e1), arrayIndex (fst e2) with
  | Some n1, Some n2 => sub (ofZ (Z.of_N n1)) (ofZ (Z.of_N n2))
  | _, _ => zero
  end.

(** [Object.values(o)]: the array-index keys in ascending order, then
    the other keys in insertion order. *)
Definition values (o : obj V) : list V :=
  map snd (sort indexOrder (filter isIndex o))
  ++ map snd (filter (fun e => negb (isIndex e)) o).

(** [Array.from(m.entries())] of a [Map]: insertion order. *)
Definition entries (m : obj V) : list (string * V) := m.
End Objects.

End JS.

(* ================================================================== *)
(** ** The race record shared by the three components                  *)
(* ================================================================== *)

Module Race.
Import JS.

(** [interface RaceRecord].  The fields ['60ft'], ['330ft'], ['1/8ET'] and
    ['1/8MPH'] are [ft60], [ft330], [ET] and [MPH]; the race number is an
    integer. *)
Record RaceRecord : Type := {
  Driver : string;
  CarNo : string;
  Date : string;
  RaceNumber : Z;
  Reaction : num;
  ft60 : num;
  ft330 : num;
  ET : num;
  MPH : num;
  Opponent : string;
  OpponentCarNo : string;
  WinLoss : string
}.

(** The test [race.f && race.f > 0] every component applies to a metric. *)
Definition present (x : num) : bool := truthy x && gtb x zero.

Definition isWin (race : RaceRecord) : bool := String.eqb (WinLoss race) "Win".
Definition isLoss (race : RaceRecord) : bool := String.eqb (WinLoss race) "Loss".

(** [const [first, last] = driver.split(' ');
     last ? `${first} ${last[0]}` + dot : first], where [dot] is [". "] or
    ["."] depending on the chart. *)
Definition displayName (dot : string) (driver : string) : string :=
  match split_space driver with
  | first :: String c _ :: _ =>
      (first ++ " " ++ String c EmptyString ++ dot)%string
  | first :: _ => first
  | [] => EmptyString
  end.
End Race.

(* ================================================================== *)
(** ** StatisticsComponent: processStatistics                          *)
(* ================================================================== *)

Module Statistics.
Import JS Race.

(** [interface LeaderboardEntry], with the two fields ([races],
    [improvementPct]) that some leaderboards add to it. *)
Record LeaderboardEntry : Type := {
  driver : string;
  carNo : string;
  value : num;
  date : option string;
  opponent : option string;
  races : option nat;
  improvementPct : option num
}.

Definition recordEntry (metric : RaceRecord -> num) (race : RaceRecord)
  : LeaderboardEntry :=
  {| driver := Driver race; carNo := CarNo race; value := metric race;
     date := Some (Date race); opponent := Some (Opponent race);
     races := None; improvementPct := None |}.

(** The comparators [(a, b) => a.f - b.f] and [(a, b) => b.f - a.f]. *)
Definition ascending (A : Type) (f : A -> num) (a b : A) : num :=
  sub (f a) (f b).
Definition descending (A : Type) (f : A -> num) (a b : A) : num :=
  sub (f b) (f a).

(** *** Record-level leaderboards *)

Definition etLeaders (data : list RaceRecord) : list LeaderboardEntry :=
  map (recordEntry ET)
    (sliceTo 10 (sort (ascending ET)
       (filter (fun race => present (ET race)) data))).

Definition speedLeaders (data : list RaceRecord) : list LeaderboardEntry :=
  map (recordEntry MPH)
    (sliceTo 10 (sort (descending MPH)
       (filter (fun race => present (MPH race)) data))).

(** Best reaction time: [race.Reaction && race.Reaction > 0.001]. *)
Definition reactionFloor : num := Fin (1 # 1000).

Definition reactionLeaders (data : list RaceRecord) : list LeaderboardEntry :=
  map (recordEntry Reaction)
    (sliceTo 10 (sort (ascending Reaction)
       (filter (fun race =>
                  truthy (Reaction race) && gtb (Reaction race) reactionFloor)
          data))).

Definition sixtyFootLeaders (data : list RaceRecord) : list LeaderboardEntry :=
  map (recordEntry ft60)
    (sliceTo 10 (sort (ascending ft60)
       (filter (fun race => present (ft60 race)) data))).

(** *** Most wins *)

Record WinsEntry : Type := {
  w_driver : string;
  w_carNo : string;
  w_wins : nat
}.

Definition winsByDriver (data : list RaceRecord) : obj WinsEntry :=
  fold_left
    (fun acc race =>
       if isWin race
       then upsert (Driver race)
              {| w_driver := Driver race; w_carNo := CarNo race; w_wins := 0 |}
              (fun e => {| w_driver := w_driver e; w_carNo := w_carNo e;
                           w_wins := w_wins e + 1 |})
              acc
       else acc)
    data [].

Definition winsLeaderboard (data : list RaceRecord) : list LeaderboardEntry :=
  map (fun entry =>
         {| driver := w_driver entry; carNo := w_carNo entry;
            value := ofNat (w_wins entry);
            date := None; opponent := None; races := None;
            improvementPct := None |})
    (sliceTo 10
       (sort (descending (fun e => ofNat (w_wins e)))
          (values (winsByDriver data)))).

(** *** Best win rate (minimum 3 races) *)

Record RateStats : Type := {
  s_driver : string;
  s_carNo : string;
  s_wins : nat;
  s_races : nat
}.

Definition driverStats (data : list RaceRecord) : obj RateStats :=
  fold_left
    (fun acc race =>
       upsert (Driver race)
         {| s_driver := Driver race; s_carNo := CarNo race;
            s_wins := 0; s_races := 0 |}
         (fun s => {| s_driver := s_driver s; s_carNo := s_carNo s;
                      s_wins := if isWin race then s_wins s + 1 else s_wins s;
                      s_races := s_races s + 1 |})
         acc)
    data [].

Definition winRateEntry (stats : RateStats) : LeaderboardEntry :=
  {| driver := s_driver stats; carNo := s_carNo stats;
     value := mul (div (ofNat (s_wins stats)) (ofNat (s_races stats)))
                  (ofNat 100);
     date := None; opponent := None;
     races := Some (s_races stats); improvementPct := None |}.

Definition winRateLeaderboard (data : list RaceRecord)
  : list LeaderboardEntry :=
  sliceTo 10
    (sort (descending value)
       (map winRateEntry
          (filter (fun stats => 3 <=? s_races stats)
             (values (driverStats data))))).

(** *** Performance by race number *)

Record TimeSlot : Type := {
  t_raceNumber : Z;
  totalET : num;
  totalReaction : num;
  totalMPH : num;
  t_count : nat
}.

Record TimePerformance : Type := {
  p_raceNumber : Z;
  avgET : num;
  avgReaction : num;
  avgMPH : num;
  p_count : nat
}.

Definition addRace (race : RaceRecord) (item : TimeSlot) : TimeSlot :=
  let item1 :=
    if present (ET race)
    then {| t_raceNumber := t_raceNumber item;
            totalET := add (totalET item) (ET race);
            totalReaction := totalReaction item;
            totalMPH := totalMPH item;
            t_count := t_count item + 1 |}
    else item in
  let item2 :=
    if present (Reaction race)
    then {| t_raceNumber := t_raceNumber item1;
            totalET := totalET item1;
            totalReaction := add (totalReaction item1) (Reaction race);
            totalMPH := totalMPH item1;
            t_count := t_count item1 |}
    else item1 in
  if present (MPH race)
  then {| t_raceNumber := t_raceNumber item2;
          totalET := totalET item2;
          totalReaction := totalReaction item2;
          totalMPH := add (totalMPH item2) (MPH race);
          t_count := t_count item2 |}
  else item2.

Definition performanceByRaceNumber (data : list RaceRecord) : obj TimeSlot :=
  fold_left
    (fun acc race =>
       let raceNumber := Z.min 10 (RaceNumber race) in
       upsert (showZ raceNumber)
         {| t_raceNumber := raceNumber; totalET := zero;
            totalReaction := zero; totalMPH := zero; t_count := 0 |}
         (addRace race) acc)
    data [].

Definition timePerformanceData (data : list RaceRecord)
  : list TimePerformance :=
  sort (ascending (fun a => ofZ (p_raceNumber a)))
    (map (fun item =>
            {| p_raceNumber := t_raceNumber item;
               avgET := div (totalET item) (ofNat (t_count item));
               avgReaction := div (totalReaction item) (ofNat (t_count item));
               avgMPH := div (totalMPH item) (ofNat (t_count item));
               p_count := t_count item |})
       (filter (fun item => 0 <? t_count item)
          (values (performanceByRaceNumber data)))).

(** *** Win factors *)

Record WinAnalysis : Type := {
  betterReaction : nat;
  better60ft : nat;
  better330 : nat;
  betterMPH : nat;
  totalComparisons : nat
}.

Definition raceGroups (data : list RaceRecord) : obj (list RaceRecord) :=
  fold_left
    (fun acc race =>
       upsert (Date race ++ "-" ++ showZ (RaceNumber race))%string
         [] (fun group => group ++ [race]) acc)
    data [].

(** [w.f && l.f && w.f < l.f]. *)
Definition lower (f : RaceRecord -> num) (w l : RaceRecord) : bool :=
  truthy (f w) && truthy (f l) && ltb (f w) (f l).
Definition higher (f : RaceRecord -> num) (w l : RaceRecord) : bool :=
  truthy (f w) && truthy (f l) && gtb (f w) (f l).

Definition bump (b : bool) (n : nat) : nat := if b then n + 1 else n.

Definition compareGroup (winAnalysis : WinAnalysis) (group : list RaceRecord)
  : WinAnalysis :=
  if negb (List.length group =? 2) then winAnalysis
  else
    match find isWin group, find isLoss group with
    | Some winner, Some loser =>
        {| betterReaction :=
             bump (lower Reaction winner loser) (betterReaction winAnalysis);
           better60ft :=
             bump (lower ft60 winner loser) (better60ft winAnalysis);
           better330 :=
             bump (lower ft330 winner loser) (better330 winAnalysis);
           betterMPH :=
             bump (higher MPH winner loser) (betterMPH winAnalysis);
           totalComparisons := totalComparisons winAnalysis + 1 |}
    | _, _ => winAnalysis
    end.

Definition winAnalysis (data : list RaceRecord) : WinAnalysis :=
  fold_left compareGroup (values (raceGroups data))
    {| betterReaction := 0; better60ft := 0; better330 := 0;
       betterMPH := 0; totalComparisons := 0 |}.

Definition percentOf (tally total : nat) : num :=
  mul (div (ofNat tally) (ofNat total)) (ofNat 100).

Definition winFactorsData (data : list RaceRecord) : list (string * num) :=
  let wa := winAnalysis data in
  [ ("Better Reaction"%string,
     percentOf (betterReaction wa) (totalComparisons wa));
    ("Better 60ft"%string, percentOf (better60ft wa) (totalComparisons wa));
    ("Better 330ft"%string, percentOf (better330 wa) (totalComparisons wa));
    ("Higher MPH"%string, percentOf (betterMPH wa) (totalComparisons wa)) ].

(** *** Consistency ranking (standard deviation of the ET, min 3 races) *)

Record ETStats : Type := {
  e_driver : string;
  e_carNo : string;
  etTimes : list num
}.

Definition driverETStats (data : list RaceRecord) : obj ETStats :=
  fold_left
    (fun acc race =>
       upsert (Driver race)
         {| e_driver := Driver race; e_carNo := CarNo race; etTimes := [] |}
         (fun s => {| e_driver := e_driver s; e_carNo := e_carNo s;
                      etTimes := etTimes s ++ [ET race] |})
         acc)
    (filter (fun race => present (ET race)) data) [].

Section Consistency.
(** [Math.sqrt], the host's function. *)
Variable sqrt : num -> num.

Definition mean (times : list num) : num :=
  div (sum times) (ofNat (List.length times)).

Definition variance (times : list num) : num :=
  div (fold_left (fun sum val => add sum (pow2 (sub val (mean times))))
         times zero)
      (ofNat (List.length times)).

Definition stdDev (times : list num) : num := sqrt (variance times).

Definition consistencyEntry (stats : ETStats) : LeaderboardEntry :=
  {| driver := e_driver stats; carNo := e_carNo stats;
     value := stdDev (etTimes stats);
     date := None; opponent := None;
     races := Some (List.length (etTimes stats));
     improvementPct := None |}.

Definition consistencyLeaderboard (data : list RaceRecord)
  : list LeaderboardEntry :=
  sliceTo 6
    (sort (ascending value)
       (map consistencyEntry
          (filter (fun stats => 3 <=? List.length (etTimes stats))
             (values (driverETStats data))))).
End Consistency.

(** *** Improvement over time (ET and MPH) *)

Record Run : Type := {
  r_date : string;
  r_value : num
}.

Record Progress : Type := {
  g_driver : string;
  g_carNo : string;
  runs : list Run
}.

(** [driverProgress] for the ET and [driverMphProgress] for the MPH: the
    two reductions differ in the metric they read. *)
Definition progressOf (metric : RaceRecord -> num) (data : list RaceRecord)
  : obj Progress :=
  fold_left
    (fun acc race =>
       if negb (truthy (metric race)) || leb (metric race) zero then acc
       else upsert (Driver race)
              {| g_driver := Driver race; g_carNo := CarNo race; runs := [] |}
              (fun p => {| g_driver := g_driver p; g_carNo := g_carNo p;
                           runs := runs p ++
                                   [{| r_date := Date race;
                                       r_value := metric race |}] |})
              acc)
    data [].

Definition driverProgress := progressOf ET.
Definition driverMphProgress := progressOf MPH.

Section Improvement.
(** [new Date(s).getTime()], the host's function. *)
Variable getTime : string -> num.

Definition sortedRuns (p : Progress) : list Run :=
  sort (ascending (fun run => getTime (r_date run))) (runs p).

Definition runsAvg (rs : list Run) : num :=
  div (fold_left (fun sum run => add sum (r_value run)) rs zero)
      (ofNat (List.length rs)).

Definition earlyAvg (p : Progress) : num :=
  runsAvg (sliceTo 2 (sortedRuns p)).
Definition lateAvg (p : Progress) : num :=
  runsAvg (sliceLast 2 (sortedRuns p)).

(** The ET entry: [improvementPct] is [(earlyAvg - lateAvg) / earlyAvg]. *)
Definition improvementEntry (p : Progress) : LeaderboardEntry :=
  {| driver := displayName ". " (g_driver p); carNo := g_carNo p;
     value := sub (lateAvg p) (earlyAvg p);
     date := None; opponent := None; races := None;
     improvementPct :=
       Some (mul (div (sub (earlyAvg p) (lateAvg p)) (earlyAvg p))
                 (ofNat 100)) |}.

(** The MPH entry: [improvementPct] is [(lateAvg - earlyAvg) / earlyAvg]. *)
Definition mphImprovementEntry (p : Progress) : LeaderboardEntry :=
  {| driver := displayName ". " (g_driver p); carNo := g_carNo p;
     value := sub (lateAvg p) (earlyAvg p);
     date := None; opponent := None; races := None;
     improvementPct :=
       Some (mul (div (sub (lateAvg p) (earlyAvg p)) (earlyAvg p))
                 (ofNat 100)) |}.

Definition improvementData (data : list RaceRecord)
  : list LeaderboardEntry :=
  sliceTo 10
    (sort (ascending value)
       (map improvementEntry
          (filter (fun p => 4 <=? List.length (runs p))
             (values (driverProgress data))))).

Definition mphImprovementData (data : list RaceRecord)
  : list LeaderboardEntry :=
  sliceTo 10
    (sort (descending value)
       (map mphImprovementEntry
          (filter (fun p => 4 <=? List.length (runs p))
             (values (driverMphProgress data))))).
End Improvement.

End Statistics.

(* ================================================================== *)
(** ** DashboardComponent: processData and the stats overview          *)
(* ================================================================== *)

Module Dashboard.
Import JS Race.

Record WinTotal : Type := {
  wins : nat;
  total : nat
}.

Record WinRatePoint : Type := {
  name : string;
  value : num
}.

Record ReactionPoint : Type := {
  r_driver : string;
  r_value : num
}.

Record SpeedPoint : Type := {
  s_driver : string;
  speed : num
}.

(** The [Map] from driver to wins and total. *)
Definition driverStats (data : list RaceRecord) : obj WinTotal :=
  fold_left
    (fun m record =>
       upsert (Driver record) {| wins := 0; total := 0 |}
         (fun stats =>
            {| wins := if isWin record then wins stats + 1 else wins stats;
               total := total stats + 1 |})
         m)
    data [].

Definition winRatePoint (e : string * WinTotal) : WinRatePoint :=
  let (driver, stats) := e in
  {| name := displayName ". " driver;
     value := if 0 <? total stats
              then round (mul (div (ofNat (wins stats)) (ofNat (total stats)))
                              (ofNat 100))
              else zero |}.

(** Top 6 drivers by win rate. *)
Definition winRateData (data : list RaceRecord) : list WinRatePoint :=
  sliceTo 6
    (sort (fun a b => sub (value b) (value a))
       (map winRatePoint (entries (driverStats data)))).

(** The [Map] from driver to the reaction times that are [> 0]. *)
Definition reactionsByDriver (data : list RaceRecord) : obj (list num) :=
  fold_left
    (fun m record =>
       if present (Reaction record)
       then upsert (Driver record) []
              (fun reactions => reactions ++ [Reaction record]) m
       else m)
    data [].

Definition reactionPoint (e : string * list num) : ReactionPoint :=
  let (driver, reactions) := e in
  {| r_driver := displayName "." driver;
     r_value := toFixed 3 (div (sum reactions)
                               (ofNat (List.length reactions))) |}.

(** Top 6 drivers by reaction time. *)
Definition avgReactions (data : list RaceRecord) : list ReactionPoint :=
  sliceTo 6
    (sort (fun a b => sub (r_value a) (r_value b))
       (map reactionPoint (entries (reactionsByDriver data)))).

Definition speedsByDriver (data : list RaceRecord) : obj (list num) :=
  fold_left
    (fun m record =>
       if present (MPH record)
       then upsert (Driver record) []
              (fun speeds => speeds ++ [MPH record]) m
       else m)
    data [].

Definition speedPoint (e : string * list num) : SpeedPoint :=
  let (driver, speeds) := e in
  {| s_driver := displayName "." driver;
     speed := toFixed 2 (div (sum speeds) (ofNat (List.length speeds))) |}.

(** Top 6 drivers by speed. *)
Definition avgSpeeds (data : list RaceRecord) : list SpeedPoint :=
  sliceTo 6
    (sort (fun a b => sub (speed b) (speed a))
       (map speedPoint (entries (speedsByDriver data)))).

(** The stats overview: [raceData.reduce((sum, record) =>
    sum + (record.f || 0), 0) / raceData.length], shown with two
    decimals. *)
Definition overviewAverage (f : RaceRecord -> num) (raceData : list RaceRecord)
  : num :=
  toFixed 2
    (div (fold_left (fun sum record => add sum (orZero (f record)))
            raceData zero)
         (ofNat (List.length raceData))).

Definition averageMPH := overviewAverage MPH.
Definition averageET := overviewAverage ET.
End Dashboard.

(* ================================================================== *)
(** ** DriversComponent: the driver rollup and the radar chart         *)
(* ================================================================== *)

Module Drivers.
Import JS Race.

(** [interface DriverStats]. *)
Record DriverStats : Type := {
  name : string;
  carNumber : string;
  races : nat;
  wins : nat;
  losses : nat;
  winRate : num;
  avgReaction : num;
  avg60ft : num;
  avg330ft : num;
  avgEighthET : num;
  avgEighthMPH : num;
  bestEighthET : num;
  bestThreeThirty : num;
  bestSixtyFoot : num;
  bestReaction : num;
  bestEighthMPH : num;
  raceHistory : list RaceRecord
}.

Definition driverRaces (selectedDriver : string) (raceData : list RaceRecord)
  : list RaceRecord :=
  filter (fun record => String.eqb (Driver record) selectedDriver) raceData.

Definition calcAverage (values : list num) : num :=
  if 0 <? List.length values
  then div (sum values) (ofNat (List.length values))
  else zero.

(** [races.filter(race => race.f && race.f > 0).map(race => race.f)]. *)
Definition samples (f : RaceRecord -> num) (races : list RaceRecord)
  : list num :=
  map f (filter (fun race => present (f race)) races).

Definition bestOf (pick : list num -> num) (values : list num) : num :=
  if 0 <? List.length values then pick values else zero.

Definition compileStats (selectedDriver : string)
  (driverRaces : list RaceRecord) : DriverStats :=
  let wins := List.length (filter isWin driverRaces) in
  let losses := List.length (filter isLoss driverRaces) in
  let reactionTimes := samples Reaction driverRaces in
  let sixtyFootTimes := samples ft60 driverRaces in
  let threeThirtyFootTimes := samples ft330 driverRaces in
  let eighthETTimes := samples ET driverRaces in
  let eighthMPHSpeeds := samples MPH driverRaces in
  {| name := selectedDriver;
     carNumber := match driverRaces with
                  | race :: _ => CarNo race
                  | [] => EmptyString
                  end;
     races := List.length driverRaces;
     wins := wins;
     losses := losses;
     winRate := mul (div (ofNat wins) (ofNat (List.length driverRaces)))
                    (ofNat 100);
     avgReaction := calcAverage reactionTimes;
     avg60ft := calcAverage sixtyFootTimes;
     avg330ft := calcAverage threeThirtyFootTimes;
     avgEighthET := calcAverage eighthETTimes;
     avgEighthMPH := calcAverage eighthMPHSpeeds;
     bestEighthET := bestOf minOf eighthETTimes;
     bestThreeThirty := bestOf minOf threeThirtyFootTimes;
     bestSixtyFoot := bestOf minOf sixtyFootTimes;
     bestReaction := bestOf minOf reactionTimes;
     bestEighthMPH := bestOf maxOf eighthMPHSpeeds;
     raceHistory := driverRaces |}.

(** The effect on [selectedDriver] and [raceData]: the new value of the
    [driverStats] state, [prev] being its value before the effect ran.
    The first guard returns without setting the state. *)
Definition driverStatsEffect (selectedDriver : string)
  (raceData : list RaceRecord) (prev : option DriverStats)
  : option DriverStats :=
  if String.eqb selectedDriver "" || (List.length raceData =? 0) then prev
  else
    let driverRaces := driverRaces selectedDriver raceData in
    if List.length driverRaces =? 0 then None
    else Some (compileStats selectedDriver driverRaces).

(** *** The component's state and the events that change it *)

Record State : Type := {
  raceData : list RaceRecord;
  drivers : list string;
  selectedDriver : string;
  driverStats : option DriverStats
}.

Definition initial : State :=
  {| raceData := []; drivers := []; selectedDriver := EmptyString;
     driverStats := None |}.

(** [Array.from(new Set(names))]: first occurrences, in order. *)
Fixpoint unique (seen names : list string) : list string :=
  match names with
  | [] => []
  | x :: names' =>
      if existsb (String.eqb x) seen then unique seen names'
      else x :: unique (x :: seen) names'
  end.

(** The default [sort()] of strings. *)
Definition stringOrder (a b : string) : num :=
  match String.compare a b with
  | Lt => Fin (-1)
  | Eq => zero
  | Gt => Fin 1
  end.

Definition uniqueDrivers (parsedData : list RaceRecord) : list string :=
  sort stringOrder (unique [] (map Driver parsedData)).

Definition runEffect (s : State) : State :=
  {| raceData := raceData s; drivers := drivers s;
     selectedDriver := selectedDriver s;
     driverStats :=
       driverStatsEffect (selectedDriver s) (raceData s) (driverStats s) |}.

(** The CSV has been parsed. *)
Definition loaded (parsedData : list RaceRecord) (s : State) : State :=
  runEffect
    {| raceData := parsedData;
       drivers := uniqueDrivers parsedData;
       selectedDriver := match uniqueDrivers parsedData with
                         | d :: _ => d
                         | [] => selectedDriver s
                         end;
       driverStats := driverStats s |}.

(** The user picks an option of the driver select. *)
Definition selected (d : string) (s : State) : State :=
  runEffect
    {| raceData := raceData s; drivers := drivers s;
       selectedDriver := d; driverStats := driverStats s |}.

(** The states of the component: the data is fetched once, when the
    component mounts, and the select offers the drivers of the data. *)
Inductive reachable : State -> Prop :=
| reach_initial : reachable initial
| reach_loaded : forall parsedData, reachable (loaded parsedData initial)
| reach_selected : forall d s,
    reachable s -> In d (drivers s) -> reachable (selected d s).

(** *** The radar chart *)

Record DriverSamples : Type := {
  reaction : list num;
  sixtyFoot : list num;
  threeThirty : list num;
  eighthET : list num;
  eighthMPH : list num;
  d_wins : nat;
  d_races : nat
}.

Definition push (b : bool) (x : num) (l : list num) : list num :=
  if b then l ++ [x] else l.

Definition allDrivers (raceData : list RaceRecord) : obj DriverSamples :=
  fold_left
    (fun acc race =>
       upsert (Driver race)
         {| reaction := []; sixtyFoot := []; threeThirty := [];
            eighthET := []; eighthMPH := []; d_wins := 0; d_races := 0 |}
         (fun d =>
            {| reaction :=
                 push (present (Reaction race)) (Reaction race) (reaction d);
               sixtyFoot :=
                 push (present (ft60 race)) (ft60 race) (sixtyFoot d);
               threeThirty :=
                 push (present (ft330 race)) (ft330 race) (threeThirty d);
               eighthET := push (present (ET race)) (ET race) (eighthET d);
               eighthMPH := push (present (MPH race)) (MPH race) (eighthMPH d);
               d_wins := if isWin race then d_wins d + 1 else d_wins d;
               d_races := d_races d + 1 |})
         acc)
    raceData [].

Record Range : Type := {
  min : num;
  max : num
}.

Definition findMinMax (accessor : DriverSamples -> list num)
  (allDrivers : obj DriverSamples) : Range :=
  fold_left
    (fun r driverData =>
       let values := accessor driverData in
       if List.length values =? 0 then r
       else
         let avg := div (sum values) (ofNat (List.length values)) in
         {| min := if ltb avg (min r) then avg else min r;
            max := if gtb avg (max r) then avg else max r |})
    (values allDrivers)
    {| min := PInf; max := NInf |}.

Definition normalizeInverted (value min max : num) : num :=
  sub (ofNat 100) (mul (div (sub value min) (sub max min)) (ofNat 100)).

Definition normalizeDirectly (value min max : num) : num :=
  mul (div (sub value min) (sub max min)) (ofNat 100).

Definition radarData (driverStats : DriverStats) (raceData : list RaceRecord)
  : list (string * num) :=
  let all := allDrivers raceData in
  let reactionRange := findMinMax reaction all in
  let sixtyFootRange := findMinMax sixtyFoot all in
  let threeThirtyRange := findMinMax threeThirty all in
  let eighthETRange := findMinMax eighthET all in
  let eighthMPHRange := findMinMax eighthMPH all in
  [ ("Reaction"%string,
     normalizeInverted (avgReaction driverStats)
       (min reactionRange) (max reactionRange));
    ("60ft"%string,
     normalizeInverted (avg60ft driverStats)
       (min sixtyFootRange) (max sixtyFootRange));
    ("330ft"%string,
     normalizeInverted (avg330ft driverStats)
       (min threeThirtyRange) (max threeThirtyRange));
    ("1/8 ET"%string,
     normalizeInverted (avgEighthET driverStats)
       (min eighthETRange) (max eighthETRange));
    ("1/8 MPH"%string,
     normalizeDirectly (avgEighthMPH driverStats)
       (min eighthMPHRange) (max eighthMPHRange));
    ("Win Rate"%string, winRate driverStats) ].

(** [PerformanceRadarChart]: nothing without a rollup. *)
Definition performanceRadarChart (s : State) : option (list (string * num)) :=
  match driverStats s with
  | None => None
  | Some stats => Some (radarData stats (raceData s))
  end.
End Drivers.

(* ================================================================== *)
(** ** StatisticsComponent: the other charts of processStatistics      *)
(* ================================================================== *)

Module Charts.
Import JS Race.

(** [Object.entries(o)], in the order of [Object.values]. *)
Definition ownEntries (V : Type) (o : obj V) : list (string * V) :=
  sort (@indexOrder V) (filter (@isIndex V) o)
  ++ filter (fun e => negb (isIndex e)) o.

(** [parseInt(s)] of a decimal: an optional minus sign and the digits
    that follow, NaN without a digit.  Leading blanks, a plus sign and
    other radices are not modelled. *)
Fixpoint digitsPrefix (s : string) (acc : option N) : option N :=
  match s with
  | EmptyString => acc
  | String c s' =>
      match digit c with
      | Some d =>
          digitsPrefix s'
            (Some (match acc with Some a => a * 10 + d | None => d end)%N)
      | None => acc
      end
  end.

Definition parseInt (s : string) : num :=
  match s with
  | String "-"%char s' =>
      match digitsPrefix s' None with
      | Some n => ofZ (- Z.of_N n)
      | None => NaN
      end
  | _ =>
      match digitsPrefix s None with
      | Some n => ofZ (Z.of_N n)
      | None => NaN
      end
  end.

(** *** Race count by date *)

Record DateCount : Type := {
  c_date : string;
  c_count : nat
}.

Definition racesByDate (data : list RaceRecord) : obj DateCount :=
  fold_left
    (fun acc race =>
       upsert (Date race) {| c_date := Date race; c_count := 0 |}
         (fun e => {| c_date := c_date e; c_count := c_count e + 1 |})
         acc)
    data [].

Section ByDate.
Variable getTime : string -> num.

Definition raceCountData (data : list RaceRecord) : list DateCount :=
  sort (Statistics.ascending (fun e => getTime (c_date e)))
    (values (racesByDate data)).
End ByDate.

(** *** Correlation data: reaction time, or 60ft, against the ET *)

Record RelationshipData : Type := {
  pt_x : num;
  pt_y : num;
  pt_z : num;
  pt_driver : string
}.

(** [a || b] on numbers. *)
Definition orElse (a b : num) : num := if truthy a then a else b.

Definition relationship (f : RaceRecord -> num) (race : RaceRecord)
  : RelationshipData :=
  {| pt_x := f race; pt_y := ET race;
     pt_z := orElse (MPH race) (ofNat 100); pt_driver := Driver race |}.

Definition correlationOf (f : RaceRecord -> num) (data : list RaceRecord)
  : list RelationshipData :=
  map (relationship f)
    (filter (fun race => truthy (f race) && gtb (f race) zero
                         && truthy (ET race) && gtb (ET race) zero)
       data).

Definition reactionETData := correlationOf Reaction.
Definition sixtyETData := correlationOf ft60.

(** *** Heat map: average ET per date and race number *)

Record HeatCell : Type := {
  day : string;
  hour : num;
  h_value : num
}.

Definition uniqueDates (data : list RaceRecord) : list string :=
  sort Drivers.stringOrder (Drivers.unique [] (map Date data)).

(** [for (let i = 1; i <= 10; i++) bins[i] = []]. *)
Definition emptyBins : obj (list num) :=
  fold_left (fun bins i => set (showZ (Z.of_nat i)) [] bins) (seq 1 10) [].

(** One record of the day goes to its bin; [bins[hour].push] on a bin
    that does not exist is a TypeError, here [None]. *)
Definition binRace (bins : option (obj (list num))) (race : RaceRecord)
  : option (obj (list num)) :=
  match bins with
  | None => None
  | Some b =>
      let hour :=
        Z.min 10 (if (RaceNumber race =? 0)%Z then 1 else RaceNumber race) in
      if present (ET race)
      then match get (showZ hour) b with
           | Some times => Some (set (showZ hour) (times ++ [ET race]) b)
           | None => None
           end
      else Some b
  end.

Definition binCells (date : string) (bins : obj (list num)) : list HeatCell :=
  flat_map
    (fun e : string * list num =>
       let (hour, times) := e in
       if 0 <? List.length times
       then [{| day := date; hour := parseInt hour;
                h_value := div (sum times) (ofNat (List.length times)) |}]
       else [])
    (ownEntries bins).

Definition dayCells (data : list RaceRecord) (date : string)
  : option (list HeatCell) :=
  let dayRaces := filter (fun r => String.eqb (Date r) date) data in
  match fold_left binRace dayRaces (Some emptyBins) with
  | Some bins => Some (binCells date bins)
  | None => None
  end.

Definition heatMapData (data : list RaceRecord) : option (list HeatCell) :=
  fold_left
    (fun acc date =>
       match acc with
       | None => None
       | Some cells =>
           match dayCells data date with
           | Some new => Some (cells ++ new)
           | None => None
           end
       end)
    (uniqueDates data) (Some []).
End Charts.

(* ================================================================== *)
(** ** DashboardComponent: performance by date, and the focus driver   *)
(* ================================================================== *)

Module Trend.
Import JS Race.

(** *** Average ET and MPH by date *)

Record DateStats : Type := {
  d_et : list num;
  d_mph : list num;
  d_count : nat
}.

Record PerformanceData : Type := {
  pd_date : string;
  pd_et : num;
  pd_mph : num;
  pd_count : nat
}.

Definition datePerformanceMap (data : list RaceRecord) : obj DateStats :=
  fold_left
    (fun m record =>
       upsert (Date record) {| d_et := []; d_mph := []; d_count := 0 |}
         (fun dateStats =>
            {| d_et := Drivers.push (present (ET record)) (ET record)
                         (d_et dateStats);
               d_mph := Drivers.push (present (MPH record)) (MPH record)
                          (d_mph dateStats);
               d_count := d_count dateStats + 1 |})
         m)
    data [].

(** [values.length > 0 ? sum / values.length : 0]. *)
Definition avgOrZero (values : list num) : num :=
  if 0 <? List.length values
  then div (sum values) (ofNat (List.length values))
  else zero.

Definition performancePoint (e : string * DateStats) : PerformanceData :=
  let (date, stats) := e in
  {| pd_date := date;
     pd_et := toFixed 3 (avgOrZero (d_et stats));
     pd_mph := toFixed 2 (avgOrZero (d_mph stats));
     pd_count := d_count stats |}.

Section ByDate.
Variable getTime : string -> num.

Definition performanceByDate (data : list RaceRecord) : list PerformanceData :=
  sort (Statistics.ascending (fun p => getTime (pd_date p)))
    (map performancePoint (entries (datePerformanceMap data))).
End ByDate.

(** *** The earlier dashboard: the races of the driver with most races *)

Record RaceCount : Type := {
  rc_driver : string;
  rc_count : nat
}.

Record RacePoint : Type := {
  race : Z;
  rp_et : num;
  rp_mph : num;
  rp_reaction : num;
  result : string
}.

Definition driverRaceCounts (data : list RaceRecord) : list RaceCount :=
  sort (Statistics.descending (fun c => ofNat (rc_count c)))
    (map (fun e : string * Dashboard.WinTotal =>
            let (driver, stats) := e in
            {| rc_driver := driver; rc_count := Dashboard.total stats |})
       (entries (Dashboard.driverStats data))).

Definition racePoint (r : RaceRecord) : RacePoint :=
  {| race := RaceNumber r; rp_et := ET r; rp_mph := MPH r;
     rp_reaction := Reaction r; result := WinLoss r |}.

(** The chart of the focus driver; [None] when there is no driver and the
    state is not set. *)
Definition focusPerformance (data : list RaceRecord)
  : option (list RacePoint) :=
  match driverRaceCounts data with
  | [] => None
  | top :: _ =>
      let focusDriver := rc_driver top in
      Some (map racePoint
              (sort (Statistics.ascending (fun r => ofZ (RaceNumber r)))
                 (filter (fun record => String.eqb (Driver record) focusDriver)
                    data)))
  end.
End Trend.

(* ================================================================== *)
(** ** DriversComponent: trend by date, opponents and race history     *)
(* ================================================================== *)

Module Tables.
Import JS Race.

(** *** Performance trend by date *)

Record TrendPoint : Type := {
  t_date : string;
  t_et : option num;
  t_mph : option num;
  t_reaction : option num;
  t_races : nat;
  t_wins : nat
}.

Definition racesByDate (driverRaces : list RaceRecord)
  : obj (list RaceRecord) :=
  fold_left
    (fun acc race => upsert (Date race) [] (fun races => races ++ [race]) acc)
    driverRaces [].

(** [values.length > 0 ? pick(...values) : null]. *)
Definition bestOrNull (pick : list num -> num) (values : list num)
  : option num :=
  if 0 <? List.length values then Some (pick values) else None.

Definition trendPoint (e : string * list RaceRecord) : TrendPoint :=
  let (date, races) := e in
  {| t_date := date;
     t_et := bestOrNull minOf (Drivers.samples ET races);
     t_mph := bestOrNull maxOf (Drivers.samples MPH races);
     t_reaction := bestOrNull minOf (Drivers.samples Reaction races);
     t_races := List.length races;
     t_wins := List.length (filter isWin races) |}.

(** *** Opponents *)

Record OpponentRow : Type := {
  opponent : string;
  o_races : nat;
  o_wins : nat;
  o_losses : nat
}.

Record OpponentStats : Type := {
  row : OpponentRow;
  o_winRate : num
}.

Definition opponentData (driverRaces : list RaceRecord) : obj OpponentRow :=
  fold_left
    (fun acc race =>
       upsert (Opponent race)
         {| opponent := Opponent race; o_races := 0; o_wins := 0;
            o_losses := 0 |}
         (fun o =>
            {| opponent := opponent o;
               o_races := o_races o + 1;
               o_wins := if isWin race then o_wins o + 1 else o_wins o;
               o_losses := if isWin race then o_losses o
                           else o_losses o + 1 |})
         acc)
    driverRaces [].

Definition opponentDataArray (driverRaces : list RaceRecord)
  : list OpponentStats :=
  sort (Statistics.descending (fun s => ofNat (o_races (row s))))
    (map (fun data =>
            {| row := data;
               o_winRate := mul (div (ofNat (o_wins data))
                                     (ofNat (o_races data)))
                                (ofNat 100) |})
       (values (opponentData driverRaces))).

Section ByDate.
Variable getTime : string -> num.

Definition performanceData (driverRaces : list RaceRecord) : list TrendPoint :=
  sort (Statistics.ascending (fun p => getTime (t_date p)))
    (map trendPoint (Charts.ownEntries (racesByDate driverRaces))).

(** The race history table: [raceHistory.sort((a, b) =>
    new Date(b.Date).getTime() - new Date(a.Date).getTime())]. *)
Definition raceHistoryRows (raceHistory : list RaceRecord)
  : list RaceRecord :=
  sort (Statistics.descending (fun r => getTime (Date r))) raceHistory.
End ByDate.
End Tables.

(* ================================================================== *)
(** ** The season data generator: a single-elimination bracket         *)
(* ================================================================== *)

Module Generator.
Import JS.

Record Entrant : Type := {
  name : string;
  e_carNo : string
}.

Definition drivers : list Entrant :=
  [ {| name := "Jerry Williams"; e_carNo := "934" |};
    {| name := "Mike Anderson"; e_carNo := "993" |};
    {| name := "Patick Pendergrass"; e_carNo := "1X15" |};
    {| name := "Kavon Tibbs"; e_carNo := "316" |};
    {| name := "Tracy Stroop"; e_carNo := "396" |};
    {| name := "Kevin Beach"; e_carNo := "1X37" |};
    {| name := "Darrell Morton"; e_carNo := "1X17" |};
    {| name := "Steve Detwiler"; e_carNo := "1X53" |};
    {| name := "Angie Tibbs"; e_carNo := "518X" |};
    {| name := "Derek Dellinger"; e_carNo := "DX67" |};
    {| name := "Bobby Dunn"; e_carNo := "1X3E" |};
    {| name := "Pete Saffer"; e_carNo := "3X5W" |};
    {| name := "Robert Pitcock"; e_carNo := "93" |} ].

Definition eventDates : list string :=
  [ "2024-03-14"; "2024-04-25"; "2024-05-16"; "2024-06-13"; "2024-07-11";
    "2024-08-22"; "2024-09-19" ]%string.

(** The record returned by [generateRaceData].  The five measures are the
    numbers that the strings made by [toFixed] denote. *)
Record Race : Type := {
  driver : string;
  carNo : string;
  date : string;
  raceNumber : nat;
  reaction : num;
  sixtyFt : num;
  threethirtyFt : num;
  eighthET : num;
  eighthMPH : num;
  opponent : string;
  opponentCarNo : string;
  winLoss : string
}.

(** [race.winLoss = w]. *)
Definition withResult (w : string) (r : Race) : Race :=
  {| driver := driver r; carNo := carNo r; date := date r;
     raceNumber := raceNumber r; reaction := reaction r;
     sixtyFt := sixtyFt r; threethirtyFt := threethirtyFt r;
     eighthET := eighthET r; eighthMPH := eighthMPH r;
     opponent := opponent r; opponentCarNo := opponentCarNo r;
     winLoss := w |}.

(** [a[i] = v], within the bounds of the array. *)
Fixpoint update (X : Type) (i : nat) (v : X) (a : list X) : list X :=
  match a, i with
  | [], _ => []
  | _ :: a', 0 => v :: a'
  | x :: a', S i' => x :: update i' v a'
  end.

(** [[a[i], a[j]] = [a[j], a[i]]] for two indices of the array; an index
    out of range, which [Math.random] below 1 excludes, leaves the array
    as it is. *)
Definition swap (X : Type) (i j : nat) (a : list X) : list X :=
  match nth_error a i, nth_error a j with
  | Some x, Some y => update j x (update i y a)
  | _, _ => a
  end.

(** [Math.pow(2, Math.ceil(Math.log2(n)))], the logarithm taken as exact:
    0 for 0, else the least power of two that is at least [n]. *)
Definition requiredDrivers (n : nat) : nat :=
  if n =? 0 then 0 else 2 ^ Nat.log2_up n.

Section Random.
(** [random k] is the result of the call number [k] of [Math.random()];
    the functions that call it take the number of calls made so far and
    return it with their result. *)
Variable random : nat -> Q.

(** [(Math.random() * scale + offset).toFixed(d)]. *)
Definition draw (scale offset : Q) (d : nat) (k : nat) : num :=
  toFixed d (add (mul (Fin (random k)) (Fin scale)) (Fin offset)).

Definition generateRaceData (driver : Entrant) (opponent : option Entrant)
  (date : string) (raceNumber : nat) (k : nat) : Race * nat :=
  ({| driver := name driver;
      carNo := e_carNo driver;
      date := date;
      raceNumber := raceNumber;
      reaction := draw (1 # 2) (1 # 1000) 4 k;
      sixtyFt := draw (3 # 2) 1 4 (k + 1);
      threethirtyFt := draw 2 4 4 (k + 2);
      eighthET := draw 2 7 4 (k + 3);
      eighthMPH := draw 90 90 2 (k + 4);
      opponent := match opponent with
                  | Some o => name o
                  | None => "Bye"
                  end;
      opponentCarNo := match opponent with
                       | Some o => e_carNo o
                       | None => "N/A"
                       end;
      winLoss := "TBD" |},
   k + 5).

(** [Math.floor(Math.random() * (i + 1))]. *)
Definition drawIndex (i : nat) (k : nat) : nat :=
  Z.to_nat (Qfloor (random k * inject_Z (Z.of_nat (i + 1)))).

(** The shuffle: [for (let i = a.length - 1; i > 0; i--)], with
    [j = Math.floor(Math.random() * (i + 1))]. *)
Fixpoint shuffleFrom (X : Type) (i : nat) (a : list X) (k : nat)
  : list X * nat :=
  match i with
  | 0 => (a, k)
  | S i' =>
      let j := drawIndex i k in
      shuffleFrom i' (swap i j a) (S k)
  end.

Definition shuffle (X : Type) (a : list X) (k : nat) : list X * nat :=
  shuffleFrom (List.length a - 1) a k.

(** One round: the drivers two by two; [None] is a bye.  A round of odd
    length would read past its end; the rounds of a bracket are even, and
    the case gives no result here. *)
Fixpoint playRound (eventDate : string) (currentRound : list (option Entrant))
  (nextRound : list (option Entrant)) (results : list Race)
  (raceNumber : nat) (k : nat)
  : option (list (option Entrant) * list Race * nat * nat) :=
  match currentRound with
  | [] => Some (nextRound, results, raceNumber, k)
  | [_] => None
  | driver1 :: driver2 :: rest =>
      match driver1, driver2 with
      | None, None =>
          playRound eventDate rest (nextRound ++ [None]) results raceNumber k
      | None, Some d2 =>
          let (byeRace, k') := generateRaceData d2 None eventDate raceNumber k in
          playRound eventDate rest (nextRound ++ [Some d2])
            (results ++ [withResult "Win" byeRace]) (S raceNumber) k'
      | Some d1, None =>
          let (byeRace, k') := generateRaceData d1 None eventDate raceNumber k in
          playRound eventDate rest (nextRound ++ [Some d1])
            (results ++ [withResult "Win" byeRace]) (S raceNumber) k'
      | Some d1, Some d2 =>
          let (race1, k1) :=
            generateRaceData d1 (Some d2) eventDate raceNumber k in
          let (race2, k2) :=
            generateRaceData d2 (Some d1) eventDate raceNumber k1 in
          if ltb (eighthET race1) (eighthET race2)
          then playRound eventDate rest (nextRound ++ [Some d1])
                 (results ++ [withResult "Win" race1; withResult "Loss" race2])
                 (S raceNumber) k2
          else playRound eventDate rest (nextRound ++ [Some d2])
                 (results ++ [withResult "Loss" race1; withResult "Win" race2])
                 (S raceNumber) k2
      end
  end.

(** [while (currentRound.length > 1)], with the rounds left to run. *)
Fixpoint rounds (fuel : nat) (eventDate : string)
  (currentRound : list (option Entrant)) (results : list Race)
  (raceNumber : nat) (k : nat) : option (list Race * nat) :=
  if List.length currentRound <=? 1 then Some (results, k)
  else
    match fuel with
    | 0 => None
    | S fuel' =>
        match playRound eventDate currentRound [] results raceNumber k with
        | Some (nextRound, results', raceNumber', k') =>
            rounds fuel' eventDate nextRound results' raceNumber' k'
        | None => None
        end
    end.

(** The bracket of a list of drivers: shuffled, filled with byes up to the
    power of two, and played. *)
Definition bracket (entrants : list Entrant) (k : nat)
  : list (option Entrant) * nat :=
  let (shuffled, k') := shuffle entrants k in
  (map Some shuffled
   ++ repeat None (requiredDrivers (List.length shuffled)
                   - List.length shuffled),
   k').

Definition simulateTournamentOf (entrants : list Entrant)
  (eventDate : string) (k : nat) : option (list Race * nat) :=
  let (tournamentDrivers, k') := bracket entrants k in
  rounds (List.length tournamentDrivers) eventDate tournamentDrivers [] 1 k'.

Definition simulateTournament (eventDate : string) (k : nat)
  : option (list Race * nat) :=
  simulateTournamentOf drivers eventDate k.

Definition generateSeasonData (k : nat) : option (list Race * nat) :=
  fold_left
    (fun acc date =>
       match acc with
       | None => None
       | Some (allRaceData, k') =>
           match simulateTournament date k' with
           | Some (tournamentResults, k'') =>
               Some (allRaceData ++ tournamentResults, k'')
           | None => None
           end
       end)
    eventDates (Some ([], k)).
End Random.
End Generator.

(* ================================================================== *)
(** ** Vocabulary of the properties                                    *)
(* ================================================================== *)

Module Spec.
Import JS Race.

(** The reductions that build a dictionary keyed by a field of the
    record all have one shape. *)
Section Grouping.
Variables R V : Type.
Variable key : R -> string.
Variable init : R -> V.
Variable step : R -> V -> V.

Definition groupFold (data : list R) : obj V :=
  fold_left (fun acc r => upsert (key r) (init r) (step r) acc) data [].

(** The records of one key, in input order. *)
Definition groupOf (k : string) (data : list R) : list R :=
  filter (fun r => String.eqb (key r) k) data.

(** What the reduction has accumulated for a group: nothing for an
    empty group, else the steps of its records from the initial value
    made at its first record. *)
Definition foldGroup (g : list R) : option V :=
  match g with
  | [] => None
  | r :: _ => Some (fold_left (fun v r' => step r' v) g (init r))
  end.
End Grouping.

(** Records whose keys name no inherited property: the dictionary of an
    object literal holds an entry for each of them. *)
Definition plainKeys (R : Type) (key : R -> string) (data : list R) : Prop :=
  forallb (fun r => plainKey (key r)) data = true.

(** The records of a driver, and those with a given metric present. *)
Definition racesOf (d : string) (data : list RaceRecord) : list RaceRecord :=
  groupOf Driver d data.

Definition samplesOf (metric : RaceRecord -> num) (d : string)
  (data : list RaceRecord) : list RaceRecord :=
  groupOf Driver d (filter (fun race => present (metric race)) data).

Definition notNaN (x : num) : Prop := x <> NaN.
Definition finite (x : num) : Prop := exists q : Q, x = Fin q.

(** The count-valued fields of a driver rollup. *)
Definition countFields (st : Drivers.DriverStats) : list nat :=
  [Drivers.races st; Drivers.wins st; Drivers.losses st].

(** No tally of the win analysis exceeds the number of comparisons. *)
Definition bounded (wa : Statistics.WinAnalysis) : Prop :=
  Statistics.betterReaction wa <= Statistics.totalComparisons wa /\
  Statistics.better60ft wa <= Statistics.totalComparisons wa /\
  Statistics.better330 wa <= Statistics.totalComparisons wa /\
  Statistics.betterMPH wa <= Statistics.totalComparisons wa.

(** A number [> 0]. *)
Definition positive (x : num) : Prop := gtb x zero = true.

(** What the statistics view accumulates for a driver: the driver and car
    of the first record, the races and the wins. *)
Definition rateStatsOf (d : string) (data : list RaceRecord)
  : option Statistics.RateStats :=
  match racesOf d data with
  | [] => None
  | r :: g =>
      Some {| Statistics.s_driver := Driver r;
              Statistics.s_carNo := CarNo r;
              Statistics.s_wins := List.length (filter isWin (r :: g));
              Statistics.s_races := List.length (r :: g) |}
  end.

(** The win-rate leaderboard before it is sorted and cut. *)
Definition winRateCandidates (data : list RaceRecord)
  : list Statistics.LeaderboardEntry :=
  map Statistics.winRateEntry
    (filter (fun stats => 3 <=? Statistics.s_races stats)
       (values (Statistics.driverStats data))).

(** What the dashboard accumulates for a driver. *)
Definition winTotalOf (d : string) (data : list RaceRecord)
  : option Dashboard.WinTotal :=
  match racesOf d data with
  | [] => None
  | g => Some {| Dashboard.wins := List.length (filter isWin g);
                 Dashboard.total := List.length g |}
  end.

(** A finite number [>= 0]. *)
Definition nonneg (x : num) : Prop := exists q : Q, x = Fin q /\ (0 <= q)%Q.

(** A list in ascending, or descending, order of a metric. *)
Definition sortedAscending (A : Type) (f : A -> num) : list A -> Prop :=
  StronglySorted (fun a b => leb (f a) (f b) = true).
Definition sortedDescending (A : Type) (f : A -> num) : list A -> Prop :=
  StronglySorted (fun a b => leb (f b) (f a) = true).

(** [result] keeps the [K] lowest, or highest, of the [candidates]:
    followed by the candidates it leaves out, in some order [rest], it is
    all the candidates in ascending, or descending, order of the metric;
    and it leaves one out only when it has [K] entries. *)
Definition lowestKept (A : Type) (K : nat) (f : A -> num)
  (candidates result : list A) : Prop :=
  List.length result = Nat.min K (List.length candidates) /\
  exists rest, Permutation (result ++ rest) candidates /\
               sortedAscending f (result ++ rest).

Definition highestKept (A : Type) (K : nat) (f : A -> num)
  (candidates result : list A) : Prop :=
  List.length result = Nat.min K (List.length candidates) /\
  exists rest, Permutation (result ++ rest) candidates /\
               sortedDescending f (result ++ rest).

(** The win rate of a driver: the wins over the races, as a percentage. *)
Definition winRateOf (d : string) (data : list RaceRecord) : num :=
  mul (div (ofNat (List.length (filter isWin (racesOf d data))))
           (ofNat (List.length (racesOf d data))))
      (ofNat 100).

(** The population variance in the words of the specification: the squared
    deviations from the mean, summed and divided by N. *)
Definition populationVariance (xs : list num) : num :=
  let n := ofNat (List.length xs) in
  let mu := div (sum xs) n in
  div (sum (map (fun x => pow2 (sub x mu)) xs)) n.

(** The sample variance, which divides by N - 1. *)
Definition sampleVariance (xs : list num) : num :=
  let mu := div (sum xs) (ofNat (List.length xs)) in
  div (sum (map (fun x => pow2 (sub x mu)) xs)) (ofNat (List.length xs - 1)).

(** What the consistency ranking accumulates for a driver: the ET values
    that are present, in input order. *)
Definition etStatsOf (d : string) (data : list RaceRecord)
  : option Statistics.ETStats :=
  match samplesOf ET d data with
  | [] => None
  | r :: g =>
      Some {| Statistics.e_driver := Driver r;
              Statistics.e_carNo := CarNo r;
              Statistics.etTimes := map ET (r :: g) |}
  end.

(** The consistency ranking before it is sorted and cut. *)
Definition consistencyCandidates (sqrt : num -> num) (data : list RaceRecord)
  : list Statistics.LeaderboardEntry :=
  map (Statistics.consistencyEntry sqrt)
    (filter (fun stats => 3 <=? List.length (Statistics.etTimes stats))
       (values (Statistics.driverETStats data))).

(** The run kept for a record by the improvement analysis. *)
Definition mkRun (metric : RaceRecord -> num) (race : RaceRecord)
  : Statistics.Run :=
  {| Statistics.r_date := Date race; Statistics.r_value := metric race |}.

(** What the improvement analysis accumulates for a driver: the runs with
    the metric present, in input order. *)
Definition progressRecord (metric : RaceRecord -> num) (d : string)
  (data : list RaceRecord) : option Statistics.Progress :=
  match samplesOf metric d data with
  | [] => None
  | r :: g =>
      Some {| Statistics.g_driver := Driver r;
              Statistics.g_carNo := CarNo r;
              Statistics.runs := map (mkRun metric) (r :: g) |}
  end.

(** The drivers kept by the improvement analysis: at least 4 runs. *)
Definition eligibleProgress (metric : RaceRecord -> num)
  (data : list RaceRecord) : list Statistics.Progress :=
  filter (fun p => 4 <=? List.length (Statistics.runs p))
    (values (Statistics.progressOf metric data)).





(** The entries of [result] that share a metric value come in the order
    they have among the [candidates]. *)
Definition tiesInOrder (A : Type) (f : A -> num) (candidates result : list A)
  : Prop :=
  forall v, exists n,
    filter (fun e => eqb (f e) v) result =
    firstn n (filter (fun e => eqb (f e) v) candidates).

(** [result] is a leaderboard of [candidates]: at most [K] of them, in
    ascending (or descending) order of the metric, ties in order. *)
Definition topAscending (A : Type) (K : nat) (f : A -> num)
  (candidates result : list A) : Prop :=
  List.length result <= K /\
  incl result candidates /\
  sortedAscending f result /\
  tiesInOrder f candidates result.

Definition topDescending (A : Type) (K : nat) (f : A -> num)
  (candidates result : list A) : Prop :=
  List.length result <= K /\
  incl result candidates /\
  sortedDescending f result /\
  tiesInOrder f candidates result.

(** The entry of the most-wins leaderboard. *)
Definition winsEntry (entry : Statistics.WinsEntry)
  : Statistics.LeaderboardEntry :=
  {| Statistics.driver := Statistics.w_driver entry;
     Statistics.carNo := Statistics.w_carNo entry;
     Statistics.value := ofNat (Statistics.w_wins entry);
     Statistics.date := None; Statistics.opponent := None;
     Statistics.races := None; Statistics.improvementPct := None |}.

(** The records that a record-level leaderboard ranks. *)
Definition withMetric (metric : RaceRecord -> num) (data : list RaceRecord)
  : list RaceRecord :=
  filter (fun race => present (metric race)) data.

Definition aboveFloor (data : list RaceRecord) : list RaceRecord :=
  filter (fun race => truthy (Reaction race)
                      && gtb (Reaction race) Statistics.reactionFloor) data.

(** The cut, order and ties of the twelve leaderboards of the statistics
    view and the dashboard, each against the candidates it ranks. *)
Definition leaderboardsContract (sqrt : num -> num) (getTime : string -> num)
  (data : list RaceRecord) : Prop :=
  (* record-level, cut at 10 *)
  topAscending 10 Statistics.value
    (map (Statistics.recordEntry ET) (withMetric ET data))
    (Statistics.etLeaders data) /\
  topDescending 10 Statistics.value
    (map (Statistics.recordEntry MPH) (withMetric MPH data))
    (Statistics.speedLeaders data) /\
  topAscending 10 Statistics.value
    (map (Statistics.recordEntry Reaction) (aboveFloor data))
    (Statistics.reactionLeaders data) /\
  topAscending 10 Statistics.value
    (map (Statistics.recordEntry ft60) (withMetric ft60 data))
    (Statistics.sixtyFootLeaders data) /\
  (* per driver in the statistics view, cut at 10 *)
  topDescending 10 Statistics.value
    (map winsEntry (values (Statistics.winsByDriver data)))
    (Statistics.winsLeaderboard data) /\
  topDescending 10 Statistics.value
    (winRateCandidates data)
    (Statistics.winRateLeaderboard data) /\
  topAscending 10 Statistics.value
    (map (Statistics.improvementEntry getTime) (eligibleProgress ET data))
    (Statistics.improvementData getTime data) /\
  topDescending 10 Statistics.value
    (map (Statistics.mphImprovementEntry getTime) (eligibleProgress MPH data))
    (Statistics.mphImprovementData getTime data) /\
  (* per driver, cut at 6 *)
  topAscending 6 Statistics.value
    (consistencyCandidates sqrt data)
    (Statistics.consistencyLeaderboard sqrt data) /\
  topDescending 6 Dashboard.value
    (map Dashboard.winRatePoint (entries (Dashboard.driverStats data)))
    (Dashboard.winRateData data) /\
  topAscending 6 Dashboard.r_value
    (map Dashboard.reactionPoint (entries (Dashboard.reactionsByDriver data)))
    (Dashboard.avgReactions data) /\
  topDescending 6 Dashboard.speed
    (map Dashboard.speedPoint (entries (Dashboard.speedsByDriver data)))
    (Dashboard.avgSpeeds data).

(** A head-to-head pair that the win analysis compares: two records, a
    winner and a loser among them. *)
Definition validPair (group : list RaceRecord) : bool :=
  (List.length group =? 2)
  && match find isWin group, find isLoss group with
     | Some _, Some _ => true
     | _, _ => false
     end.

(** The key of a heat, the date and the race number of a record, and the
    heats of the data: one key for each date and race number that occurs. *)
Definition raceKey (race : RaceRecord) : string :=
  (Date race ++ "-" ++ showZ (RaceNumber race))%string.

Definition heats (data : list RaceRecord) : list string :=
  nodup string_dec (map raceKey data).

(** A string with a hyphen. *)
Fixpoint hyphenated (s : string) : bool :=
  match s with
  | EmptyString => false
  | String c s' => Ascii.eqb c "-" || hyphenated s'
  end.

(** A finite number between 0 and 100. *)
Definition percentage (x : num) : Prop :=
  exists q : Q, x = Fin q /\ (0 <= q)%Q /\ (q <= 100)%Q.

(** What the most-wins leaderboard accumulates for a driver. *)
Definition winsOf (d : string) (data : list RaceRecord) : nat :=
  List.length (filter isWin (racesOf d data)).

(** The keys of the bins of the heat map, and bins in good order: those
    keys, each with ET values [> 0]. *)
Definition binKeys : list string :=
  map (fun i => showZ (Z.of_nat i)) (seq 1 10).

Definition wfBins (b : obj (list num)) : Prop :=
  map fst b = binKeys /\ Forall (fun e => Forall positive (snd e)) b.

(** A record that the heat map cannot bin: an ET and a negative race
    number. *)
Definition unbinned (race : RaceRecord) : Prop :=
  present (ET race) = true /\ (RaceNumber race < 0)%Z.

(** The records that the averages by race number put in the slot [n]:
    those whose race number, capped at 10, is [n], with an ET. *)
Definition slotOf (n : Z) (data : list RaceRecord) : list RaceRecord :=
  filter (fun r => present (ET r))
    (filter (fun r => (Z.min 10 (RaceNumber r) =? n)%Z) data).

(** The point that the dashboard charts for a date: the averages of the ET
    and the MPH values [> 0] of its records, and the number of records. *)
Definition pointOfDate (d : string) (data : list RaceRecord)
  : Trend.PerformanceData :=
  let g := groupOf Date d data in
  {| Trend.pd_date := d;
     Trend.pd_et := toFixed 3 (Trend.avgOrZero (Drivers.samples ET g));
     Trend.pd_mph := toFixed 2 (Trend.avgOrZero (Drivers.samples MPH g));
     Trend.pd_count := List.length g |}.

(** The row of the opponents table for an opponent: the races against that
    opponent, the wins among them, the other races, and the win rate. *)
Definition opponentStatsOf (o : string) (driverRaces : list RaceRecord)
  : Tables.OpponentStats :=
  let g := groupOf Opponent o driverRaces in
  let wins := List.length (filter isWin g) in
  {| Tables.row :=
       {| Tables.opponent := o;
          Tables.o_races := List.length g;
          Tables.o_wins := wins;
          Tables.o_losses :=
            List.length (filter (fun race => negb (isWin race)) g) |};
     Tables.o_winRate :=
       mul (div (ofNat wins) (ofNat (List.length g))) (ofNat 100) |}.

(** The least, or greatest, value of a list: one of its values, with no
    value below, or above, it. *)
Definition lowest (m : num) (l : list num) : Prop :=
  In m l /\ Forall (fun x => leb m x = true) l.
Definition highest (m : num) (l : list num) : Prop :=
  In m l /\ Forall (fun x => leb x m = true) l.

(** The best and the average of the rollup for the samples of a time, and
    of the speed: both 0 without a sample, else the least, or greatest,
    sample and the sum of the samples over their number. *)
Definition timeSummary (best avg : num) (l : list num) : Prop :=
  (l = [] -> best = zero /\ avg = zero) /\
  (l <> [] ->
   lowest best l /\ avg = div (sum l) (ofNat (List.length l))).
Definition speedSummary (best avg : num) (l : list num) : Prop :=
  (l = [] -> best = zero /\ avg = zero) /\
  (l <> [] ->
   highest best l /\ avg = div (sum l) (ofNat (List.length l))).

(** Strings in the order of the default [sort()]. *)
Definition alphabetical : list string -> Prop :=
  StronglySorted (fun a b => String.compare a b <> Gt).

(** The point of the driver's trend for a date: the best values of the
    driver's races of that date. *)
Definition trendOfDate (d : string) (driverRaces : list RaceRecord)
  : Tables.TrendPoint :=
  Tables.trendPoint (d, groupOf Date d driverRaces).

(** A best value that is null without samples. *)
Definition lowestOrNull (best : option num) (l : list num) : Prop :=
  match best with
  | None => l = []
  | Some m => lowest m l
  end.
Definition highestOrNull (best : option num) (l : list num) : Prop :=
  match best with
  | None => l = []
  | Some m => highest m l
  end.

(** *** The season data generator *)

(** The results of [Math.random()] lie in [0, 1). *)
Definition unitInterval (random : nat -> Q) : Prop :=
  forall k, (0 <= random k)%Q /\ (random k < 1)%Q.

(** The entrant that a record is about, and the records of the winners and
    of the losers. *)
Definition entrantOf (r : Generator.Race) : Generator.Entrant :=
  {| Generator.name := Generator.driver r;
     Generator.e_carNo := Generator.carNo r |}.
Definition won (r : Generator.Race) : bool :=
  String.eqb (Generator.winLoss r) "Win".
Definition lost (r : Generator.Race) : bool :=
  String.eqb (Generator.winLoss r) "Loss".

(** The drivers of a round, the byes left out. *)
Definition alive (round : list (option Generator.Entrant))
  : list Generator.Entrant :=
  flat_map (fun o : option Generator.Entrant =>
              match o with Some e => [e] | None => [] end)
    round.

Definition losers (results : list Generator.Race)
  : list Generator.Entrant :=
  map entrantOf (filter lost results).

(** A finite number between two bounds. *)
Definition between (lo hi : Q) (x : num) : Prop :=
  exists q : Q, x = Fin q /\ (lo <= q)%Q /\ (q <= hi)%Q.

(** The five measures of a generated record are in their ranges. *)
Definition measured (r : Generator.Race) : Prop :=
  between (1 # 1000) (501 # 1000) (Generator.reaction r) /\
  between 1 (5 # 2) (Generator.sixtyFt r) /\
  between 4 6 (Generator.threethirtyFt r) /\
  between 7 9 (Generator.eighthET r) /\
  between 90 180 (Generator.eighthMPH r).

(** The record of a bye, and the two records of a race. *)
Definition byeRace (eventDate : string) (n : nat) (r : Generator.Race)
  : Prop :=
  Generator.date r = eventDate /\ Generator.raceNumber r = n /\
  Generator.opponent r = "Bye"%string /\
  Generator.opponentCarNo r = "N/A"%string /\
  Generator.winLoss r = "Win"%string.

Definition opposed (r1 r2 : Generator.Race) : Prop :=
  Generator.opponent r1 = Generator.driver r2 /\
  Generator.opponentCarNo r1 = Generator.carNo r2 /\
  Generator.opponent r2 = Generator.driver r1 /\
  Generator.opponentCarNo r2 = Generator.carNo r1.

Definition pairRace (eventDate : string) (n : nat)
  (r1 r2 : Generator.Race) : Prop :=
  Generator.date r1 = eventDate /\ Generator.date r2 = eventDate /\
  Generator.raceNumber r1 = n /\ Generator.raceNumber r2 = n /\
  opposed r1 r2 /\
  ((Generator.winLoss r1 = "Win"%string /\
    Generator.winLoss r2 = "Loss"%string /\
    ltb (Generator.eighthET r1) (Generator.eighthET r2) = true) \/
   (Generator.winLoss r1 = "Loss"%string /\
    Generator.winLoss r2 = "Win"%string /\
    leb (Generator.eighthET r2) (Generator.eighthET r1) = true)).

(** The results of an event from the race number [n] up to [m]: for each
    race number in turn, the record of a bye or the two records of a
    race. *)
Inductive bracketLog (eventDate : string)
  : nat -> list Generator.Race -> nat -> Prop :=
| log_done : forall n, bracketLog eventDate n [] n
| log_bye : forall n r rest m,
    byeRace eventDate n r -> bracketLog eventDate (S n) rest m ->
    bracketLog eventDate n (r :: rest) m
| log_pair : forall n r1 r2 rest m,
    pairRace eventDate n r1 r2 -> bracketLog eventDate (S n) rest m ->
    bracketLog eventDate n (r1 :: r2 :: rest) m.

(** The places of a round that hold a driver, and what a round over such
    places yields: the places of the next round and the number of
    records. *)
Definition isSome (A : Type) (o : option A) : bool :=
  match o with Some _ => true | None => false end.

Fixpoint nextPlaces (places : list bool) : list bool :=
  match places with
  | a :: b :: rest => (a || b) :: nextPlaces rest
  | _ => []
  end.

Fixpoint roundRecords (places : list bool) : nat :=
  match places with
  | a :: b :: rest =>
      (if a && b then 2 else if a || b then 1 else 0) + roundRecords rest
  | _ => 0
  end.

Fixpoint bracketRecords (fuel : nat) (places : list bool) : nat :=
  if List.length places <=? 1 then 0
  else match fuel with
       | 0 => 0
       | S fuel' =>
           roundRecords places + bracketRecords fuel' (nextPlaces places)
       end.

(** The number of records of an event with [n] entrants. *)
Definition eventRecords (n : nat) : nat :=
  let size := Generator.requiredDrivers n in
  bracketRecords size (repeat true n ++ repeat false (size - n)).

(** What a round yields: the places of the next round, the records added
    and the calls of [Math.random] made. *)
Definition roundOutcome (date : string)
  (cur next : list (option Generator.Entrant)) (n k : nat)
  (next' : list (option Generator.Entrant)) (added : list Generator.Race)
  (n' k' : nat) : Prop :=
  map (@isSome Generator.Entrant) next'
  = map (@isSome Generator.Entrant) next
    ++ nextPlaces (map (@isSome Generator.Entrant) cur) /\
  List.length added = roundRecords (map (@isSome Generator.Entrant) cur) /\
  k' = k + 5 * List.length added /\
  Permutation (alive next' ++ losers added) (alive next ++ alive cur) /\
  bracketLog date n added n' /\
  Forall measured added.

(** What the rounds yield. *)
Definition bracketOutcome (date : string) (fuel : nat)
  (cur : list (option Generator.Entrant)) (n k : nat)
  (final : list (option Generator.Entrant)) (added : list Generator.Race)
  (k' : nat) : Prop :=
  List.length final = 1 /\
  (alive cur <> [] -> alive final <> []) /\
  Permutation (alive final ++ losers added) (alive cur) /\
  (exists n', bracketLog date n added n') /\
  Forall measured added /\
  List.length added
  = bracketRecords fuel (map (@isSome Generator.Entrant) cur) /\
  k' = k + 5 * List.length added.

(** What the simulation of an event yields. *)
Definition eventOutcome (entrants : list Generator.Entrant) (date : string)
  (k : nat) (results : list Generator.Race) (k' : nat) : Prop :=
  (exists m, bracketLog date 1 results m) /\
  Forall measured results /\
  List.length results = eventRecords (List.length entrants) /\
  k' = k + (List.length entrants - 1) + 5 * List.length results /\
  (entrants <> [] ->
   exists champion, Permutation (champion :: losers results) entrants).

(** *** The radar chart *)

(** What the radar chart collects for the records of a driver. *)
Definition driverSamplesOf (g : list RaceRecord) : Drivers.DriverSamples :=
  {| Drivers.reaction := Drivers.samples Reaction g;
     Drivers.sixtyFoot := Drivers.samples ft60 g;
     Drivers.threeThirty := Drivers.samples ft330 g;
     Drivers.eighthET := Drivers.samples ET g;
     Drivers.eighthMPH := Drivers.samples MPH g;
     Drivers.d_wins := List.length (filter isWin g);
     Drivers.d_races := List.length g |}.

(** An axis of the chart: a metric and the accessor of its values. *)
Definition axis (f : RaceRecord -> num)
  (accessor : Drivers.DriverSamples -> list num) : Prop :=
  forall g, accessor (driverSamplesOf g) = Drivers.samples f g.

(** The average that [findMinMax] takes of a driver. *)
Definition averageOf (accessor : Drivers.DriverSamples -> list num)
  (driverData : Drivers.DriverSamples) : num :=
  div (sum (accessor driverData)) (ofNat (List.length (accessor driverData))).

(** The averages of the drivers differ on an axis. *)
Definition spread (accessor : Drivers.DriverSamples -> list num)
  (raceData : list RaceRecord) : Prop :=
  ltb (Drivers.min (Drivers.findMinMax accessor (Drivers.allDrivers raceData)))
      (Drivers.max (Drivers.findMinMax accessor (Drivers.allDrivers raceData)))
  = true.

Definition finiteMeasures (race : RaceRecord) : Prop :=
  finite (Reaction race) /\ finite (ft60 race) /\ finite (ft330 race) /\
  finite (ET race) /\ finite (MPH race).

(** The axes of the radar chart on which lower is better. *)
Definition timeAxes
  : list (string * (RaceRecord -> num) * (Drivers.DriverSamples -> list num)) :=
  [ ("Reaction"%string, Reaction, Drivers.reaction);
    ("60ft"%string, ft60, Drivers.sixtyFoot);
    ("330ft"%string, ft330, Drivers.threeThirty);
    ("1/8 ET"%string, ET, Drivers.eighthET) ].

(** *** The charts of the dashboard *)

(** A whole percentage. *)
Definition wholePercent (x : num) : Prop :=
  exists n : Z, x = ofZ n /\ (0 <= n <= 100)%Z.

(** The points that the dashboard charts for a driver. *)
Definition winRatePointOf (d : string) (data : list RaceRecord)
  : Dashboard.WinRatePoint :=
  Dashboard.winRatePoint
    (d, {| Dashboard.wins := List.length (filter isWin (racesOf d data));
           Dashboard.total := List.length (racesOf d data) |}).

Definition reactionPointOf (d : string) (data : list RaceRecord)
  : Dashboard.ReactionPoint :=
  Dashboard.reactionPoint (d, map Reaction (samplesOf Reaction d data)).

Definition speedPointOf (d : string) (data : list RaceRecord)
  : Dashboard.SpeedPoint :=
  Dashboard.speedPoint (d, map MPH (samplesOf MPH d data)).

(** *** Display names *)

(** A word: a string without a blank. *)
Fixpoint noSpace (s : string) : bool :=
  match s with
  | EmptyString => true
  | String c s' => negb (Ascii.eqb c " ") && noSpace s'
  end.
End Spec.

(** Small seasons on which the code is run. *)
Module Samples.
Import JS Race.

Definition run (driver date : string) (raceNumber : Z)
  (reaction et mph : Q) (result : string) : RaceRecord :=
  {| Driver := driver; CarNo := "7"; Date := date;
     RaceNumber := raceNumber; Reaction := Fin reaction;
     ft60 := Fin (17 # 10); ft330 := Fin (48 # 10);
     ET := Fin et; MPH := Fin mph;
     Opponent := "Bye"; OpponentCarNo := EmptyString;
     WinLoss := result |}.

(** One bye run: a group of one record, so no head-to-head pair. *)
Definition byeOnly : list RaceRecord :=
  [run "Ann" "2024-03-14" 1 (1 # 2) 8 100 "Win"].

(** The pair of the specification's scenario. *)
Definition onePair : list RaceRecord :=
  [run "Ann" "2024-03-14" 1 (5 # 100) 8 100 "Win";
   run "Bob" "2024-03-14" 1 (8 # 100) 8 100 "Loss"].

(** Two runs of round 1; the first has no reaction time and no speed. *)
Definition oneMissing : list RaceRecord :=
  [run "Ann" "2024-03-14" 1 0 8 0 "Win";
   run "Bob" "2024-03-14" 1 (1 # 2) 8 100 "Loss"].

(** A driver whose two runs have no reaction time. *)
Definition noReaction : list RaceRecord :=
  [run "Ann" "2024-03-14" 1 0 8 100 "Win";
   run "Ann" "2024-03-21" 1 0 (79 # 10) 101 "Loss"].

Definition letters : list string :=
  ["A"; "B"; "C"; "D"; "E"; "F"; "G"; "H"; "I"; "J"; "K"]%string.

(** Eleven drivers with three lost races each. *)
Definition elevenDrivers : list RaceRecord :=
  flat_map (fun d => [run d "2024-03-14" 1 (1 # 2) 8 100 "Loss";
                      run d "2024-03-21" 1 (1 # 2) 8 100 "Loss";
                      run d "2024-03-28" 1 (1 # 2) 8 100 "Loss"])
    letters.

(** Seven drivers with one win each. *)
Definition sevenWinners : list RaceRecord :=
  map (fun d => run d "2024-03-14" 1 (1 # 2) 8 100 "Win")
    (firstn 7 letters).

(** Two runs, one with a negative speed. *)
Definition oneNegative : list RaceRecord :=
  [run "Ann" "2024-03-14" 1 (1 # 2) 8 (-10) "Win";
   run "Bob" "2024-03-14" 1 (1 # 2) 8 100 "Loss"].

(** A run with a reaction time of half a millisecond. *)
Definition quickStart : list RaceRecord :=
  [run "Ann" "2024-03-14" 1 (1 # 2000) 8 100 "Win"].

(** The scenario of the specification: three races of one driver, two
    wins and a loss, with ET 8.0, 7.5 and 7.8. *)
Definition threeRaces : list RaceRecord :=
  [run "Ann" "2024-03-14" 1 (1 # 2) 8 100 "Win";
   run "Ann" "2024-03-21" 1 (1 # 2) (15 # 2) 101 "Win";
   run "Ann" "2024-03-28" 1 (1 # 2) (39 # 5) 102 "Loss"].

(** [Math.sqrt] to six decimals, to run the code. *)
Definition sqrtApprox (x : num) : num :=
  match x with
  | Fin q =>
      match (q ?= 0)%Q with
      | Lt => NaN
      | _ => Fin (Qred (inject_Z (Z.sqrt (Qfloor (q * inject_Z (10 ^ 12))))
                        / inject_Z (10 ^ 6)))
      end
  | PInf => PInf
  | _ => NaN
  end.

(** A driver with four runs. *)
Definition fourRuns : list RaceRecord :=
  [run "Ann" "2024-03-28" 1 (1 # 2) (78 # 10) 102 "Loss";
   run "Ann" "2024-03-14" 1 (1 # 2) 8 100 "Win";
   run "Ann" "2024-04-04" 1 (1 # 2) (76 # 10) 103 "Win";
   run "Ann" "2024-03-21" 1 (1 # 2) (79 # 10) 101 "Win"].

(** The time of an ISO date, as the number its digits spell: a stand-in
    for [getTime] that orders such dates as the timestamps do. *)
Fixpoint dropDashes (s : string) : string :=
  match s with
  | EmptyString => EmptyString
  | String c s' =>
      if Ascii.eqb c "-" then dropDashes s' else String c (dropDashes s')
  end.

Definition isoTime (s : string) : num :=
  match s with
  | EmptyString => NaN
  | _ => match digits (dropDashes s) 0 with
         | Some n => ofZ (Z.of_N n)
         | None => NaN
         end
  end.

(** Two winners whose names are numbers, "10" before "9". *)
Definition numberedDrivers : list RaceRecord :=
  [run "10" "2024-03-14" 1 (1 # 2) 8 100 "Win";
   run "9" "2024-03-14" 2 (1 # 2) 8 100 "Win"].

(** A run with a negative speed and one with none. *)
Definition oddSpeeds : list RaceRecord :=
  [run "Ann" "2024-03-14" 1 (1 # 2) 8 (-10) "Win";
   run "Bob" "2024-03-14" 1 (1 # 2) 8 0 "Loss"].

(** A run with a negative race number. *)
Definition negativeRound : list RaceRecord :=
  [run "Ann" "2024-03-14" (-1) (1 # 2) 8 100 "Win"].

(** A stream of random numbers that are all one half. *)
Definition halves (k : nat) : Q := 1 # 2.

(** Two cars that differ in every measure. *)
Definition twoCars : list RaceRecord :=
  [ {| Driver := "Ann"; CarNo := "7"; Date := "2024-03-14"; RaceNumber := 1;
       Reaction := Fin (1 # 10); ft60 := Fin (3 # 2); ft330 := Fin 5;
       ET := Fin 8; MPH := Fin 100;
       Opponent := "Bob"; OpponentCarNo := "8"; WinLoss := "Win" |};
    {| Driver := "Bob"; CarNo := "8"; Date := "2024-03-14"; RaceNumber := 1;
       Reaction := Fin (1 # 5); ft60 := Fin 2; ft330 := Fin 6;
       ET := Fin 9; MPH := Fin 90;
       Opponent := "Ann"; OpponentCarNo := "7"; WinLoss := "Loss" |} ].

(** Three cars, the first without a reaction time and without a speed. *)
Definition threeCars : list RaceRecord :=
  {| Driver := "Cy"; CarNo := "9"; Date := "2024-03-14"; RaceNumber := 2;
     Reaction := Fin 0; ft60 := Fin (3 # 2); ft330 := Fin 5;
     ET := Fin 8; MPH := Fin 0;
     Opponent := "Bye"; OpponentCarNo := "N/A"; WinLoss := "Win" |}
  :: twoCars.

End Samples.

(* ================================================================== *)
(** ** Facts about numbers                                             *)
(* ================================================================== *)

Section NumFacts.
Import JS.

Lemma Qcompare_red_l (a b : Q) : (Qred a ?= b)%Q = (a ?= b)%Q.
Proof. apply Qcompare_comp; [apply Qred_correct | reflexivity]. Qed.

Lemma Qcompare_sub (a b : Q) : (Qred (a - b) ?= 0)%Q = (a ?= b)%Q.
Proof.
  rewrite Qcompare_red_l.
  destruct (Qcompare_spec a b) as [H | H | H].
  - apply (proj1 (Qeq_alt _ _)). lra.
  - apply (proj1 (Qlt_alt _ _)). lra.
  - apply (proj1 (Qgt_alt _ _)). lra.
Qed.

(** On numbers that are not NaN the comparator [x - y] orders as [>]. *)
Lemma gtb_sub (x y : num) :
  x <> NaN -> y <> NaN -> gtb (sub x y) zero = gtb x y.
Proof.
  destruct x, y; try congruence; intros _ _; try reflexivity.
  unfold gtb, sub, zero, compare. now rewrite Qcompare_sub.
Qed.

Lemma gtb_false_leb (x y : num) :
  x <> NaN -> y <> NaN -> gtb x y = false -> leb x y = true.
Proof.
  unfold gtb, leb. destruct x, y; try congruence; simpl; intros _ _;
    try congruence.
  now destruct (q ?= q0)%Q.
Qed.

Lemma gtb_true_leb (x y : num) : gtb x y = true -> leb y x = true.
Proof.
  unfold gtb, leb. destruct x, y; simpl; try congruence.
  rewrite <- (Qcompare_antisym q q0). now destruct (q ?= q0)%Q.
Qed.

Lemma leb_trans (x y z : num) :
  leb x y = true -> leb y z = true -> leb x z = true.
Proof.
  unfold leb. destruct x, y, z; simpl; try congruence.
  destruct (Qcompare_spec q q0), (Qcompare_spec q0 q1); try congruence;
    intros _ _; destruct (Qcompare_spec q q1); try reflexivity; lra.
Qed.

(** Two numbers equal to a third are not ordered by the comparator. *)
Lemma tie_not_after (x y v : num) :
  eqb x v = true -> eqb y v = true -> gtb (sub x y) zero = false.
Proof.
  intros Hx Hy.
  destruct x, y, v; try discriminate Hx; try discriminate Hy;
    try reflexivity.
  unfold eqb, compare in Hx, Hy.
  unfold gtb, sub, zero, compare. rewrite Qcompare_sub.
  destruct (Qcompare_spec q q1); try discriminate Hx.
  destruct (Qcompare_spec q0 q1); try discriminate Hy.
  destruct (Qcompare_spec q q0); try reflexivity; lra.
Qed.

Lemma gtb_not_NaN (x y : num) : gtb x y = true -> x <> NaN.
Proof. destruct x; discriminate. Qed.

Lemma present_gtb (x : num) : Race.present x = true <-> gtb x zero = true.
Proof.
  unfold Race.present, truthy, gtb, zero, sign, compare.
  destruct x; try (split; intros H; (discriminate H || reflexivity)).
  destruct (q ?= 0)%Q; split; intros H; (discriminate H || reflexivity).
Qed.

Lemma present_not_NaN (x : num) : Race.present x = true -> x <> NaN.
Proof. intros H. apply present_gtb in H. now apply gtb_not_NaN in H. Qed.
End NumFacts.

(* ================================================================== *)
(** ** Facts about [sort] and [slice]                                  *)
(* ================================================================== *)

Section SortFacts.
Variable A : Type.
Variable compareFn : A -> A -> JS.num.

Lemma insert_perm (x : A) (l : list A) :
  Permutation (JS.insert compareFn x l) (x :: l).
Proof.
  induction l as [| y l IH]; simpl; [reflexivity |].
  destruct (JS.after compareFn x y); [| reflexivity].
  rewrite IH. apply perm_swap.
Qed.

Lemma sort_perm (l : list A) : Permutation (JS.sort compareFn l) l.
Proof.
  induction l as [| x l IH]; simpl; [reflexivity |].
  rewrite insert_perm. now apply perm_skip.
Qed.

Lemma sort_In (l : list A) (x : A) : In x (JS.sort compareFn l) <-> In x l.
Proof.
  split; apply Permutation_in; [| symmetry]; apply sort_perm.
Qed.

Lemma sort_length (l : list A) :
  List.length (JS.sort compareFn l) = List.length l.
Proof. apply Permutation_length, sort_perm. Qed.

(** Stability: a class of elements none of which goes after another
    keeps its order. *)
Section Stable.
Variable p : A -> bool.
Hypothesis tie :
  forall x y, p x = true -> p y = true -> JS.after compareFn x y = false.

Lemma insert_filter_tie (x : A) (l : list A) :
  filter p (JS.insert compareFn x l) = filter p (x :: l).
Proof.
  induction l as [| y l IH]; [reflexivity |].
  cbn [JS.insert]. destruct (JS.after compareFn x y) eqn:Hxy;
    [| reflexivity].
  cbn [filter] in *. rewrite IH.
  destruct (p x) eqn:Hx, (p y) eqn:Hy; try reflexivity.
  rewrite (tie Hx Hy) in Hxy. discriminate.
Qed.

Lemma sort_stable (l : list A) :
  filter p (JS.sort compareFn l) = filter p l.
Proof.
  induction l as [| x l IH]; [reflexivity |].
  cbn [JS.sort fold_right]. rewrite insert_filter_tie.
  cbn [filter]. fold (JS.sort compareFn l). now rewrite IH.
Qed.
End Stable.

(** Order: on elements where the comparator is a total preorder the
    result is sorted. *)
Section Ordered.
Variable P : A -> Prop.
Variable R : A -> A -> Prop.
Hypothesis after_R :
  forall x y, P x -> P y -> JS.after compareFn x y = true -> R y x.
Hypothesis not_after_R :
  forall x y, P x -> P y -> JS.after compareFn x y = false -> R x y.
Hypothesis R_trans :
  forall x y z, R x y -> R y z -> R x z.

Lemma insert_sorted (x : A) (l : list A) :
  P x -> Forall P l -> StronglySorted R l ->
  StronglySorted R (JS.insert compareFn x l).
Proof.
  intros Hx Hl Hs. induction Hs as [| y l Hs IH Hy]; simpl.
  - constructor; constructor.
  - inversion Hl as [| ? ? Py Pl]; subst.
    destruct (JS.after compareFn x y) eqn:Hxy.
    + constructor; [now apply IH |].
      eapply Permutation_Forall; [symmetry; apply insert_perm |].
      constructor; [now apply after_R | assumption].
    + constructor; [now constructor |].
      assert (Rxy : R x y) by now apply not_after_R.
      constructor; [assumption |].
      eapply Forall_impl; [| exact Hy]. intros z. now apply R_trans.
Qed.

Lemma sort_sorted (l : list A) :
  Forall P l -> StronglySorted R (JS.sort compareFn l).
Proof.
  induction 1 as [| x l Hx Hl IH]; simpl; [constructor |].
  apply insert_sorted; [assumption | | assumption].
  eapply Permutation_Forall; [symmetry; apply sort_perm | assumption].
Qed.
End Ordered.
End SortFacts.

Section SliceFacts.
Variable A : Type.

Lemma sliceTo_length (k : nat) (l : list A) :
  List.length (JS.sliceTo k l) <= k.
Proof. unfold JS.sliceTo. rewrite length_firstn. lia. Qed.

Lemma sliceTo_all (k : nat) (l : list A) :
  List.length l <= k -> JS.sliceTo k l = l.
Proof. intros H. now apply firstn_all2. Qed.

Lemma sliceTo_In (k : nat) (l : list A) (x : A) :
  In x (JS.sliceTo k l) -> In x l.
Proof.
  unfold JS.sliceTo. intros H. rewrite <- (firstn_skipn k l).
  apply in_or_app. now left.
Qed.

Lemma sliceTo_sorted (R : A -> A -> Prop) (k : nat) (l : list A) :
  StronglySorted R l -> StronglySorted R (JS.sliceTo k l).
Proof.
  unfold JS.sliceTo. intros H. revert k.
  induction H as [| x l Hs IH Hx]; intros [| k]; simpl;
    try constructor; auto.
  rewrite Forall_forall in *. intros y Hy. apply Hx.
  now apply (sliceTo_In k).
Qed.

(** A class of elements of a prefix is a prefix of the class. *)
Lemma sliceTo_filter (p : A -> bool) (k : nat) (l : list A) :
  exists n, filter p (JS.sliceTo k l) = firstn n (filter p l).
Proof.
  unfold JS.sliceTo. revert k.
  induction l as [| x l IH]; intros k.
  - exists 0. now rewrite firstn_nil.
  - destruct k as [| k]; [now exists 0 |].
    destruct (IH k) as [n Hn]. simpl. destruct (p x).
    + exists (S n). simpl. now rewrite Hn.
    + now exists n.
Qed.
End SliceFacts.

(* ================================================================== *)
(** ** Facts about dictionaries                                        *)
(* ================================================================== *)

Section ObjectFacts.
Import JS.
Variable V : Type.

Lemma get_set_same (k : string) (v : V) (o : obj V) :
  get k (set k v o) = Some v.
Proof.
  induction o as [| [k' v'] o IH]; simpl.
  - now rewrite String.eqb_refl.
  - destruct (String.eqb k k') eqn:E; simpl; rewrite E; auto.
Qed.

Lemma get_set_other (k k' : string) (v : V) (o : obj V) :
  k <> k' -> get k (set k' v o) = get k o.
Proof.
  intros Hne. pose proof (proj2 (String.eqb_neq k k') Hne) as Hb.
  induction o as [| [k2 v2] o IH]; simpl.
  - now rewrite Hb.
  - destruct (String.eqb k' k2) eqn:E; simpl.
    + apply String.eqb_eq in E. subst k2. now rewrite Hb.
    + now rewrite IH.
Qed.

Lemma get_None_keys (k : string) (o : obj V) :
  get k o = None <-> ~ In k (map fst o).
Proof.
  induction o as [| [k' v'] o IH]; simpl; [tauto |].
  destruct (String.eqb k k') eqn:E.
  - apply String.eqb_eq in E. subst. split; [discriminate | tauto].
  - apply String.eqb_neq in E. rewrite IH. split.
    + intros H [H1 | H1]; [now apply E | now apply H].
    + tauto.
Qed.

Lemma keys_set (k : string) (v : V) (o : obj V) :
  map fst (set k v o) =
  match get k o with
  | Some _ => map fst o
  | None => map fst o ++ [k]
  end.
Proof.
  induction o as [| [k' v'] o IH]; simpl; [reflexivity |].
  destruct (String.eqb k k') eqn:E; simpl; [reflexivity |].
  rewrite IH. now destruct (get k o).
Qed.

Lemma NoDup_set (k : string) (v : V) (o : obj V) :
  NoDup (map fst o) -> NoDup (map fst (set k v o)).
Proof.
  intros H. rewrite keys_set. destruct (get k o) eqn:E; [assumption |].
  apply get_None_keys in E.
  apply (Permutation_NoDup (l := k :: map fst o)).
  - apply Permutation_cons_append.
  - now constructor.
Qed.

Lemma In_get (k : string) (v : V) (o : obj V) :
  NoDup (map fst o) -> (In (k, v) o <-> get k o = Some v).
Proof.
  induction o as [| [k' v'] o IH]; simpl; intros Hnd.
  - split; [tauto | discriminate].
  - inversion Hnd as [| ? ? Hk Hnd']; subst.
    destruct (String.eqb k k') eqn:E.
    + apply String.eqb_eq in E. subst k'. split.
      * intros [H | H]; [congruence |].
        exfalso. apply Hk. now apply (in_map fst) in H.
      * intros H. left. congruence.
    + apply String.eqb_neq in E. rewrite <- (IH Hnd'). split.
      * intros [H | H]; [congruence | assumption].
      * tauto.
Qed.

Lemma get_upsert_same (k : string) (init : V) (f : V -> V) (o : obj V) :
  get k (upsert k init f o) =
  Some (f (match get k o with Some v => v | None => init end)).
Proof. unfold upsert. destruct (get k o); apply get_set_same. Qed.

Lemma get_upsert_other (k k' : string) (init : V) (f : V -> V) (o : obj V) :
  k <> k' -> get k (upsert k' init f o) = get k o.
Proof. intros H. unfold upsert. destruct (get k' o); now apply get_set_other. Qed.

Lemma NoDup_upsert (k : string) (init : V) (f : V -> V) (o : obj V) :
  NoDup (map fst o) -> NoDup (map fst (upsert k init f o)).
Proof. intros H. unfold upsert. destruct (get k o); now apply NoDup_set. Qed.

(** [Object.values] lists every value once. *)
Lemma values_perm (o : obj V) : Permutation (values o) (map snd o).
Proof.
  unfold values. rewrite <- map_app. apply Permutation_map.
  rewrite sort_perm.
  induction o as [| e o IH]; simpl; [reflexivity |].
  destruct (isIndex e); simpl.
  - now apply perm_skip.
  - rewrite <- Permutation_middle. now apply perm_skip.
Qed.

Lemma values_In (o : obj V) (v : V) : In v (values o) <-> In v (map snd o).
Proof.
  split; apply Permutation_in; [| symmetry]; apply values_perm.
Qed.

Lemma values_length (o : obj V) : List.length (values o) = List.length o.
Proof.
  rewrite (Permutation_length (values_perm o)). apply length_map.
Qed.
End ObjectFacts.

Section GroupFacts.
Import JS Spec.
Variables R V : Type.
Variable key : R -> string.
Variable init : R -> V.
Variable step : R -> V -> V.

Lemma groupFold_snoc (data : list R) (r : R) :
  groupFold key init step (data ++ [r]) =
  upsert (key r) (init r) (step r) (groupFold key init step data).
Proof. unfold groupFold. now rewrite fold_left_app. Qed.

Lemma groupOf_snoc (k : string) (data : list R) (r : R) :
  groupOf key k (data ++ [r]) =
  groupOf key k data ++ (if String.eqb (key r) k then [r] else []).
Proof. unfold groupOf. rewrite filter_app. reflexivity. Qed.

Lemma foldGroup_snoc (g : list R) (r : R) :
  foldGroup init step (g ++ [r]) =
  Some (step r (match foldGroup init step g with
                | Some v => v
                | None => init r
                end)).
Proof.
  destruct g as [| r0 g]; simpl; [reflexivity |].
  now rewrite fold_left_app.
Qed.

Lemma groupFold_get (k : string) (data : list R) :
  get k (groupFold key init step data) =
  foldGroup init step (groupOf key k data).
Proof.
  induction data as [| r data IH] using rev_ind; [reflexivity |].
  rewrite groupFold_snoc, groupOf_snoc.
  destruct (String.eqb (key r) k) eqn:E.
  - apply String.eqb_eq in E. subst k.
    rewrite get_upsert_same, foldGroup_snoc, IH. reflexivity.
  - apply String.eqb_neq in E. rewrite app_nil_r.
    rewrite get_upsert_other by congruence. exact IH.
Qed.

Lemma groupFold_NoDup (data : list R) :
  NoDup (map fst (groupFold key init step data)).
Proof.
  induction data as [| r data IH] using rev_ind; [constructor |].
  rewrite groupFold_snoc. now apply NoDup_upsert.
Qed.

Lemma groupFold_In (k : string) (v : V) (data : list R) :
  In (k, v) (groupFold key init step data) <->
  foldGroup init step (groupOf key k data) = Some v.
Proof.
  rewrite <- groupFold_get. apply In_get, groupFold_NoDup.
Qed.

(** Every value of the dictionary is the accumulation of a non-empty
    group. *)
Lemma groupFold_values (v : V) (data : list R) :
  In v (values (groupFold key init step data)) <->
  exists k, foldGroup init step (groupOf key k data) = Some v.
Proof.
  rewrite values_In, in_map_iff. split.
  - intros [[k v'] [Hv Hin]]. simpl in Hv. subst v'.
    exists k. now apply groupFold_In.
  - intros [k Hk]. exists (k, v). split; [reflexivity |].
    now apply groupFold_In.
Qed.
End GroupFacts.

(* ================================================================== *)
(** ** Win factors without a head-to-head pair (C1)                    *)
(* ================================================================== *)

Section WinFactors.
Import JS Race Statistics Spec.

(** The tallies never exceed the number of comparisons. *)
Lemma compareGroup_bounded (wa : WinAnalysis) (group : list RaceRecord) :
  bounded wa -> bounded (compareGroup wa group).
Proof.
  intros (H1 & H2 & H3 & H4). unfold compareGroup.
  destruct (negb (List.length group =? 2)); [now repeat split |].
  destruct (find isWin group) as [w |]; [| now repeat split].
  destruct (find isLoss group) as [l |]; [| now repeat split].
  unfold bounded, bump; simpl.
  destruct (lower Reaction w l), (lower ft60 w l), (lower ft330 w l),
    (higher MPH w l); repeat split; lia.
Qed.

Lemma winAnalysis_bounded (data : list RaceRecord) :
  bounded (winAnalysis data).
Proof.
  unfold winAnalysis.
  generalize (values (raceGroups data)). intros groups.
  assert (H0 : bounded {| betterReaction := 0; better60ft := 0;
                          better330 := 0; betterMPH := 0;
                          totalComparisons := 0 |})
    by (repeat split; simpl; lia).
  revert H0. generalize {| betterReaction := 0; better60ft := 0;
                           better330 := 0; betterMPH := 0;
                           totalComparisons := 0 |}.
  induction groups as [| g groups IH]; intros wa Hwa; simpl;
    [assumption |].
  apply IH. now apply compareGroup_bounded.
Qed.

(** Whatever the season, no valid comparison means four NaN. *)
Lemma winFactors_NaN_of_no_comparisons (data : list RaceRecord) :
  totalComparisons (winAnalysis data) = 0 ->
  map snd (winFactorsData data) = [NaN; NaN; NaN; NaN].
Proof.
  intros H0. destruct (winAnalysis_bounded data) as (H1 & H2 & H3 & H4).
  unfold winFactorsData. cbn [map snd].
  rewrite H0 in *.
  replace (betterReaction (winAnalysis data)) with 0 by lia.
  replace (better60ft (winAnalysis data)) with 0 by lia.
  replace (better330 (winAnalysis data)) with 0 by lia.
  replace (betterMPH (winAnalysis data)) with 0 by lia.
  reflexivity.
Qed.

(** C1, what the code does: a season with one bye run has no valid
    head-to-head comparison, and the four win-factor percentages are
    [0 / 0 * 100], that is NaN, not zero. *)
Theorem winFactors_without_comparisons_are_NaN :
  totalComparisons (winAnalysis Samples.byeOnly) = 0 /\
  winFactorsData Samples.byeOnly =
  [ ("Better Reaction"%string, NaN); ("Better 60ft"%string, NaN);
    ("Better 330ft"%string, NaN); ("Higher MPH"%string, NaN) ].
Proof. split; vm_compute; reflexivity. Qed.

(** The scenario of one pair: the winner had the better reaction in 1 of
    1 comparison. *)
Lemma winFactors_onePair :
  winFactorsData Samples.onePair =
  [ ("Better Reaction"%string, Fin 100); ("Better 60ft"%string, Fin 0);
    ("Better 330ft"%string, Fin 0); ("Higher MPH"%string, Fin 0) ].
Proof. vm_compute. reflexivity. Qed.
End WinFactors.

(* ================================================================== *)
(** ** The radar chart when all drivers are level (C2)                 *)
(* ================================================================== *)

Section Radar.
Import JS Race Drivers.

Lemma sub_self (m : num) : sub m m = NaN \/ sub m m = Fin (Qred (0 - 0)).
Proof.
  destruct m; auto. right. unfold sub. f_equal.
  apply Qred_complete. lra.
Qed.

(** Whatever the common value [m], both normalizations of [m] over the
    empty range [m .. m] are NaN. *)
Lemma normalize_degenerate (m : num) :
  normalizeInverted m m m = NaN /\ normalizeDirectly m m m = NaN.
Proof.
  unfold normalizeInverted, normalizeDirectly.
  destruct (sub_self m) as [H | H]; rewrite H; split; reflexivity.
Qed.

(** C2, what the code does: with a single driver in the data every
    metric has its minimum equal to its maximum, and the five normalized
    scores of the radar chart are NaN, not a midpoint. *)
Theorem radar_of_level_drivers_is_NaN :
  performanceRadarChart (loaded Samples.byeOnly initial) =
  Some [ ("Reaction"%string, NaN); ("60ft"%string, NaN);
         ("330ft"%string, NaN); ("1/8 ET"%string, NaN);
         ("1/8 MPH"%string, NaN); ("Win Rate"%string, Fin 100) ].
Proof. vm_compute. reflexivity. Qed.
End Radar.

(* ================================================================== *)
(** ** Missing values in the averages (C3)                             *)
(* ================================================================== *)

Section MissingValues.
Import JS Race.

(** C3, what the code does: in the averages by race number the count of
    ET samples divides the reaction and speed totals, and in the stats
    overview the number of records divides the total; a record whose
    reaction time or speed is 0 lowers those averages (0.25 instead of
    0.5, 50 instead of 100), and a negative speed enters the overview's
    sum (45 instead of 100). *)
Theorem missing_values_enter_averages :
  map Statistics.avgReaction
    (Statistics.timePerformanceData Samples.oneMissing) = [Fin (1 # 4)] /\
  map Statistics.avgReaction
    (Statistics.timePerformanceData (tl Samples.oneMissing))
  = [Fin (1 # 2)] /\
  map Statistics.avgMPH
    (Statistics.timePerformanceData Samples.oneMissing) = [Fin 50] /\
  Dashboard.averageMPH Samples.oneMissing = Fin 50 /\
  Dashboard.averageMPH (tl Samples.oneMissing) = Fin 100 /\
  Dashboard.averageMPH Samples.oneNegative = Fin 45.
Proof. repeat split; vm_compute; reflexivity. Qed.
End MissingValues.

(* ================================================================== *)
(** ** Reductions that skip records, and groups collected in a list    *)
(* ================================================================== *)

Section FoldFacts.
Variables R B : Type.

Lemma fold_left_cond (c : R -> bool) (g : B -> R -> B) (l : list R) (a : B) :
  fold_left (fun acc r => if c r then g acc r else acc) l a =
  fold_left g (filter c l) a.
Proof.
  revert a. induction l as [| r l IH]; intros a; simpl; [reflexivity |].
  destruct (c r); simpl; apply IH.
Qed.

Lemma fold_left_skip (c : R -> bool) (g : B -> R -> B) (l : list R) (a : B) :
  fold_left (fun acc r => if c r then acc else g acc r) l a =
  fold_left g (filter (fun r => negb (c r)) l) a.
Proof.
  revert a. induction l as [| r l IH]; intros a; simpl; [reflexivity |].
  destruct (c r); simpl; apply IH.
Qed.

Lemma fold_left_collect (f : R -> B) (g : list R) (l0 : list B) :
  fold_left (fun v r => v ++ [f r]) g l0 = l0 ++ map f g.
Proof.
  revert l0. induction g as [| r g IH]; intros l0; simpl.
  - now rewrite app_nil_r.
  - rewrite IH, <- app_assoc. reflexivity.
Qed.
End FoldFacts.

(* ================================================================== *)
(** ** The floor of the best-reaction leaderboard (C10)                *)
(* ================================================================== *)

Section ReactionFloor.
Import JS Race Spec.

Lemma gtb_leb_false (x y : num) : gtb x y = true -> leb x y = false.
Proof.
  unfold gtb, leb. destruct (compare x y) as [[| |] |]; congruence.
Qed.

(** Every entry of the leaderboard is a record that passed the test. *)
Lemma reactionLeaders_In (data : list RaceRecord)
  (e : Statistics.LeaderboardEntry) :
  In e (Statistics.reactionLeaders data) ->
  exists race, In race data /\
    gtb (Reaction race) Statistics.reactionFloor = true /\
    e = Statistics.recordEntry Reaction race.
Proof.
  unfold Statistics.reactionLeaders. intros H.
  apply in_map_iff in H. destruct H as (race & He & H).
  apply sliceTo_In, sort_In, filter_In in H. destruct H as [Hin Hc].
  apply andb_true_iff in Hc. exists race. intuition.
Qed.

(** The dashboard's dictionary of reaction times holds, for each driver,
    the reaction times [> 0] of that driver's records. *)
Lemma reactionsByDriver_get (data : list RaceRecord) (d : string) :
  get d (Dashboard.reactionsByDriver data) =
  match samplesOf Reaction d data with
  | [] => None
  | g => Some (map Reaction g)
  end.
Proof.
  unfold Dashboard.reactionsByDriver.
  rewrite (fold_left_cond (fun record => present (Reaction record))
             (fun m record =>
                upsert (Driver record) []
                  (fun reactions => reactions ++ [Reaction record]) m)).
  change (fold_left _ ?l []) with
    (groupFold Driver (fun _ : RaceRecord => @nil num)
       (fun record reactions => reactions ++ [Reaction record]) l).
  rewrite groupFold_get. unfold samplesOf, foldGroup.
  destruct (groupOf Driver d _) as [| r g]; [reflexivity |].
  now rewrite fold_left_collect.
Qed.

(** C10: a record whose reaction time lies in (0, 0.001] is not an entry
    of the best-reaction leaderboard, every entry of which is above
    0.001, although that reaction time is one of the driver's reaction
    times averaged by the dashboard and by the driver rollup, which test
    [> 0] only. *)
Theorem reaction_leaderboard_floor
  (data : list RaceRecord) (race : RaceRecord) :
  In race data ->
  gtb (Reaction race) zero = true ->
  leb (Reaction race) (Fin (1 # 1000)) = true ->
  ~ In (Statistics.recordEntry Reaction race)
      (Statistics.reactionLeaders data) /\
  (forall e, In e (Statistics.reactionLeaders data) ->
             gtb (Statistics.value e) (Fin (1 # 1000)) = true) /\
  (exists reactions,
      In (Driver race, reactions) (Dashboard.reactionsByDriver data) /\
      In (Reaction race) reactions) /\
  In (Reaction race)
     (Drivers.samples Reaction (Drivers.driverRaces (Driver race) data)).
Proof.
  intros Hin Hpos Hle.
  assert (Hall : forall e, In e (Statistics.reactionLeaders data) ->
                           gtb (Statistics.value e) (Fin (1 # 1000)) = true).
  { intros e He. apply reactionLeaders_In in He.
    destruct He as (r & _ & Hr & ->). exact Hr. }
  apply present_gtb in Hpos.
  assert (Hmem : In race (samplesOf Reaction (Driver race) data)).
  { unfold samplesOf, groupOf. apply filter_In. split.
    - apply filter_In. now split.
    - apply String.eqb_refl. }
  split; [| split; [| split]].
  - intros He. apply Hall in He. cbn [Statistics.recordEntry
      Statistics.value] in He.
    apply gtb_leb_false in He. congruence.
  - exact Hall.
  - exists (map Reaction (samplesOf Reaction (Driver race) data)). split.
    + apply In_get.
      * unfold Dashboard.reactionsByDriver.
        rewrite (fold_left_cond (fun record => present (Reaction record))
             (fun m record =>
                upsert (Driver record) []
                  (fun reactions => reactions ++ [Reaction record]) m)).
        apply (groupFold_NoDup Driver (fun _ : RaceRecord => @nil num)
                 (fun record reactions => reactions ++ [Reaction record])).
      * rewrite reactionsByDriver_get.
        destruct (samplesOf Reaction (Driver race) data);
          [contradiction | reflexivity].
    + now apply in_map.
  - unfold Drivers.samples, Drivers.driverRaces. apply in_map.
    apply filter_In. split; [| assumption].
    apply filter_In. split; [assumption | apply String.eqb_refl].
Qed.

Lemma reaction_leaderboard_floor_witness :
  ~ In (Statistics.recordEntry Reaction
          (Samples.run "Ann" "2024-03-14" 1 (1 # 2000) 8 100 "Win"))
      (Statistics.reactionLeaders Samples.quickStart) /\
  (forall e, In e (Statistics.reactionLeaders Samples.quickStart) ->
             gtb (Statistics.value e) (Fin (1 # 1000)) = true) /\
  (exists reactions,
      In ("Ann"%string, reactions)
         (Dashboard.reactionsByDriver Samples.quickStart) /\
      In (Fin (1 # 2000)) reactions) /\
  In (Fin (1 # 2000))
     (Drivers.samples Reaction (Drivers.driverRaces "Ann" Samples.quickStart)).
Proof.
  apply (@reaction_leaderboard_floor Samples.quickStart
           (Samples.run "Ann" "2024-03-14" 1 (1 # 2000) 8 100 "Win")).
  - simpl. left. reflexivity.
  - reflexivity.
  - reflexivity.
Defined.
End ReactionFloor.

(* ================================================================== *)
(** ** Averages of values that are present                             *)
(* ================================================================== *)

Section Averages.
Import JS Race Spec.

Lemma positive_Fin (q : Q) : positive (Fin q) <-> (0 < q)%Q.
Proof.
  unfold positive, gtb, zero, compare. rewrite Qgt_alt.
  destruct (q ?= 0)%Q; split; congruence.
Qed.

Lemma positive_cases (x : num) :
  positive x -> x = PInf \/ exists q, x = Fin q /\ (0 < q)%Q.
Proof.
  destruct x; try discriminate; auto.
  intros H. right. exists q. split; [reflexivity | now apply positive_Fin].
Qed.

Lemma positive_not_zero (x : num) : positive x -> x <> zero.
Proof. intros H E. subst x. discriminate H. Qed.

Lemma positive_notNaN (x : num) : positive x -> x <> NaN.
Proof. intros H E. subst x. discriminate H. Qed.

Lemma add_positive (x y : num) :
  x = zero \/ positive x -> positive y -> positive (add x y).
Proof.
  intros Hx Hy. apply positive_cases in Hy.
  destruct Hx as [-> | Hx].
  - destruct Hy as [-> | (b & -> & Hb)]; [reflexivity |].
    unfold zero, add. apply positive_Fin.
    rewrite Qred_correct. lra.
  - apply positive_cases in Hx.
    destruct Hx as [-> | (a & -> & Ha)], Hy as [-> | (b & -> & Hb)];
      try reflexivity.
    unfold add. apply positive_Fin. rewrite Qred_correct. lra.
Qed.

Lemma fold_add_positive (l : list num) (a : num) :
  Forall positive l -> l <> [] -> a = zero \/ positive a ->
  positive (fold_left add l a).
Proof.
  intros Hl. revert a. induction Hl as [| x l Hx Hl IH]; intros a Hne Ha.
  - congruence.
  - simpl. pose proof (add_positive Ha Hx) as Hax.
    destruct l as [| y l]; [exact Hax |].
    apply IH; [discriminate | now right].
Qed.

Lemma ofNat_pos (n : nat) : 0 < n -> (0 < inject_Z (Z.of_nat n))%Q.
Proof. intros H. unfold Qlt. simpl. lia. Qed.

Lemma div_positive (x : num) (n : nat) :
  positive x -> 0 < n -> positive (div x (ofNat n)).
Proof.
  intros Hx Hn. apply ofNat_pos in Hn.
  assert (Hc : (inject_Z (Z.of_nat n) ?= 0)%Q = Gt)
    by now apply (proj1 (Qgt_alt _ _)).
  apply positive_cases in Hx. destruct Hx as [-> | (a & -> & Ha)].
  - unfold div, ofNat, ofZ. now rewrite Hc.
  - unfold div, ofNat, ofZ. rewrite Hc. apply positive_Fin.
    rewrite Qred_correct. apply Qlt_shift_div_l; [assumption | lra].
Qed.

(** The mean of a non-empty list of positive numbers is positive. *)
Lemma mean_positive (l : list num) :
  Forall positive l -> l <> [] ->
  positive (div (sum l) (ofNat (List.length l))).
Proof.
  intros Hl Hne. apply div_positive.
  - apply fold_add_positive; auto.
  - destruct l; [congruence | simpl; lia].
Qed.

Lemma samples_positive (f : RaceRecord -> num) (races : list RaceRecord) :
  Forall positive (Drivers.samples f races).
Proof.
  apply Forall_forall. intros x Hx. unfold Drivers.samples in Hx.
  apply in_map_iff in Hx. destruct Hx as (r & <- & Hr).
  apply filter_In in Hr. now apply present_gtb.
Qed.

Lemma calcAverage_zero (values : list num) :
  Forall positive values ->
  (Drivers.calcAverage values = zero <-> values = []).
Proof.
  intros Hv. unfold Drivers.calcAverage. split.
  - destruct values as [| x l]; [reflexivity |]. intros H.
    exfalso. cbn [List.length Nat.ltb Nat.leb] in H.
    apply (@positive_not_zero (div (sum (x :: l))
                                   (ofNat (List.length (x :: l)))));
      [apply mean_positive; [assumption | discriminate] | exact H].
  - intros ->. reflexivity.
Qed.
End Averages.

(* ================================================================== *)
(** ** The rollup of a driver without records (C9)                     *)
(* ================================================================== *)

Section NoData.
Import JS Race Drivers.

Lemma unique_In (seen names : list string) (x : string) :
  In x (unique seen names) -> In x names.
Proof.
  revert seen. induction names as [| y names IH]; intros seen; simpl;
    [tauto |].
  destruct (existsb (String.eqb y) seen).
  - intros H. right. now apply (IH seen).
  - intros [H | H]; [now left | right; now apply (IH (y :: seen))].
Qed.

Lemma uniqueDrivers_In (parsedData : list RaceRecord) (d : string) :
  In d (uniqueDrivers parsedData) -> In d (map Driver parsedData).
Proof.
  unfold uniqueDrivers. intros H. apply sort_In in H.
  now apply unique_In in H.
Qed.

Lemma driverRaces_nonempty (d : string) (raceData : list RaceRecord) :
  In d (map Driver raceData) -> driverRaces d raceData <> [].
Proof.
  intros H. apply in_map_iff in H. destruct H as (r & Hd & Hr).
  assert (Hin : In r (driverRaces d raceData)).
  { apply filter_In. split; [assumption |]. now apply String.eqb_eq. }
  intros E. rewrite E in Hin. contradiction.
Qed.

(** The effect, once past its first guard, sets the rollup to null when
    no record matches. *)
Lemma effect_no_match (sel : string) (data : list RaceRecord)
  (prev : option DriverStats) :
  sel <> EmptyString -> data <> [] -> driverRaces sel data = [] ->
  driverStatsEffect sel data prev = None.
Proof.
  intros Hs Hd Hm. unfold driverStatsEffect.
  apply String.eqb_neq in Hs. rewrite Hs.
  destruct data as [| r data]; [congruence |].
  cbn [List.length Nat.eqb orb]. now rewrite Hm.
Qed.

Lemma effect_from_null (sel : string) (data : list RaceRecord) :
  driverRaces sel data = [] -> driverStatsEffect sel data None = None.
Proof.
  intros Hm. unfold driverStatsEffect.
  destruct (String.eqb sel "" || (List.length data =? 0)); [reflexivity |].
  now rewrite Hm.
Qed.

(** A rollup that is not null was compiled from at least one record. *)
Lemma effect_some (sel : string) (data : list RaceRecord) (st : DriverStats) :
  driverStatsEffect sel data None = Some st ->
  st = compileStats sel (driverRaces sel data) /\
  driverRaces sel data <> [].
Proof.
  unfold driverStatsEffect.
  destruct (String.eqb sel "" || (List.length data =? 0)); [discriminate |].
  destruct (driverRaces sel data) as [| r l] eqn:E; [discriminate |].
  cbn [List.length Nat.eqb]. intros H. injection H as <-.
  split; [reflexivity | discriminate].
Qed.

Lemma reachable_inv (s : State) :
  reachable s ->
  incl (drivers s) (map Driver (raceData s)) /\
  (driverRaces (selectedDriver s) (raceData s) = [] -> driverStats s = None).
Proof.
  induction 1 as [| parsedData | d s Hr [IH1 IH2] Hd].
  - split; [intros x [] | reflexivity].
  - split.
    + intros x. apply uniqueDrivers_In.
    + cbn. apply effect_from_null.
  - split; [exact IH1 |]. cbn. intros Hm. exfalso.
    apply (@driverRaces_nonempty d (raceData s)); [| exact Hm].
    now apply IH1.
Qed.

(** C9: when no record matches the selected driver, the rollup is the
    explicit null.  This holds in every state the component reaches; for
    the effect run from the null rollup; and, for a non-empty selection
    over non-empty data, whatever the rollup was before.  The radar chart
    of a null rollup is absent as well. *)
Theorem no_matching_records_null_rollup
  (sel : string) (data : list RaceRecord) :
  driverRaces sel data = [] ->
  driverStatsEffect sel data None = None /\
  (forall prev, sel <> EmptyString -> data <> [] ->
                driverStatsEffect sel data prev = None) /\
  (forall s, reachable s -> selectedDriver s = sel -> raceData s = data ->
             driverStats s = None /\ performanceRadarChart s = None).
Proof.
  intros Hm. split; [| split].
  - now apply effect_from_null.
  - intros prev Hs Hd. now apply effect_no_match.
  - intros s Hreach Hsel Hdata. subst sel data.
    assert (Hnull : driverStats s = None)
      by now apply (proj2 (reachable_inv Hreach)).
    split; [exact Hnull |].
    unfold performanceRadarChart. now rewrite Hnull.
Qed.

Lemma no_matching_records_null_rollup_witness :
  driverStatsEffect "Zed" Samples.byeOnly None = None /\
  (forall prev, "Zed"%string <> EmptyString -> Samples.byeOnly <> [] ->
                driverStatsEffect "Zed" Samples.byeOnly prev = None) /\
  (forall s, reachable s -> selectedDriver s = "Zed"%string ->
             raceData s = Samples.byeOnly ->
             driverStats s = None /\ performanceRadarChart s = None).
Proof.
  apply (@no_matching_records_null_rollup "Zed" Samples.byeOnly).
  reflexivity.
Defined.
End NoData.

(* ================================================================== *)
(** ** Averages and sample counts in the driver rollup (C8)            *)
(* ================================================================== *)

Section SampleCounts.
Import JS Race Drivers Spec.

(** C8 as stated fails: for a driver whose two runs have no reaction
    time the rollup reports an average reaction of 0, and none of its
    counts (2 races, 1 win, 1 loss) is the number of reaction samples,
    which is 0: the rollup has no zero-sample marker. *)
Lemma rollup_without_sample_count :
  exists st,
    driverStatsEffect "Ann" Samples.noReaction None = Some st /\
    avgReaction st = zero /\
    List.length (samples Reaction (driverRaces "Ann" Samples.noReaction)) = 0 /\
    countFields st = [2; 1; 1] /\
    ~ In 0 (countFields st).
Proof.
  eexists. split; [vm_compute; reflexivity |].
  repeat split; try (vm_compute; reflexivity).
  vm_compute. intros [H | [H | [H | []]]]; discriminate H.
Qed.

(** C8 as amended: the rollup of a driver with all reaction times
    missing reports an average (and a best) reaction of 0; its counts are
    those of the driver's races, wins and losses, with no sample count of
    a metric among them; and, the averaged values being [> 0], the
    average is 0 only when there is no sample. *)
Theorem all_missing_reaction_average_is_zero
  (sel : string) (data : list RaceRecord) (st : DriverStats) :
  driverStatsEffect sel data None = Some st ->
  (samples Reaction (driverRaces sel data) = [] ->
   avgReaction st = zero /\ bestReaction st = zero) /\
  (avgReaction st = zero -> samples Reaction (driverRaces sel data) = []) /\
  countFields st =
    [ List.length (driverRaces sel data);
      List.length (filter isWin (driverRaces sel data));
      List.length (filter isLoss (driverRaces sel data)) ].
Proof.
  intros H. apply effect_some in H. destruct H as [-> _].
  cbn [compileStats avgReaction bestReaction countFields races wins losses].
  split; [| split].
  - intros Hnone. rewrite Hnone. split; reflexivity.
  - apply calcAverage_zero, samples_positive.
  - reflexivity.
Qed.

Lemma all_missing_reaction_average_is_zero_witness :
  exists st,
    (samples Reaction (driverRaces "Ann" Samples.noReaction) = [] ->
     avgReaction st = zero /\ bestReaction st = zero) /\
    (avgReaction st = zero ->
     samples Reaction (driverRaces "Ann" Samples.noReaction) = []) /\
    countFields st =
      [ List.length (driverRaces "Ann" Samples.noReaction);
        List.length (filter isWin (driverRaces "Ann" Samples.noReaction));
        List.length (filter isLoss (driverRaces "Ann" Samples.noReaction)) ].
Proof.
  eexists.
  apply (@all_missing_reaction_average_is_zero "Ann" Samples.noReaction).
  vm_compute. reflexivity.
Defined.
End SampleCounts.

(* ================================================================== *)
(** ** The minimum race count of the win-rate rankings (C4)            *)
(* ================================================================== *)

Section WinRate.
Import JS Race Spec.

Lemma groupOf_key (R : Type) (key : R -> string) (k : string)
  (data : list R) (r : R) :
  In r (groupOf key k data) -> key r = k.
Proof.
  unfold groupOf. intros H. apply filter_In in H.
  now apply String.eqb_eq.
Qed.

Lemma groupOf_head (R : Type) (key : R -> string) (k : string)
  (data g : list R) (r : R) :
  groupOf key k data = r :: g -> key r = k.
Proof.
  intros H. apply (@groupOf_key R key k data). rewrite H. now left.
Qed.

Lemma rateStats_fold (g : list RaceRecord) (s0 : Statistics.RateStats) :
  fold_left
    (fun s race =>
       {| Statistics.s_driver := Statistics.s_driver s;
          Statistics.s_carNo := Statistics.s_carNo s;
          Statistics.s_wins := if isWin race then Statistics.s_wins s + 1
                               else Statistics.s_wins s;
          Statistics.s_races := Statistics.s_races s + 1 |})
    g s0
  = {| Statistics.s_driver := Statistics.s_driver s0;
       Statistics.s_carNo := Statistics.s_carNo s0;
       Statistics.s_wins :=
         Statistics.s_wins s0 + List.length (filter isWin g);
       Statistics.s_races := Statistics.s_races s0 + List.length g |}.
Proof.
  revert s0. induction g as [| r g IH]; intros s0; simpl.
  - destruct s0; simpl. f_equal; lia.
  - rewrite IH. simpl. destruct (isWin r); simpl; f_equal; lia.
Qed.

(** The dictionary of the statistics view holds exactly the accumulations
    of the drivers that have records. *)
Lemma driverStats_values (data : list RaceRecord) (s : Statistics.RateStats) :
  In s (values (Statistics.driverStats data)) <->
  exists d, rateStatsOf d data = Some s.
Proof.
  unfold Statistics.driverStats.
  change (fold_left _ data []) with
    (groupFold Driver
       (fun race => {| Statistics.s_driver := Driver race;
                       Statistics.s_carNo := CarNo race;
                       Statistics.s_wins := 0; Statistics.s_races := 0 |})
       (fun race s =>
          {| Statistics.s_driver := Statistics.s_driver s;
             Statistics.s_carNo := Statistics.s_carNo s;
             Statistics.s_wins := if isWin race then Statistics.s_wins s + 1
                                  else Statistics.s_wins s;
             Statistics.s_races := Statistics.s_races s + 1 |})
       data).
  rewrite groupFold_values. unfold rateStatsOf, racesOf, foldGroup.
  split; intros [d Hd]; exists d; destruct (groupOf Driver d data);
    try discriminate; rewrite rateStats_fold in *; exact Hd.
Qed.

Lemma rateStatsOf_driver (d : string) (data : list RaceRecord)
  (s : Statistics.RateStats) :
  rateStatsOf d data = Some s ->
  Statistics.s_driver s = d /\
  Statistics.s_races s = List.length (racesOf d data) /\
  Statistics.s_wins s = List.length (filter isWin (racesOf d data)).
Proof.
  unfold rateStatsOf. destruct (racesOf d data) as [| r g] eqn:E;
    [discriminate |].
  intros H. injection H as <-. simpl.
  repeat split. now apply (@groupOf_head _ Driver d data g).
Qed.

Lemma rateStatsOf_some (d : string) (data : list RaceRecord) :
  racesOf d data <> [] -> exists s, rateStatsOf d data = Some s.
Proof.
  unfold rateStatsOf. destruct (racesOf d data); [congruence |].
  intros _. eexists. reflexivity.
Qed.

Lemma winRateLeaderboard_candidates (data : list RaceRecord) :
  Statistics.winRateLeaderboard data =
  sliceTo 10 (sort (Statistics.descending Statistics.value)
                (winRateCandidates data)).
Proof. reflexivity. Qed.

Lemma winRateCandidates_In (data : list RaceRecord)
  (e : Statistics.LeaderboardEntry) :
  In e (winRateCandidates data) <->
  exists d s, rateStatsOf d data = Some s /\
              3 <= List.length (racesOf d data) /\
              e = Statistics.winRateEntry s.
Proof.
  unfold winRateCandidates. rewrite in_map_iff. split.
  - intros (s & <- & Hs). apply filter_In in Hs. destruct Hs as [Hs H3].
    apply driverStats_values in Hs. destruct Hs as [d Hd].
    exists d, s. repeat split; [assumption |].
    apply rateStatsOf_driver in Hd. destruct Hd as (_ & <- & _).
    now apply Nat.leb_le.
  - intros (d & s & Hd & H3 & ->). exists s. split; [reflexivity |].
    apply filter_In. split.
    + apply driverStats_values. now exists d.
    + apply rateStatsOf_driver in Hd. destruct Hd as (_ & -> & _).
      now apply Nat.leb_le.
Qed.

Lemma winTotal_fold (g : list RaceRecord) (s0 : Dashboard.WinTotal) :
  fold_left
    (fun stats record =>
       {| Dashboard.wins := if isWin record then Dashboard.wins stats + 1
                            else Dashboard.wins stats;
          Dashboard.total := Dashboard.total stats + 1 |})
    g s0
  = {| Dashboard.wins := Dashboard.wins s0 + List.length (filter isWin g);
       Dashboard.total := Dashboard.total s0 + List.length g |}.
Proof.
  revert s0. induction g as [| r g IH]; intros s0; simpl.
  - destruct s0; simpl. f_equal; lia.
  - rewrite IH. simpl. destruct (isWin r); simpl; f_equal; lia.
Qed.

(** The dashboard's map holds an entry for every driver with a record. *)
Lemma dashboard_driverStats_In (data : list RaceRecord) (d : string)
  (stats : Dashboard.WinTotal) :
  In (d, stats) (Dashboard.driverStats data) <-> winTotalOf d data = Some stats.
Proof.
  unfold Dashboard.driverStats.
  change (fold_left _ data []) with
    (groupFold Driver
       (fun _ : RaceRecord => {| Dashboard.wins := 0; Dashboard.total := 0 |})
       (fun record stats =>
          {| Dashboard.wins := if isWin record then Dashboard.wins stats + 1
                               else Dashboard.wins stats;
             Dashboard.total := Dashboard.total stats + 1 |})
       data).
  rewrite groupFold_In. unfold winTotalOf, racesOf, foldGroup.
  destruct (groupOf Driver d data); [reflexivity |].
  now rewrite winTotal_fold.
Qed.

(** C4 as stated fails in both rankings: the dashboard's win-rate chart
    lists a driver with a single race, and the statistics view's
    leaderboard, cut at ten, leaves out the eleventh of eleven drivers
    with three races each. *)
Lemma win_rate_rankings_against_threshold :
  In "Ann"%string (map Dashboard.name (Dashboard.winRateData Samples.byeOnly)) /\
  List.length (racesOf "Ann" Samples.byeOnly) = 1 /\
  List.length (racesOf "K" Samples.elevenDrivers) = 3 /\
  ~ In "K"%string
      (map Statistics.driver
         (Statistics.winRateLeaderboard Samples.elevenDrivers)).
Proof.
  repeat split; try (vm_compute; reflexivity).
  - vm_compute. left. reflexivity.
  - vm_compute. intros H.
    repeat (destruct H as [H | H]; [discriminate H |]). exact H.
Qed.

(** The boundary on a season of one driver: listed with three races, not
    with the first two of them. *)
Lemma win_rate_boundary :
  map Statistics.driver (Statistics.winRateLeaderboard Samples.threeRaces)
  = ["Ann"%string] /\
  map Statistics.value (Statistics.winRateLeaderboard Samples.threeRaces)
  = [Fin (200 # 3)] /\
  Statistics.winRateLeaderboard (firstn 2 Samples.threeRaces) = [].
Proof. repeat split; vm_compute; reflexivity. Qed.

(** The dashboard's chart ranks every driver of the data, whatever the
    number of races, and shows them all when there are at most six. *)
Lemma dashboard_win_rate_lists_every_driver
  (data : list RaceRecord) (d : string) :
  1 <= List.length (racesOf d data) ->
  List.length (Dashboard.driverStats data) <= 6 ->
  In (displayName ". " d) (map Dashboard.name (Dashboard.winRateData data)).
Proof.
  intros H1 H6.
  assert (Hs : exists stats, winTotalOf d data = Some stats).
  { unfold winTotalOf. destruct (racesOf d data); [simpl in H1; lia |].
    eexists. reflexivity. }
  destruct Hs as [stats Hs]. apply dashboard_driverStats_In in Hs.
  apply in_map_iff. exists (Dashboard.winRatePoint (d, stats)).
  split; [reflexivity |].
  unfold Dashboard.winRateData. rewrite sliceTo_all.
  - apply sort_In. now apply in_map.
  - now rewrite sort_length, length_map.
Qed.
End WinRate.

(* ================================================================== *)
(** ** Finite arithmetic and sorted rankings                           *)
(* ================================================================== *)

Section FiniteFacts.
Import JS Race Spec.

Lemma nonneg_finite (x : num) : nonneg x -> finite x.
Proof. intros (q & -> & _). now exists q. Qed.

Lemma finite_notNaN (x : num) : finite x -> notNaN x.
Proof. intros [q ->]. discriminate. Qed.

Lemma finite_sub (x y : num) : finite x -> finite y -> finite (sub x y).
Proof. intros [a ->] [b ->]. eexists. reflexivity. Qed.

Lemma nonneg_add (x y : num) : nonneg x -> nonneg y -> nonneg (add x y).
Proof.
  intros (a & -> & Ha) (b & -> & Hb). eexists. split; [reflexivity |].
  rewrite Qred_correct. lra.
Qed.

Lemma finite_add (x y : num) : finite x -> finite y -> finite (add x y).
Proof. intros [a ->] [b ->]. eexists. reflexivity. Qed.

Lemma nonneg_pow2 (x : num) : finite x -> nonneg (pow2 x).
Proof.
  intros [a ->]. eexists. split; [reflexivity |].
  rewrite Qred_correct. nra.
Qed.

Lemma div_by_count (a : Q) (n : nat) :
  0 < n -> div (Fin a) (ofNat n) = Fin (Qred (a / inject_Z (Z.of_nat n))).
Proof.
  intros Hn. apply ofNat_pos in Hn. unfold div, ofNat, ofZ.
  now rewrite (proj1 (Qgt_alt _ _) Hn).
Qed.

Lemma finite_div (x : num) (n : nat) :
  finite x -> 0 < n -> finite (div x (ofNat n)).
Proof. intros [a ->] Hn. rewrite div_by_count by assumption. now eexists. Qed.

Lemma nonneg_div (x : num) (n : nat) :
  nonneg x -> 0 < n -> nonneg (div x (ofNat n)).
Proof.
  intros (a & -> & Ha) Hn. rewrite div_by_count by assumption.
  eexists. split; [reflexivity |]. rewrite Qred_correct.
  apply ofNat_pos in Hn. apply Qle_shift_div_l; [assumption | lra].
Qed.

Lemma finite_sum (l : list num) (a : num) :
  Forall finite l -> finite a -> finite (fold_left add l a).
Proof.
  intros Hl. revert a. induction Hl as [| x l Hx Hl IH]; intros a Ha;
    simpl; [assumption |].
  apply IH. now apply finite_add.
Qed.

Lemma nonneg_sum (l : list num) (a : num) :
  Forall nonneg l -> nonneg a -> nonneg (fold_left add l a).
Proof.
  intros Hl. revert a. induction Hl as [| x l Hx Hl IH]; intros a Ha;
    simpl; [assumption |].
  apply IH. now apply nonneg_add.
Qed.

Lemma fold_left_add_map (A : Type) (g : A -> num) (l : list A) (a : num) :
  fold_left (fun s v => add s (g v)) l a = fold_left add (map g l) a.
Proof.
  revert a. induction l as [| x l IH]; intros a; simpl; [reflexivity |].
  apply IH.
Qed.

(** The variance computed by the code is the population variance. *)
Lemma variance_population (times : list num) :
  Statistics.variance times = populationVariance times.
Proof.
  unfold Statistics.variance, populationVariance, Statistics.mean, sum.
  now rewrite fold_left_add_map.
Qed.

(** On the sample 1, 2, 3 the code's variance is 2/3: the sum of squares 2
    over N = 3, where the sample variance over N - 1 would be 1. *)
Lemma variance_divides_by_N :
  Statistics.variance [Fin 1; Fin 2; Fin 3] = Fin (2 # 3) /\
  sampleVariance [Fin 1; Fin 2; Fin 3] = Fin 1.
Proof. split; vm_compute; reflexivity. Qed.

Lemma populationVariance_nonneg (xs : list num) :
  Forall finite xs -> xs <> [] -> nonneg (populationVariance xs).
Proof.
  intros Hx Hne. unfold populationVariance.
  assert (Hn : 0 < List.length xs) by (destruct xs; [congruence | simpl; lia]).
  apply nonneg_div; [| assumption].
  apply nonneg_sum; [| exists 0%Q; split; [reflexivity | lra]].
  apply Forall_forall. intros y Hy. apply in_map_iff in Hy.
  destruct Hy as (x & <- & Hin). apply nonneg_pow2, finite_sub.
  - rewrite Forall_forall in Hx. now apply Hx.
  - apply finite_div; [| assumption].
    apply finite_sum; [assumption | now exists 0%Q].
Qed.

(** A ranking sorted by [a.f - b.f], or [b.f - a.f], is in ascending, or
    descending, order of [f] when no value is NaN. *)
Lemma sort_ascending (A : Type) (f : A -> num) (l : list A) :
  Forall (fun a => notNaN (f a)) l ->
  sortedAscending f (sort (Statistics.ascending f) l).
Proof.
  intros Hl. unfold sortedAscending.
  apply (@sort_sorted A (Statistics.ascending f) (fun a => notNaN (f a)));
    [| | | assumption].
  - intros x y Hx Hy. unfold after, Statistics.ascending.
    rewrite gtb_sub by assumption. apply gtb_true_leb.
  - intros x y Hx Hy. unfold after, Statistics.ascending.
    rewrite gtb_sub by assumption. now apply gtb_false_leb.
  - intros x y z. apply leb_trans.
Qed.

Lemma sort_descending (A : Type) (f : A -> num) (l : list A) :
  Forall (fun a => notNaN (f a)) l ->
  sortedDescending f (sort (Statistics.descending f) l).
Proof.
  intros Hl. unfold sortedDescending.
  apply (@sort_sorted A (Statistics.descending f) (fun a => notNaN (f a)));
    [| | | assumption].
  - intros x y Hx Hy. unfold after, Statistics.descending.
    rewrite gtb_sub by assumption. apply gtb_true_leb.
  - intros x y Hx Hy. unfold after, Statistics.descending.
    rewrite gtb_sub by assumption. now apply gtb_false_leb.
  - intros x y z Hxy Hyz. eapply leb_trans; eassumption.
Qed.
End FiniteFacts.

(* ================================================================== *)
(** ** The consistency ranking (C6)                                    *)
(* ================================================================== *)

Section Consistency.
Import JS Race Spec.

Lemma etStats_fold (g : list RaceRecord) (s0 : Statistics.ETStats) :
  fold_left
    (fun s race =>
       {| Statistics.e_driver := Statistics.e_driver s;
          Statistics.e_carNo := Statistics.e_carNo s;
          Statistics.etTimes := Statistics.etTimes s ++ [ET race] |})
    g s0
  = {| Statistics.e_driver := Statistics.e_driver s0;
       Statistics.e_carNo := Statistics.e_carNo s0;
       Statistics.etTimes := Statistics.etTimes s0 ++ map ET g |}.
Proof.
  revert s0. induction g as [| r g IH]; intros s0; simpl.
  - destruct s0; simpl. now rewrite app_nil_r.
  - rewrite IH. simpl. now rewrite <- app_assoc.
Qed.

Lemma driverETStats_values (data : list RaceRecord) (s : Statistics.ETStats) :
  In s (values (Statistics.driverETStats data)) <->
  exists d, etStatsOf d data = Some s.
Proof.
  unfold Statistics.driverETStats.
  change (fold_left _ ?l []) with
    (groupFold Driver
       (fun race => {| Statistics.e_driver := Driver race;
                       Statistics.e_carNo := CarNo race;
                       Statistics.etTimes := [] |})
       (fun race s =>
          {| Statistics.e_driver := Statistics.e_driver s;
             Statistics.e_carNo := Statistics.e_carNo s;
             Statistics.etTimes := Statistics.etTimes s ++ [ET race] |})
       l).
  rewrite groupFold_values. unfold etStatsOf, samplesOf, foldGroup.
  split; intros [d Hd]; exists d;
    destruct (groupOf Driver d _); try discriminate;
    rewrite etStats_fold in *; exact Hd.
Qed.

Lemma etStatsOf_driver (d : string) (data : list RaceRecord)
  (s : Statistics.ETStats) :
  etStatsOf d data = Some s ->
  Statistics.e_driver s = d /\
  Statistics.etTimes s = map ET (samplesOf ET d data).
Proof.
  unfold etStatsOf. destruct (samplesOf ET d data) as [| r g] eqn:E;
    [discriminate |].
  intros H. injection H as <-. simpl. split; [| reflexivity].
  unfold samplesOf in E. now apply groupOf_head in E.
Qed.


Lemma consistencyCandidates_In (sqrt : num -> num) (data : list RaceRecord)
  (e : Statistics.LeaderboardEntry) :
  In e (consistencyCandidates sqrt data) <->
  exists d s, etStatsOf d data = Some s /\
              3 <= List.length (samplesOf ET d data) /\
              e = Statistics.consistencyEntry sqrt s.
Proof.
  unfold consistencyCandidates. rewrite in_map_iff. split.
  - intros (s & <- & Hs). apply filter_In in Hs. destruct Hs as [Hs H3].
    apply driverETStats_values in Hs. destruct Hs as [d Hd].
    exists d, s. repeat split; [assumption |].
    apply etStatsOf_driver in Hd. destruct Hd as (_ & Ht).
    apply Nat.leb_le in H3. now rewrite Ht, length_map in H3.
  - intros (d & s & Hd & H3 & ->). exists s. split; [reflexivity |].
    apply filter_In. split.
    + apply driverETStats_values. now exists d.
    + apply etStatsOf_driver in Hd. destruct Hd as (_ & ->).
      rewrite length_map. now apply Nat.leb_le.
Qed.

Lemma samplesOf_In (metric : RaceRecord -> num) (d : string)
  (data : list RaceRecord) (race : RaceRecord) :
  In race (samplesOf metric d data) ->
  In race data /\ Driver race = d /\ present (metric race) = true.
Proof.
  unfold samplesOf, groupOf. intros H. apply filter_In in H.
  destruct H as [H Hd]. apply filter_In in H. destruct H as [H Hp].
  apply String.eqb_eq in Hd. auto.
Qed.

Lemma sqrtApprox_number (q : Q) :
  (0 <= q)%Q -> notNaN (Samples.sqrtApprox (Fin q)).
Proof.
  intros Hq. unfold Samples.sqrtApprox.
  destruct (Qcompare_spec q 0); try discriminate. lra.
Qed.

End Consistency.

(* ================================================================== *)
(** ** The improvement rankings (C7)                                   *)
(* ================================================================== *)

Section Improvement.
Import JS Race Spec.

Lemma skip_present (x : num) :
  negb (negb (truthy x) || leb x zero) = present x.
Proof.
  unfold present, truthy, leb, gtb, sign, zero, compare.
  destruct x; try reflexivity. now destruct (q ?= 0)%Q.
Qed.

Lemma progressOf_groupFold (metric : RaceRecord -> num)
  (data : list RaceRecord) :
  Statistics.progressOf metric data =
  groupFold Driver
    (fun race => {| Statistics.g_driver := Driver race;
                    Statistics.g_carNo := CarNo race;
                    Statistics.runs := [] |})
    (fun race p =>
       {| Statistics.g_driver := Statistics.g_driver p;
          Statistics.g_carNo := Statistics.g_carNo p;
          Statistics.runs := Statistics.runs p ++ [mkRun metric race] |})
    (filter (fun race => present (metric race)) data).
Proof.
  unfold Statistics.progressOf.
  rewrite (fold_left_skip
             (fun race => negb (truthy (metric race)) || leb (metric race) zero)
             (fun acc race =>
                upsert (Driver race)
                  {| Statistics.g_driver := Driver race;
                     Statistics.g_carNo := CarNo race;
                     Statistics.runs := [] |}
                  (fun p =>
                     {| Statistics.g_driver := Statistics.g_driver p;
                        Statistics.g_carNo := Statistics.g_carNo p;
                        Statistics.runs :=
                          Statistics.runs p ++
                          [{| Statistics.r_date := Date race;
                              Statistics.r_value := metric race |}] |})
                  acc)).
  rewrite (filter_ext _ (fun race => present (metric race)));
    [reflexivity |].
  intros race. apply skip_present.
Qed.

Lemma progress_fold (metric : RaceRecord -> num) (g : list RaceRecord)
  (p0 : Statistics.Progress) :
  fold_left
    (fun p race =>
       {| Statistics.g_driver := Statistics.g_driver p;
          Statistics.g_carNo := Statistics.g_carNo p;
          Statistics.runs := Statistics.runs p ++ [mkRun metric race] |})
    g p0
  = {| Statistics.g_driver := Statistics.g_driver p0;
       Statistics.g_carNo := Statistics.g_carNo p0;
       Statistics.runs := Statistics.runs p0 ++ map (mkRun metric) g |}.
Proof.
  revert p0. induction g as [| r g IH]; intros p0; simpl.
  - destruct p0; simpl. now rewrite app_nil_r.
  - rewrite IH. simpl. now rewrite <- app_assoc.
Qed.

Lemma progressOf_values (metric : RaceRecord -> num) (data : list RaceRecord)
  (p : Statistics.Progress) :
  In p (values (Statistics.progressOf metric data)) <->
  exists d, progressRecord metric d data = Some p.
Proof.
  rewrite progressOf_groupFold, groupFold_values.
  unfold progressRecord, samplesOf, foldGroup.
  split; intros [d Hd]; exists d;
    destruct (groupOf Driver d _); try discriminate;
    rewrite progress_fold in *; exact Hd.
Qed.

Lemma progressRecord_driver (metric : RaceRecord -> num) (d : string)
  (data : list RaceRecord) (p : Statistics.Progress) :
  progressRecord metric d data = Some p ->
  Statistics.g_driver p = d /\
  Statistics.runs p = map (mkRun metric) (samplesOf metric d data).
Proof.
  unfold progressRecord. destruct (samplesOf metric d data) as [| r g] eqn:E;
    [discriminate |].
  intros H. injection H as <-. simpl. split; [| reflexivity].
  unfold samplesOf in E. now apply groupOf_head in E.
Qed.

Lemma eligibleProgress_In (metric : RaceRecord -> num)
  (data : list RaceRecord) (p : Statistics.Progress) :
  In p (eligibleProgress metric data) <->
  exists d, progressRecord metric d data = Some p /\
            4 <= List.length (samplesOf metric d data).
Proof.
  unfold eligibleProgress. rewrite filter_In, progressOf_values. split.
  - intros [[d Hd] H4]. exists d. split; [assumption |].
    apply progressRecord_driver in Hd. destruct Hd as [_ Hr].
    apply Nat.leb_le in H4. now rewrite Hr, length_map in H4.
  - intros (d & Hd & H4). split; [now exists d |].
    apply progressRecord_driver in Hd. destruct Hd as [_ ->].
    rewrite length_map. now apply Nat.leb_le.
Qed.

(** The first two and the last two of at least four. *)
Lemma first_and_last_two (A : Type) (l : list A) :
  4 <= List.length l ->
  exists a b mid y z,
    l = [a; b] ++ mid ++ [y; z] /\
    sliceTo 2 l = [a; b] /\ sliceLast 2 l = [y; z].
Proof.
  intros H4. destruct l as [| a [| b rest]]; try (simpl in H4; lia).
  assert (H2 : 2 <= List.length rest) by (simpl in H4; lia).
  pose proof (firstn_skipn (List.length rest - 2) rest) as Hsplit.
  assert (Hlen : List.length (skipn (List.length rest - 2) rest) = 2)
    by (rewrite length_skipn; lia).
  destruct (skipn (List.length rest - 2) rest) as [| y [| z [| w t]]] eqn:Et;
    try (simpl in Hlen; lia).
  exists a, b, (firstn (List.length rest - 2) rest), y, z.
  split; [| split].
  - simpl. now rewrite Hsplit.
  - reflexivity.
  - unfold sliceLast.
    replace (List.length (a :: b :: rest) - 2) with
      (2 + (List.length rest - 2)) by (simpl; lia).
    simpl. exact Et.
Qed.


(** The ET ranking of the four runs of the sample: early average
    (8 + 7.9) / 2, late average (7.8 + 7.6) / 2, a delta of -0.25. *)
Lemma improvement_of_fourRuns :
  map Statistics.value
    (Statistics.improvementData Samples.isoTime Samples.fourRuns)
  = [Fin (- (1 # 4))] /\
  map Statistics.value
    (Statistics.improvementData Samples.isoTime (tl Samples.fourRuns)) = [].
Proof. split; vm_compute; reflexivity. Qed.
End Improvement.

(* ================================================================== *)
(** ** Leaderboards: cut, order and ties (C5)                          *)
(* ================================================================== *)

Section Leaderboards.
Import JS Race Spec.

Section Cut.
Variable A : Type.
Variable f : A -> num.

Lemma ties_of_sort (compareFn : A -> A -> num) (K : nat) (l : list A) :
  (forall x y v, eqb (f x) v = true -> eqb (f y) v = true ->
                 after compareFn x y = false) ->
  tiesInOrder f l (sliceTo K (sort compareFn l)).
Proof.
  intros Htie v.
  destruct (sliceTo_filter (fun e => eqb (f e) v) K (sort compareFn l))
    as [n Hn].
  exists n. rewrite Hn. f_equal. apply sort_stable.
  intros x y Hx Hy. now apply (Htie x y v).
Qed.

Lemma cut_incl (compareFn : A -> A -> num) (K : nat) (l : list A) :
  incl (sliceTo K (sort compareFn l)) l.
Proof. intros x Hx. now apply sliceTo_In, sort_In in Hx. Qed.

Lemma top_ascending_cut (K : nat) (l : list A) :
  Forall (fun a => notNaN (f a)) l ->
  topAscending K f l (sliceTo K (sort (Statistics.ascending f) l)).
Proof.
  intros Hl. split; [| split; [| split]].
  - apply sliceTo_length.
  - apply cut_incl.
  - now apply sliceTo_sorted, sort_ascending.
  - apply ties_of_sort. intros x y v Hx Hy.
    unfold after, Statistics.ascending. now apply (@tie_not_after _ _ v).
Qed.

Lemma top_descending_cut (K : nat) (l : list A) :
  Forall (fun a => notNaN (f a)) l ->
  topDescending K f l (sliceTo K (sort (Statistics.descending f) l)).
Proof.
  intros Hl. split; [| split; [| split]].
  - apply sliceTo_length.
  - apply cut_incl.
  - now apply sliceTo_sorted, sort_descending.
  - apply ties_of_sort. intros x y v Hx Hy.
    unfold after, Statistics.descending. now apply (@tie_not_after _ _ v).
Qed.
End Cut.

Section Mapped.
Variables A B : Type.
Variable f : A -> num.
Variable g : B -> num.
Variable h : A -> B.
Hypothesis gh : forall a, g (h a) = f a.

Lemma sorted_map (R : num -> num -> Prop) (l : list A) :
  StronglySorted (fun a b => R (f a) (f b)) l ->
  StronglySorted (fun a b => R (g a) (g b)) (map h l).
Proof.
  induction 1 as [| x l Hs IH Hx]; simpl; constructor; [assumption |].
  apply Forall_forall. intros y Hy. apply in_map_iff in Hy.
  destruct Hy as (a & <- & Ha). rewrite !gh.
  rewrite Forall_forall in Hx. now apply Hx.
Qed.

Lemma filter_map_metric (v : num) (l : list A) :
  filter (fun e => eqb (g e) v) (map h l) =
  map h (filter (fun e => eqb (f e) v) l).
Proof.
  induction l as [| x l IH]; simpl; [reflexivity |].
  rewrite gh, IH. now destruct (eqb (f x) v).
Qed.

Lemma ties_map (candidates result : list A) :
  tiesInOrder f candidates result ->
  tiesInOrder g (map h candidates) (map h result).
Proof.
  intros H v. destruct (H v) as [n Hn]. exists n.
  now rewrite !filter_map_metric, Hn, firstn_map.
Qed.

Lemma top_ascending_map (K : nat) (candidates result : list A) :
  topAscending K f candidates result ->
  topAscending K g (map h candidates) (map h result).
Proof.
  intros (Hl & Hi & Hs & Ht). split; [| split; [| split]].
  - now rewrite length_map.
  - now apply incl_map.
  - now apply (sorted_map (fun x y => leb x y = true)).
  - now apply ties_map.
Qed.

Lemma top_descending_map (K : nat) (candidates result : list A) :
  topDescending K f candidates result ->
  topDescending K g (map h candidates) (map h result).
Proof.
  intros (Hl & Hi & Hs & Ht). split; [| split; [| split]].
  - now rewrite length_map.
  - now apply incl_map.
  - now apply (sorted_map (fun x y => leb y x = true)).
  - now apply ties_map.
Qed.
End Mapped.

Lemma withMetric_notNaN (metric : RaceRecord -> num) (data : list RaceRecord) :
  Forall (fun race => notNaN (metric race)) (withMetric metric data).
Proof.
  apply Forall_forall. intros race H. apply filter_In in H.
  now apply present_not_NaN.
Qed.

Lemma aboveFloor_notNaN (data : list RaceRecord) :
  Forall (fun race => notNaN (Reaction race)) (aboveFloor data).
Proof.
  apply Forall_forall. intros race H. apply filter_In in H.
  destruct H as [_ H]. apply andb_true_iff in H.
  now apply (@gtb_not_NaN _ Statistics.reactionFloor).
Qed.
End Leaderboards.

Section LeaderboardValues.
Import JS Race Spec.

Lemma finite_ofNat (n : nat) : finite (ofNat n).
Proof. eexists. reflexivity. Qed.

Lemma finite_mul (x y : num) : finite x -> finite y -> finite (mul x y).
Proof. intros [a ->] [b ->]. eexists. reflexivity. Qed.

Lemma finite_round (x : num) : finite x -> finite (round x).
Proof. intros [a ->]. eexists. reflexivity. Qed.

Lemma toFixed_notNaN (d : nat) (x : num) : notNaN x -> notNaN (toFixed d x).
Proof.
  destruct x; try (intros H; exact H). intros _. unfold toFixed.
  destruct (q ?= 0)%Q; discriminate.
Qed.

Lemma winRateCandidates_notNaN (data : list RaceRecord) :
  Forall (fun e => notNaN (Statistics.value e)) (winRateCandidates data).
Proof.
  apply Forall_forall. intros e He. apply winRateCandidates_In in He.
  destruct He as (d & s & Hs & H3 & ->).
  apply rateStatsOf_driver in Hs. destruct Hs as (_ & Hr & _).
  apply finite_notNaN. cbn [Statistics.winRateEntry Statistics.value].
  apply finite_mul; [| apply finite_ofNat].
  apply finite_div; [apply finite_ofNat | lia].
Qed.

Lemma consistencyCandidates_notNaN (sqrt : num -> num) (data : list RaceRecord) :
  (forall q, (0 <= q)%Q -> notNaN (sqrt (Fin q))) ->
  (forall race, In race data -> finite (ET race)) ->
  Forall (fun e => notNaN (Statistics.value e))
    (consistencyCandidates sqrt data).
Proof.
  intros Hsqrt Hfin. apply Forall_forall. intros e He.
  apply consistencyCandidates_In in He.
  destruct He as (d & s & Hs & H3 & ->).
  apply etStatsOf_driver in Hs. destruct Hs as [_ Ht].
  cbn [Statistics.consistencyEntry Statistics.value].
  unfold Statistics.stdDev. rewrite variance_population, Ht.
  destruct (@populationVariance_nonneg (map ET (samplesOf ET d data)))
    as (q & -> & Hq).
  - apply Forall_forall. intros x Hx. apply in_map_iff in Hx.
    destruct Hx as (race & <- & Hr). apply samplesOf_In in Hr.
    now apply Hfin.
  - intros E. apply (f_equal (@List.length num)) in E.
    rewrite length_map in E. simpl in E. lia.
  - now apply Hsqrt.
Qed.

Lemma runsAvg_two (getTime : string -> num) (a b : Statistics.Run) :
  finite (Statistics.r_value a) -> finite (Statistics.r_value b) ->
  finite (Statistics.runsAvg [a; b]).
Proof.
  intros Ha Hb. unfold Statistics.runsAvg. cbn [fold_left List.length].
  apply finite_div; [| lia].
  apply finite_add; [| assumption].
  apply finite_add; [now exists 0%Q | assumption].
Qed.

Lemma improvement_value_finite (getTime : string -> num)
  (metric : RaceRecord -> num) (data : list RaceRecord)
  (p : Statistics.Progress) :
  (forall race, In race data -> finite (metric race)) ->
  In p (eligibleProgress metric data) ->
  finite (sub (Statistics.lateAvg getTime p) (Statistics.earlyAvg getTime p)).
Proof.
  intros Hfin Hp. apply eligibleProgress_In in Hp.
  destruct Hp as (d & Hrec & H4).
  apply progressRecord_driver in Hrec. destruct Hrec as [_ Hr].
  assert (Hall : forall run, In run (Statistics.sortedRuns getTime p) ->
                             finite (Statistics.r_value run)).
  { intros run Hrun. unfold Statistics.sortedRuns in Hrun.
    apply sort_In in Hrun. rewrite Hr in Hrun. apply in_map_iff in Hrun.
    destruct Hrun as (race & <- & Hrace). apply samplesOf_In in Hrace.
    simpl. now apply Hfin. }
  destruct (@first_and_last_two _ (Statistics.sortedRuns getTime p))
    as (a & b & mid & y & z & Hl & Hfirst & Hlast).
  { unfold Statistics.sortedRuns. now rewrite sort_length, Hr, length_map. }
  unfold Statistics.lateAvg, Statistics.earlyAvg. rewrite Hfirst, Hlast.
  rewrite Hl in Hall.
  apply finite_sub; apply (runsAvg_two getTime); apply Hall;
    simpl; rewrite ?in_app_iff; simpl; auto 10.
Qed.

Lemma winRatePoint_notNaN (e : string * Dashboard.WinTotal) :
  notNaN (Dashboard.value (Dashboard.winRatePoint e)).
Proof.
  destruct e as [d stats]. apply finite_notNaN.
  cbn [Dashboard.winRatePoint Dashboard.value].
  destruct (0 <? Dashboard.total stats) eqn:E; [| now exists 0%Q].
  apply Nat.ltb_lt in E.
  apply finite_round, finite_mul; [| apply finite_ofNat].
  apply finite_div; [apply finite_ofNat | assumption].
Qed.

(** The lists collected per driver by the dashboard are not empty and
    hold values [> 0]. *)
Lemma collected_positive (f : RaceRecord -> num) (data : list RaceRecord)
  (d : string) (l : list num) :
  In (d, l)
     (fold_left
        (fun m record =>
           if present (f record)
           then upsert (Driver record) [] (fun xs => xs ++ [f record]) m
           else m)
        data []) ->
  l <> [] /\ Forall positive l.
Proof.
  rewrite (fold_left_cond (fun record => present (f record))
             (fun m record =>
                upsert (Driver record) [] (fun xs => xs ++ [f record]) m)).
  change (fold_left _ ?l0 []) with
    (groupFold Driver (fun _ : RaceRecord => @nil num)
       (fun record xs => xs ++ [f record]) l0).
  rewrite groupFold_In. unfold foldGroup.
  destruct (groupOf Driver d _) as [| r g] eqn:E; [discriminate |].
  rewrite fold_left_collect. intros H. injection H as <-.
  split; [discriminate |].
  apply Forall_forall. intros x Hx.
  change (In x (map f (r :: g))) in Hx. apply in_map_iff in Hx.
  destruct Hx as (race & <- & Hrace).
  rewrite <- E in Hrace. apply filter_In in Hrace. destruct Hrace as [Hrace _].
  apply filter_In in Hrace. now apply present_gtb.
Qed.

Lemma reactionPoints_notNaN (data : list RaceRecord) :
  Forall (fun pt => notNaN (Dashboard.r_value pt))
    (map Dashboard.reactionPoint (entries (Dashboard.reactionsByDriver data))).
Proof.
  apply Forall_forall. intros pt Hpt. apply in_map_iff in Hpt.
  destruct Hpt as ([d l] & <- & Hin).
  apply collected_positive in Hin. destruct Hin as [Hne Hpos].
  cbn [Dashboard.reactionPoint Dashboard.r_value].
  apply toFixed_notNaN, positive_notNaN. now apply mean_positive.
Qed.

Lemma speedPoints_notNaN (data : list RaceRecord) :
  Forall (fun pt => notNaN (Dashboard.speed pt))
    (map Dashboard.speedPoint (entries (Dashboard.speedsByDriver data))).
Proof.
  apply Forall_forall. intros pt Hpt. apply in_map_iff in Hpt.
  destruct Hpt as ([d l] & <- & Hin).
  apply collected_positive in Hin. destruct Hin as [Hne Hpos].
  cbn [Dashboard.speedPoint Dashboard.speed].
  apply toFixed_notNaN, positive_notNaN. now apply mean_positive.
Qed.
End LeaderboardValues.

Section LeaderboardsContract.
Import JS Race Spec.

(** C5 as stated fails: the most-wins leaderboard, which ranks drivers,
    is cut at 10 and not at 6: with seven winning drivers it has seven
    entries. *)
Lemma wins_leaderboard_longer_than_six :
  List.length (Statistics.winsLeaderboard Samples.sevenWinners) = 7 /\
  map Statistics.driver (Statistics.winsLeaderboard Samples.sevenWinners)
  = ["A"; "B"; "C"; "D"; "E"; "F"; "G"]%string.
Proof. split; vm_compute; reflexivity. Qed.

(** Ties between drivers follow the enumeration of the dictionary, which
    is not always the input order: of two drivers named "10" and "9" with
    one win each, "9" is enumerated and ranked first. *)
Lemma numbered_drivers_tie_order :
  map Driver Samples.numberedDrivers = ["10"; "9"]%string /\
  map Statistics.driver (Statistics.winsLeaderboard Samples.numberedDrivers)
  = ["9"; "10"]%string.
Proof. split; vm_compute; reflexivity. Qed.

(** C5 as amended: every leaderboard has at most as many entries as its
    code cuts it to, 10 for the record-level leaderboards and for the
    statistics view's rankings of wins, win rate and improvement, 6 for
    the consistency ranking and the three charts of the dashboard; it is
    made of its candidates, in the documented order (ascending for times
    and deviations, descending for speeds, wins and rates), and entries of
    equal metric value keep the order of the candidates: the input order
    of the records, the order of enumeration of the drivers.  The ET and
    MPH are finite numbers and the square root of a number [>= 0] is a
    number. *)
Theorem leaderboards_cut_sorted_stable
  (sqrt : num -> num) (getTime : string -> num) (data : list RaceRecord)
  (Hsqrt : forall q, (0 <= q)%Q -> notNaN (sqrt (Fin q)))
  (HfinET : forall race, In race data -> finite (ET race))
  (HfinMPH : forall race, In race data -> finite (MPH race)) :
  leaderboardsContract sqrt getTime data.
Proof.
  unfold leaderboardsContract.
  repeat match goal with |- _ /\ _ => split end.
  - apply (@top_ascending_map _ _ ET Statistics.value (Statistics.recordEntry ET));
      [reflexivity |].
    apply top_ascending_cut, withMetric_notNaN.
  - apply (@top_descending_map _ _ MPH Statistics.value (Statistics.recordEntry MPH));
      [reflexivity |].
    apply top_descending_cut, withMetric_notNaN.
  - apply (@top_ascending_map _ _ Reaction Statistics.value
             (Statistics.recordEntry Reaction)); [reflexivity |].
    apply top_ascending_cut, aboveFloor_notNaN.
  - apply (@top_ascending_map _ _ ft60 Statistics.value
             (Statistics.recordEntry ft60)); [reflexivity |].
    apply top_ascending_cut, withMetric_notNaN.
  - apply (@top_descending_map _ _ (fun e => ofNat (Statistics.w_wins e))
             Statistics.value winsEntry); [reflexivity |].
    apply top_descending_cut. apply Forall_forall. intros e _. discriminate.
  - apply top_descending_cut, winRateCandidates_notNaN.
  - apply top_ascending_cut. apply Forall_forall. intros e He.
    apply in_map_iff in He. destruct He as (p & <- & Hp).
    apply finite_notNaN.
    now apply (@improvement_value_finite getTime ET data).
  - apply top_descending_cut. apply Forall_forall. intros e He.
    apply in_map_iff in He. destruct He as (p & <- & Hp).
    apply finite_notNaN.
    now apply (@improvement_value_finite getTime MPH data).
  - apply top_ascending_cut. now apply consistencyCandidates_notNaN.
  - apply (@top_descending_cut _ Dashboard.value).
    apply Forall_forall. intros pt Hpt. apply in_map_iff in Hpt.
    destruct Hpt as (e & <- & _). apply winRatePoint_notNaN.
  - apply (@top_ascending_cut _ Dashboard.r_value), reactionPoints_notNaN.
  - apply (@top_descending_cut _ Dashboard.speed), speedPoints_notNaN.
Qed.

Lemma fourRuns_finite (metric : RaceRecord -> num) :
  metric = ET \/ metric = MPH ->
  forall race, In race Samples.fourRuns -> finite (metric race).
Proof.
  intros Hm race H. simpl in H.
  destruct Hm as [-> | ->];
    destruct H as [<- | [<- | [<- | [<- | []]]]]; eexists; reflexivity.
Qed.

Lemma leaderboards_cut_sorted_stable_witness :
  leaderboardsContract Samples.sqrtApprox Samples.isoTime Samples.fourRuns.
Proof.
  apply (@leaderboards_cut_sorted_stable
           Samples.sqrtApprox Samples.isoTime Samples.fourRuns).
  - exact sqrtApprox_number.
  - apply fourRuns_finite. now left.
  - apply fourRuns_finite. now right.
Defined.
End LeaderboardsContract.

(* ================================================================== *)
(** ** The scenario of one driver with three races                     *)
(* ================================================================== *)

Section Scenario.
Import JS Race Drivers.

(** Average ET 7.767 to three decimals, best ET 7.5, win rate 66.7 to one
    decimal; wins and losses add up to the races. *)
Lemma rollup_of_scenario :
  exists st,
    driverStats (loaded Samples.threeRaces initial) = Some st /\
    toFixed 3 (avgEighthET st) = Fin (7767 # 1000) /\
    bestEighthET st = Fin (15 # 2) /\
    toFixed 1 (winRate st) = Fin (667 # 10) /\
    wins st + losses st = races st.
Proof.
  eexists. split; [vm_compute; reflexivity |].
  repeat split; vm_compute; reflexivity.
Qed.

(** The boundary of the consistency ranking: ranked with three ET values,
    not with the first two of them. *)
Lemma consistency_boundary :
  map Statistics.driver
    (Statistics.consistencyLeaderboard Samples.sqrtApprox Samples.threeRaces)
  = ["Ann"%string] /\
  Statistics.consistencyLeaderboard Samples.sqrtApprox
    (firstn 2 Samples.threeRaces) = [].
Proof. split; vm_compute; reflexivity. Qed.
End Scenario.

(* ================================================================== *)
(** ** More facts about dictionaries: totals and keys                  *)
(* ================================================================== *)

Section MeasureFacts.
Import JS Spec.
Variable V : Type.
Variable m : V -> nat.

Lemma list_sum_perm (l l' : list nat) :
  Permutation l l' -> list_sum l = list_sum l'.
Proof.
  induction 1 as [| x l l' _ IH | x y l | l l' l'' _ IH1 _ IH2]; simpl;
    try lia.
Qed.

Lemma sum_set (k : string) (v : V) (o : obj V) :
  list_sum (map m (map snd (set k v o)))
  + match get k o with Some v0 => m v0 | None => 0 end
  = list_sum (map m (map snd o)) + m v.
Proof.
  induction o as [| [k' v'] o IH]; simpl; [lia |].
  destruct (String.eqb k k'); simpl; lia.
Qed.

Lemma sum_upsert (k : string) (init : V) (f : V -> V) (o : obj V) :
  (forall v, m (f v) = m v + 1) -> m init = 0 ->
  list_sum (map m (map snd (upsert k init f o)))
  = list_sum (map m (map snd o)) + 1.
Proof.
  intros Hf Hi. unfold upsert.
  destruct (get k o) as [v0 |] eqn:E.
  - pose proof (sum_set k (f v0) o) as H. rewrite E, Hf in H. lia.
  - pose proof (sum_set k (f init) o) as H. rewrite E, Hf, Hi in H. lia.
Qed.

Lemma values_sum (o : obj V) :
  list_sum (map m (values o)) = list_sum (map m (map snd o)).
Proof. apply list_sum_perm, Permutation_map, values_perm. Qed.

(** A count that every record raises by one adds up to the number of
    records. *)
Lemma groupFold_sum (R : Type) (key : R -> string) (init : R -> V)
  (step : R -> V -> V) (data : list R) :
  (forall r v, m (step r v) = m v + 1) -> (forall r, m (init r) = 0) ->
  list_sum (map m (values (groupFold key init step data))) = List.length data.
Proof.
  intros Hs Hi. rewrite values_sum.
  induction data as [| r data IH] using rev_ind; [reflexivity |].
  rewrite groupFold_snoc, sum_upsert, IH, length_app; simpl; auto.
Qed.
End MeasureFacts.

Section KeyFacts.
Import JS Spec.
Variables R V : Type.
Variable key : R -> string.
Variable init : R -> V.
Variable step : R -> V -> V.
Variable proj : V -> string.
Hypothesis proj_init : forall r, proj (init r) = key r.
Hypothesis proj_step : forall r v, proj (step r v) = proj v.

Lemma fold_step_proj (g : list R) (v : V) :
  proj (fold_left (fun v r => step r v) g v) = proj v.
Proof.
  revert v. induction g as [| r g IH]; intros v; simpl; [reflexivity |].
  now rewrite IH, proj_step.
Qed.

(** Every value of the dictionary carries its own key. *)
Lemma groupFold_keyed (data : list R) (k : string) (v : V) :
  In (k, v) (groupFold key init step data) -> proj v = k.
Proof.
  intros H. apply groupFold_In in H. unfold foldGroup in H.
  destruct (groupOf key k data) as [| r g] eqn:E; [discriminate |].
  injection H as <-. rewrite fold_step_proj, proj_step, proj_init.
  now apply (@groupOf_head _ key k data g).
Qed.

Lemma groupFold_proj_keys (data : list R) :
  map proj (map snd (groupFold key init step data))
  = map fst (groupFold key init step data).
Proof.
  rewrite map_map. apply map_ext_in. intros [k v] Hin. simpl.
  now apply (groupFold_keyed data).
Qed.

Lemma groupFold_values_NoDup (data : list R) :
  NoDup (map proj (values (groupFold key init step data))).
Proof.
  eapply Permutation_NoDup.
  - symmetry. apply Permutation_map, values_perm.
  - rewrite groupFold_proj_keys. apply groupFold_NoDup.
Qed.
End KeyFacts.

(* ================================================================== *)
(** ** The rankings per driver: candidates and cut (C4, C6, C7)        *)
(* ================================================================== *)

Lemma NoDup_map_filter (A B : Type) (g : A -> B) (p : A -> bool)
  (l : list A) :
  NoDup (map g l) -> NoDup (map g (filter p l)).
Proof.
  induction l as [| x l IH]; simpl; intros H; [constructor |].
  inversion H as [| ? ? Hx Hl]; subst.
  destruct (p x); simpl; [| now apply IH].
  constructor; [| now apply IH].
  intros Hin. apply Hx. apply in_map_iff in Hin.
  destruct Hin as (y & Hy & Hin). apply filter_In in Hin.
  apply in_map_iff. exists y. tauto.
Qed.

Section Kept.
Import JS Spec.
Variable A : Type.
Variable f : A -> num.


Lemma highest_kept_cut (K : nat) (l : list A) :
  Forall (fun a => notNaN (f a)) l ->
  highestKept K f l (sliceTo K (sort (Statistics.descending f) l)).
Proof.
  intros Hl. unfold highestKept, sliceTo. split.
  - now rewrite length_firstn, sort_length.
  - exists (skipn K (sort (Statistics.descending f) l)).
    rewrite firstn_skipn. split; [apply sort_perm | now apply sort_descending].
Qed.

Lemma sorted_app_order (R : A -> A -> Prop) (l1 l2 : list A) (x y : A) :
  StronglySorted R (l1 ++ l2) -> In x l1 -> In y l2 -> R x y.
Proof.
  induction l1 as [| a l1 IH]; simpl; intros Hs Hx Hy; [destruct Hx |].
  inversion Hs as [| ? ? Hs' Ha]; subst.
  destruct Hx as [<- | Hx]; [| exact (IH Hs' Hx Hy)].
  rewrite Forall_forall in Ha. apply Ha, in_or_app. right. exact Hy.
Qed.

(** What is kept: no candidate left out has a lower metric than an entry
    kept, and one is left out only when [K] are kept. *)
Lemma lowest_kept_order (K : nat) (candidates result : list A) :
  lowestKept K f candidates result ->
  exists rest,
    Permutation (result ++ rest) candidates /\
    (forall x y, In x result -> In y rest -> leb (f x) (f y) = true) /\
    (rest <> [] -> List.length result = K).
Proof.
  intros (Hlen & rest & Hperm & Hsort). exists rest.
  split; [exact Hperm |]. split.
  - intros x y Hx Hy.
    exact (@sorted_app_order _ result rest x y Hsort Hx Hy).
  - intros Hne. apply Permutation_length in Hperm.
    rewrite length_app in Hperm.
    destruct rest; [congruence | simpl in Hperm; lia].
Qed.

Lemma highest_kept_order (K : nat) (candidates result : list A) :
  highestKept K f candidates result ->
  exists rest,
    Permutation (result ++ rest) candidates /\
    (forall x y, In x result -> In y rest -> leb (f y) (f x) = true) /\
    (rest <> [] -> List.length result = K).
Proof.
  intros (Hlen & rest & Hperm & Hsort). exists rest.
  split; [exact Hperm |]. split.
  - intros x y Hx Hy.
    exact (@sorted_app_order (fun a b => leb (f b) (f a) = true)
             result rest x y Hsort Hx Hy).
  - intros Hne. apply Permutation_length in Hperm.
    rewrite length_app in Hperm.
    destruct rest; [congruence | simpl in Hperm; lia].
Qed.
End Kept.

Section DriverRankings.
Import JS Race Spec.

Lemma driverStats_drivers (data : list RaceRecord) :
  NoDup (map Statistics.s_driver (values (Statistics.driverStats data))).
Proof.
  apply (groupFold_values_NoDup Driver
           (fun race => {| Statistics.s_driver := Driver race;
                           Statistics.s_carNo := CarNo race;
                           Statistics.s_wins := 0; Statistics.s_races := 0 |})
           (fun race s =>
              {| Statistics.s_driver := Statistics.s_driver s;
                 Statistics.s_carNo := Statistics.s_carNo s;
                 Statistics.s_wins := if isWin race then Statistics.s_wins s + 1
                                      else Statistics.s_wins s;
                 Statistics.s_races := Statistics.s_races s + 1 |})
           Statistics.s_driver); reflexivity.
Qed.

Lemma winRateCandidates_drivers (data : list RaceRecord) (d : string) :
  In d (map Statistics.driver (winRateCandidates data)) <->
  3 <= List.length (racesOf d data).
Proof.
  rewrite in_map_iff. split.
  - intros (e & <- & He). apply winRateCandidates_In in He.
    destruct He as (d' & s & Hs & H3 & ->).
    apply rateStatsOf_driver in Hs. destruct Hs as (Hd & _).
    cbn [Statistics.winRateEntry Statistics.driver]. now rewrite Hd.
  - intros H3.
    destruct (@rateStatsOf_some d data) as [s Hs].
    { intros E. rewrite E in H3. simpl in H3. lia. }
    exists (Statistics.winRateEntry s). split.
    + cbn [Statistics.winRateEntry Statistics.driver].
      now apply rateStatsOf_driver in Hs.
    + apply winRateCandidates_In. now exists d, s.
Qed.

(** C4 as amended, for the statistics view.  Its win-rate leaderboard
    lists only drivers with at least 3 races, so never a driver with 2.
    When no driver's name is an inherited property name, the candidates
    are the drivers with at least 3 races, one entry each with the
    driver's win rate and races, and the leaderboard keeps the ten of
    them with the highest win rates: it leaves a candidate out only when
    it has ten entries, none with a lower rate than a candidate left out,
    and so lists every driver with at least 3 races when at most ten
    qualify. *)
Theorem win_rate_minimum_races (data : list RaceRecord) :
  (forall d,
     In d (map Statistics.driver (Statistics.winRateLeaderboard data)) ->
     3 <= List.length (racesOf d data)) /\
  (plainKeys Driver data ->
   (forall d, In d (map Statistics.driver (winRateCandidates data)) <->
              3 <= List.length (racesOf d data)) /\
   NoDup (map Statistics.driver (winRateCandidates data)) /\
   (forall e, In e (winRateCandidates data) ->
      Statistics.value e = winRateOf (Statistics.driver e) data /\
      Statistics.races e
      = Some (List.length (racesOf (Statistics.driver e) data))) /\
   highestKept 10 Statistics.value
     (winRateCandidates data) (Statistics.winRateLeaderboard data) /\
   (forall d, 3 <= List.length (racesOf d data) ->
      List.length (winRateCandidates data) <= 10 ->
      In d (map Statistics.driver (Statistics.winRateLeaderboard data)))).
Proof.
  split.
  - intros d H. apply winRateCandidates_drivers.
    apply in_map_iff in H. destruct H as (e & <- & He).
    rewrite winRateLeaderboard_candidates in He.
    apply sliceTo_In, sort_In in He. now apply in_map.
  - intros _. split; [| split; [| split; [| split]]].
    + exact (winRateCandidates_drivers data).
    + unfold winRateCandidates. rewrite map_map.
      cbn [Statistics.winRateEntry Statistics.driver].
      apply NoDup_map_filter, driverStats_drivers.
    + intros e He. apply winRateCandidates_In in He.
      destruct He as (d & s & Hs & H3 & ->).
      apply rateStatsOf_driver in Hs. destruct Hs as (Hd & Hr & Hw).
      cbn [Statistics.winRateEntry Statistics.driver Statistics.value
           Statistics.races].
      unfold winRateOf. now rewrite Hd, Hr, Hw.
    + rewrite winRateLeaderboard_candidates.
      apply highest_kept_cut, winRateCandidates_notNaN.
    + intros d H3 H10. apply winRateCandidates_drivers in H3.
      rewrite winRateLeaderboard_candidates, sliceTo_all.
      * apply in_map_iff in H3. destruct H3 as (e & <- & He).
        apply in_map. now apply sort_In.
      * now rewrite sort_length.
Qed.

Lemma win_rate_minimum_races_witness :
  (forall d,
     In d (map Statistics.driver
             (Statistics.winRateLeaderboard Samples.elevenDrivers)) ->
     3 <= List.length (racesOf d Samples.elevenDrivers)) /\
  (forall d,
     In d (map Statistics.driver (winRateCandidates Samples.elevenDrivers)) <->
     3 <= List.length (racesOf d Samples.elevenDrivers)) /\
  NoDup (map Statistics.driver (winRateCandidates Samples.elevenDrivers)) /\
  (forall e, In e (winRateCandidates Samples.elevenDrivers) ->
     Statistics.value e
     = winRateOf (Statistics.driver e) Samples.elevenDrivers /\
     Statistics.races e
     = Some (List.length
               (racesOf (Statistics.driver e) Samples.elevenDrivers))) /\
  highestKept 10 Statistics.value
    (winRateCandidates Samples.elevenDrivers)
    (Statistics.winRateLeaderboard Samples.elevenDrivers) /\
  (forall d, 3 <= List.length (racesOf d Samples.elevenDrivers) ->
     List.length (winRateCandidates Samples.elevenDrivers) <= 10 ->
     In d (map Statistics.driver
             (Statistics.winRateLeaderboard Samples.elevenDrivers))).
Proof.
  destruct (@win_rate_minimum_races Samples.elevenDrivers) as [Honly Hall].
  split; [exact Honly |]. apply Hall. reflexivity.
Defined.














End DriverRankings.

(* ================================================================== *)
(** ** Race count by date                                              *)
(* ================================================================== *)

Section RaceCount.
Import JS Race Spec.

Lemma dateCount_fold (g : list RaceRecord) (e0 : Charts.DateCount) :
  fold_left
    (fun e (_ : RaceRecord) =>
       {| Charts.c_date := Charts.c_date e;
          Charts.c_count := Charts.c_count e + 1 |})
    g e0
  = {| Charts.c_date := Charts.c_date e0;
       Charts.c_count := Charts.c_count e0 + List.length g |}.
Proof.
  revert e0. induction g as [| r g IH]; intros e0; simpl.
  - destruct e0; simpl. f_equal. lia.
  - rewrite IH. simpl. f_equal. lia.
Qed.

Lemma racesByDate_groupFold (data : list RaceRecord) :
  Charts.racesByDate data =
  groupFold Date
    (fun race => {| Charts.c_date := Date race; Charts.c_count := 0 |})
    (fun (_ : RaceRecord) e =>
       {| Charts.c_date := Charts.c_date e;
          Charts.c_count := Charts.c_count e + 1 |})
    data.
Proof. reflexivity. Qed.

(** The race count by date has one entry for each date of the data, with
    the number of records of that date; the counts add up to the number of
    records, and the entries are in chronological order when the dates can
    be read. *)
Theorem race_count_by_date
  (getTime : string -> num) (data : list RaceRecord)
  (Hdate : forall race, In race data -> notNaN (getTime (Date race))) :
  (forall e, In e (Charts.raceCountData getTime data) <->
     groupOf Date (Charts.c_date e) data <> [] /\
     Charts.c_count e = List.length (groupOf Date (Charts.c_date e) data)) /\
  NoDup (map Charts.c_date (Charts.raceCountData getTime data)) /\
  list_sum (map Charts.c_count (Charts.raceCountData getTime data))
  = List.length data /\
  sortedAscending (fun e => getTime (Charts.c_date e))
    (Charts.raceCountData getTime data).
Proof.
  assert (Hval : forall e, In e (values (Charts.racesByDate data)) <->
     groupOf Date (Charts.c_date e) data <> [] /\
     Charts.c_count e = List.length (groupOf Date (Charts.c_date e) data)).
  { intros e. rewrite racesByDate_groupFold, groupFold_values. split.
    - intros [k Hk]. unfold foldGroup in Hk.
      destruct (groupOf Date k data) as [| r g] eqn:E; [discriminate |].
      injection Hk as <-. rewrite dateCount_fold. simpl.
      rewrite (@groupOf_head _ Date k data g r E), E.
      split; [discriminate | reflexivity].
    - intros [Hne Hc]. exists (Charts.c_date e). unfold foldGroup.
      destruct (groupOf Date (Charts.c_date e) data) as [| r g] eqn:E;
        [congruence |].
      rewrite dateCount_fold. simpl.
      rewrite (@groupOf_head _ Date (Charts.c_date e) data g r E).
      destruct e as [d c]. simpl in *. now rewrite Hc. }
  unfold Charts.raceCountData. split; [| split; [| split]].
  - intros e. rewrite sort_In. apply Hval.
  - eapply Permutation_NoDup.
    + symmetry. apply Permutation_map, sort_perm.
    + rewrite racesByDate_groupFold.
      apply (groupFold_values_NoDup Date
               (fun race => {| Charts.c_date := Date race;
                               Charts.c_count := 0 |})
               (fun (_ : RaceRecord) e =>
                  {| Charts.c_date := Charts.c_date e;
                     Charts.c_count := Charts.c_count e + 1 |})
               Charts.c_date); reflexivity.
  - rewrite (list_sum_perm (Permutation_map Charts.c_count
                              (sort_perm _ (values (Charts.racesByDate data))))).
    rewrite racesByDate_groupFold. apply groupFold_sum; reflexivity.
  - apply sort_ascending. apply Forall_forall. intros e He.
    apply Hval in He. destruct He as [Hne _].
    destruct (groupOf Date (Charts.c_date e) data) as [| r g] eqn:E;
      [congruence |].
    rewrite <- (@groupOf_head _ Date (Charts.c_date e) data g r E).
    apply Hdate.
    assert (Hin : In r (groupOf Date (Charts.c_date e) data))
      by (rewrite E; now left).
    unfold groupOf in Hin. now apply filter_In in Hin.
Qed.

Lemma race_count_by_date_witness :
  (forall e, In e (Charts.raceCountData Samples.isoTime Samples.fourRuns) <->
     groupOf Date (Charts.c_date e) Samples.fourRuns <> [] /\
     Charts.c_count e
     = List.length (groupOf Date (Charts.c_date e) Samples.fourRuns)) /\
  NoDup (map Charts.c_date
           (Charts.raceCountData Samples.isoTime Samples.fourRuns)) /\
  list_sum (map Charts.c_count
              (Charts.raceCountData Samples.isoTime Samples.fourRuns))
  = List.length Samples.fourRuns /\
  sortedAscending (fun e => Samples.isoTime (Charts.c_date e))
    (Charts.raceCountData Samples.isoTime Samples.fourRuns).
Proof.
  apply (@race_count_by_date Samples.isoTime Samples.fourRuns).
  intros race H. simpl in H.
  destruct H as [<- | [<- | [<- | [<- | []]]]]; vm_compute; discriminate.
Defined.
End RaceCount.

(* ================================================================== *)
(** ** Correlation points                                              *)
(* ================================================================== *)

Section Correlation.
Import JS Race Spec.

Lemma orElse_truthy (a b : num) : truthy b = true -> truthy (Charts.orElse a b) = true.
Proof. intros Hb. unfold Charts.orElse. now destruct (truthy a) eqn:E. Qed.

(** The correlation data (reaction time, or 60ft time, against the ET)
    has one point for each record with both values [> 0], in input order;
    the size hint of a point is the record's MPH unless that is 0 or NaN,
    when it is 100, so it is never 0 or NaN, though it can be negative. *)
Theorem correlation_points (f : RaceRecord -> num) (data : list RaceRecord) :
  Charts.correlationOf f data =
  map (Charts.relationship f)
    (filter (fun race => present (f race) && present (ET race)) data) /\
  (forall p, In p (Charts.correlationOf f data) ->
     positive (Charts.pt_x p) /\ positive (Charts.pt_y p) /\
     truthy (Charts.pt_z p) = true) /\
  (forall race, truthy (MPH race) = true ->
     Charts.pt_z (Charts.relationship f race) = MPH race) /\
  (forall race, truthy (MPH race) = false ->
     Charts.pt_z (Charts.relationship f race) = Fin 100).
Proof.
  assert (Heq : Charts.correlationOf f data =
    map (Charts.relationship f)
      (filter (fun race => present (f race) && present (ET race)) data)).
  { unfold Charts.correlationOf. f_equal. apply filter_ext. intros race.
    unfold present. now rewrite andb_assoc. }
  split; [exact Heq | split; [| split]].
  - intros p Hp. rewrite Heq in Hp. apply in_map_iff in Hp.
    destruct Hp as (race & <- & Hr). apply filter_In in Hr.
    destruct Hr as [_ Hr]. apply andb_true_iff in Hr. destruct Hr as [Hx Hy].
    cbn [Charts.relationship Charts.pt_x Charts.pt_y Charts.pt_z].
    split; [now apply present_gtb | split; [now apply present_gtb |]].
    now apply orElse_truthy.
  - intros race Hm. cbn [Charts.relationship Charts.pt_z].
    unfold Charts.orElse. now rewrite Hm.
  - intros race Hm. cbn [Charts.relationship Charts.pt_z].
    unfold Charts.orElse. now rewrite Hm.
Qed.

(** A negative speed is kept as the size hint, a speed of 0 becomes 100. *)
Lemma correlation_of_oddSpeeds :
  map Charts.pt_z (Charts.reactionETData Samples.oddSpeeds)
  = [Fin (-10); Fin 100].
Proof. vm_compute. reflexivity. Qed.
End Correlation.

(* ================================================================== *)
(** ** Win factors when pairs exist                                    *)
(* ================================================================== *)

Section WinFactorsRange.
Import JS Race Statistics Spec.

Lemma compareGroup_total (wa : WinAnalysis) (group : list RaceRecord) :
  totalComparisons (compareGroup wa group)
  = totalComparisons wa + (if validPair group then 1 else 0).
Proof.
  unfold compareGroup, validPair.
  destruct (List.length group =? 2); simpl; [| lia].
  destruct (find isWin group); [| lia].
  destruct (find isLoss group); simpl; lia.
Qed.

Lemma fold_compareGroup_total (groups : list (list RaceRecord))
  (wa : WinAnalysis) :
  totalComparisons (fold_left compareGroup groups wa)
  = totalComparisons wa + List.length (filter validPair groups).
Proof.
  revert wa. induction groups as [| g groups IH]; intros wa; simpl; [lia |].
  rewrite IH, compareGroup_total. destruct (validPair g); simpl; lia.
Qed.

Lemma filter_perm (A : Type) (p : A -> bool) (l l' : list A) :
  Permutation l l' -> Permutation (filter p l) (filter p l').
Proof.
  induction 1 as [| x l l' _ IH | x y l | l l' l'' _ IH1 _ IH2]; simpl.
  - constructor.
  - destruct (p x); [now constructor | assumption].
  - destruct (p x), (p y); try reflexivity. apply perm_swap.
  - now transitivity (filter p l').
Qed.

Lemma raceGroups_groupFold (data : list RaceRecord) :
  raceGroups data =
  groupFold raceKey (fun _ : RaceRecord => @nil RaceRecord)
    (fun race group => group ++ [race]) data.
Proof. reflexivity. Qed.

(** The group kept under a key is made of the records of that key, in
    input order. *)
Lemma raceGroups_In (data : list RaceRecord) (k : string)
  (group : list RaceRecord) :
  In (k, group) (raceGroups data) <->
  group = groupOf raceKey k data /\ group <> [].
Proof.
  rewrite raceGroups_groupFold, groupFold_In. unfold foldGroup.
  destruct (groupOf raceKey k data) as [| r g] eqn:E.
  - split; [discriminate | intros [-> H]; congruence].
  - rewrite (fold_left_collect (fun r : RaceRecord => r)), map_id.
    cbn [app]. split.
    + intros H. injection H as <-. split; [reflexivity | discriminate].
    + intros [-> _]. reflexivity.
Qed.

Lemma raceGroups_keys (data : list RaceRecord) :
  Permutation (map fst (raceGroups data)) (heats data).
Proof.
  apply NoDup_Permutation.
  - rewrite raceGroups_groupFold. apply groupFold_NoDup.
  - apply NoDup_nodup.
  - intros k. unfold heats. rewrite nodup_In, !in_map_iff. split.
    + intros ([k' group] & Hk & Hin). simpl in Hk. subst k'.
      apply raceGroups_In in Hin. destruct Hin as [-> Hne].
      destruct (groupOf raceKey k data) as [| r g] eqn:E; [congruence |].
      exists r. split; [now apply (@groupOf_head _ raceKey k data g) |].
      assert (Hr : In r (groupOf raceKey k data)) by (rewrite E; now left).
      unfold groupOf in Hr. now apply filter_In in Hr.
    + intros (r & Hk & Hin). exists (k, groupOf raceKey k data).
      split; [reflexivity |]. apply raceGroups_In. split; [reflexivity |].
      intros E.
      assert (Hr : In r (groupOf raceKey k data)).
      { unfold groupOf. apply filter_In. split; [assumption |].
        now apply String.eqb_eq. }
      rewrite E in Hr. destruct Hr.
Qed.

(** The groups that the analysis walks are those of the heats, one
    each. *)
Lemma raceGroups_values (data : list RaceRecord) :
  Permutation (values (raceGroups data))
    (map (fun k => groupOf raceKey k data) (heats data)).
Proof.
  rewrite values_perm.
  rewrite <- (Permutation_map (fun k => groupOf raceKey k data)
                (raceGroups_keys data)).
  rewrite map_map.
  assert (E : map snd (raceGroups data)
              = map (fun e => groupOf raceKey (fst e) data) (raceGroups data)).
  { apply map_ext_in. intros [k group] Hin. simpl.
    now apply raceGroups_In in Hin. }
  now rewrite E.
Qed.

Lemma percentOf_percentage (tally total : nat) :
  tally <= total -> 0 < total -> percentage (percentOf tally total).
Proof.
  intros Hle Hpos. unfold percentOf, ofNat at 1.
  unfold ofZ at 1. rewrite div_by_count by assumption.
  eexists. split; [reflexivity |].
  rewrite Qred_correct, Qred_correct.
  assert (Ht : (0 < inject_Z (Z.of_nat total))%Q) by now apply ofNat_pos.
  assert (Ha : (0 <= inject_Z (Z.of_nat tally))%Q)
    by (unfold Qle; simpl; lia).
  assert (Hb : (inject_Z (Z.of_nat tally) <= inject_Z (Z.of_nat total))%Q)
    by (unfold Qle; simpl; lia).
  set (a := inject_Z (Z.of_nat tally)) in *.
  set (b := inject_Z (Z.of_nat total)) in *.
  assert (H0 : (0 <= a / b)%Q)
    by (apply Qle_shift_div_l; [assumption | lra]).
  assert (H1 : (a / b <= 1)%Q)
    by (apply Qle_shift_div_r; [assumption | lra]).
  change (inject_Z (Z.of_nat 100)) with 100%Q. split; lra.
Qed.

Lemma hyphenated_app (a b : string) :
  hyphenated (a ++ String "-" b) = true.
Proof.
  induction a as [| c a IH]; simpl; [reflexivity |].
  rewrite IH. apply orb_true_r.
Qed.

(** The key of a heat holds a hyphen, which no inherited property name
    does: the dictionary of the heats holds an entry for every key. *)
Lemma raceKey_plain (race : RaceRecord) : plainKey (raceKey race) = true.
Proof.
  unfold plainKey. apply negb_true_iff.
  destruct (existsb (String.eqb (raceKey race)) inherited) eqn:E;
    [| reflexivity].
  apply existsb_exists in E. destruct E as (name & Hin & Hk).
  apply String.eqb_eq in Hk.
  assert (Hh : hyphenated name = true)
    by (rewrite <- Hk; apply hyphenated_app).
  assert (Hall : forallb (fun n => negb (hyphenated n)) inherited = true)
    by reflexivity.
  rewrite forallb_forall in Hall. apply Hall in Hin.
  rewrite Hh in Hin. discriminate.
Qed.

(** The records are grouped in heats by date and race number, under keys
    none of which is an inherited property name.  The number of
    comparisons is the number of heats whose records are exactly two with
    a winner and a loser; when there is one at least, each of the four
    win-factor percentages is a number between 0 and 100. *)
Theorem win_factors_with_pairs (data : list RaceRecord) :
  plainKeys raceKey data /\
  totalComparisons (winAnalysis data)
  = List.length
      (filter (fun k => validPair (groupOf raceKey k data)) (heats data)) /\
  (0 < totalComparisons (winAnalysis data) ->
   Forall (fun e => percentage (snd e)) (winFactorsData data)).
Proof.
  split; [| split].
  - apply forallb_forall. intros race _. apply raceKey_plain.
  - unfold winAnalysis. rewrite fold_compareGroup_total.
    cbn [totalComparisons Nat.add].
    rewrite (Permutation_length
               (filter_perm validPair (raceGroups_values data))).
    now rewrite filter_map_swap, length_map.
  - intros Hpos.
    destruct (winAnalysis_bounded data) as (H1 & H2 & H3 & H4).
    unfold winFactorsData.
    repeat constructor; cbn [snd]; now apply percentOf_percentage.
Qed.

Lemma win_factors_with_pairs_witness :
  totalComparisons (winAnalysis Samples.onePair) = 1 /\
  Forall (fun e => percentage (snd e)) (winFactorsData Samples.onePair).
Proof.
  destruct (@win_factors_with_pairs Samples.onePair) as (_ & Hn & Hp).
  split; [exact Hn |]. apply Hp. rewrite Hn. vm_compute. lia.
Defined.
End WinFactorsRange.

(* ================================================================== *)
(** ** The most-wins leaderboard                                       *)
(* ================================================================== *)

Section MostWins.
Import JS Race Spec.

Lemma wins_fold (g : list RaceRecord) (e0 : Statistics.WinsEntry) :
  fold_left
    (fun e (_ : RaceRecord) =>
       {| Statistics.w_driver := Statistics.w_driver e;
          Statistics.w_carNo := Statistics.w_carNo e;
          Statistics.w_wins := Statistics.w_wins e + 1 |})
    g e0
  = {| Statistics.w_driver := Statistics.w_driver e0;
       Statistics.w_carNo := Statistics.w_carNo e0;
       Statistics.w_wins := Statistics.w_wins e0 + List.length g |}.
Proof.
  revert e0. induction g as [| r g IH]; intros e0; simpl.
  - destruct e0; simpl. f_equal. lia.
  - rewrite IH. simpl. f_equal. lia.
Qed.

Lemma groupOf_filter (R : Type) (key : R -> string) (c : R -> bool)
  (k : string) (data : list R) :
  groupOf key k (filter c data) = filter c (groupOf key k data).
Proof.
  unfold groupOf. induction data as [| r data IH]; simpl; [reflexivity |].
  destruct (c r) eqn:Ec, (String.eqb (key r) k) eqn:Ek; simpl;
    rewrite ?Ec, ?Ek, IH; reflexivity.
Qed.

Lemma winsByDriver_values (data : list RaceRecord)
  (e : Statistics.WinsEntry) :
  In e (values (Statistics.winsByDriver data)) ->
  1 <= Statistics.w_wins e /\
  Statistics.w_wins e = winsOf (Statistics.w_driver e) data.
Proof.
  unfold Statistics.winsByDriver.
  rewrite (fold_left_cond isWin
             (fun acc race =>
                upsert (Driver race)
                  {| Statistics.w_driver := Driver race;
                     Statistics.w_carNo := CarNo race;
                     Statistics.w_wins := 0 |}
                  (fun e => {| Statistics.w_driver := Statistics.w_driver e;
                               Statistics.w_carNo := Statistics.w_carNo e;
                               Statistics.w_wins := Statistics.w_wins e + 1 |})
                  acc)).
  change (fold_left _ ?l []) with
    (groupFold Driver
       (fun race => {| Statistics.w_driver := Driver race;
                       Statistics.w_carNo := CarNo race;
                       Statistics.w_wins := 0 |})
       (fun (_ : RaceRecord) e =>
          {| Statistics.w_driver := Statistics.w_driver e;
             Statistics.w_carNo := Statistics.w_carNo e;
             Statistics.w_wins := Statistics.w_wins e + 1 |})
       l).
  rewrite groupFold_values. intros [k Hk]. unfold foldGroup in Hk.
  destruct (groupOf Driver k (filter isWin data)) as [| r g] eqn:E;
    [discriminate |].
  injection Hk as <-. rewrite wins_fold. simpl.
  rewrite (@groupOf_head _ Driver k (filter isWin data) g r E).
  unfold winsOf, racesOf. rewrite <- groupOf_filter, E. simpl. lia.
Qed.

(** Every entry of the most-wins leaderboard shows the number of wins of
    its driver, which is at least one: a driver without a win is not
    listed. *)
Theorem most_wins_entries (data : list RaceRecord)
  (e : Statistics.LeaderboardEntry) :
  In e (Statistics.winsLeaderboard data) ->
  Statistics.value e = ofNat (winsOf (Statistics.driver e) data) /\
  1 <= winsOf (Statistics.driver e) data.
Proof.
  unfold Statistics.winsLeaderboard. intros H.
  apply in_map_iff in H. destruct H as (w & <- & Hw).
  apply sliceTo_In, sort_In, winsByDriver_values in Hw.
  destruct Hw as [H1 Hn]. simpl. rewrite <- Hn. auto.
Qed.

Lemma most_wins_entries_witness :
  exists e,
    Statistics.value e = ofNat (winsOf (Statistics.driver e) Samples.threeRaces)
    /\ 1 <= winsOf (Statistics.driver e) Samples.threeRaces.
Proof.
  eexists.
  apply (@most_wins_entries Samples.threeRaces). vm_compute. left. reflexivity.
Defined.
End MostWins.

(* ================================================================== *)
(** ** The heat map                                                    *)
(* ================================================================== *)

Section HeatMap.
Import JS Race Spec.

Lemma unique_complete (seen names : list string) (x : string) :
  In x names -> In x seen \/ In x (Drivers.unique seen names).
Proof.
  revert seen. induction names as [| y names IH]; intros seen Hx;
    [contradiction |].
  simpl. destruct (existsb (String.eqb y) seen) eqn:E.
  - destruct Hx as [<- | Hx]; [| now apply IH].
    left. apply existsb_exists in E. destruct E as (z & Hz & Hyz).
    apply String.eqb_eq in Hyz. now subst.
  - destruct Hx as [<- | Hx]; [right; now left |].
    destruct (IH (y :: seen) Hx) as [[<- | H] | H]; auto.
    + right. now left.
    + right. now right.
Qed.

Lemma uniqueDates_In (data : list RaceRecord) (d : string) :
  In d (Charts.uniqueDates data) <-> In d (map Date data).
Proof.
  unfold Charts.uniqueDates. rewrite sort_In. split.
  - apply unique_In.
  - intros H. destruct (unique_complete [] _ _ H) as [[] | H']. exact H'.
Qed.

Lemma binKeys_hours :
  Forall (fun k => exists h, (1 <= h <= 10)%Z /\ Charts.parseInt k = ofZ h)
    binKeys.
Proof.
  unfold binKeys. cbn [seq map].
  repeat (constructor; [eexists; split; [| vm_compute; reflexivity]; lia |]).
  constructor.
Qed.

Lemma hour_key (h : Z) : (1 <= h <= 10)%Z -> In (showZ h) binKeys.
Proof.
  intros H.
  assert (Hc : h = 1%Z \/ h = 2%Z \/ h = 3%Z \/ h = 4%Z \/ h = 5%Z \/
               h = 6%Z \/ h = 7%Z \/ h = 8%Z \/ h = 9%Z \/ h = 10%Z) by lia.
  repeat (destruct Hc as [-> | Hc]; [vm_compute; tauto |]).
  subst h. vm_compute. tauto.
Qed.

Lemma negative_key (h : Z) : (h < 0)%Z -> ~ In (showZ h) binKeys.
Proof.
  intros H. destruct h as [| p | p]; try lia.
  change (showZ (Z.neg p))
    with (String "-" (NilZero.string_of_uint (Pos.to_uint p))).
  unfold binKeys. cbn [seq map]. intros Hin.
  repeat (destruct Hin as [Hin | Hin]; [vm_compute in Hin; discriminate Hin |]).
  exact Hin.
Qed.

Lemma emptyBins_wf : wfBins Charts.emptyBins.
Proof.
  split; [reflexivity |].
  vm_compute. repeat constructor.
Qed.

Lemma get_keys (V : Type) (k : string) (o : obj V) :
  In k (map fst o) -> exists v, get k o = Some v /\ In (k, v) o.
Proof.
  induction o as [| [k' v'] o IH]; simpl; [tauto |].
  destruct (String.eqb k k') eqn:E.
  - apply String.eqb_eq in E. subst. intros _. exists v'. auto.
  - intros [H | H]; [apply String.eqb_neq in E; congruence |].
    destruct (IH H) as (v & Hg & Hin). exists v. auto.
Qed.

Lemma set_In (V : Type) (k : string) (v : V) (o : obj V) (e : string * V) :
  In e (set k v o) -> e = (k, v) \/ In e o.
Proof.
  induction o as [| [k' v'] o IH]; simpl.
  - intros [H | []]. now left.
  - destruct (String.eqb k k') eqn:E.
    + apply String.eqb_eq in E. subst k'. simpl.
      intros [H | H]; [left; now symmetry | right; now right].
    + simpl. intros [H | H]; [right; now left |].
      destruct (IH H); [now left | right; now right].
Qed.

(** A record goes to its bin unless it has an ET and a negative race
    number, which stops the computation. *)
Lemma binRace_wf (b : obj (list num)) (race : RaceRecord) :
  wfBins b ->
  (unbinned race /\ Charts.binRace (Some b) race = None) \/
  (~ unbinned race /\
   exists b', Charts.binRace (Some b) race = Some b' /\ wfBins b').
Proof.
  intros [Hk Hp]. unfold Charts.binRace, unbinned.
  destruct (present (ET race)) eqn:Ep.
  2:{ right. split; [intros [H _]; discriminate H |].
      exists b. now split. }
  set (hour := Z.min 10 (if (RaceNumber race =? 0)%Z then 1%Z
                         else RaceNumber race)).
  destruct (Z_lt_dec (RaceNumber race) 0) as [Hneg | Hpos].
  - left. split; [now split |].
    assert (Hh : (hour < 0)%Z).
    { unfold hour. destruct (Z.eqb_spec (RaceNumber race) 0); lia. }
    apply negative_key in Hh. rewrite <- Hk in Hh.
    apply get_None_keys in Hh. now rewrite Hh.
  - right. split; [intros [_ H]; lia |].
    assert (Hh : (1 <= hour <= 10)%Z).
    { unfold hour. destruct (Z.eqb_spec (RaceNumber race) 0); lia. }
    apply hour_key in Hh. rewrite <- Hk in Hh.
    destruct (get_keys _ _ Hh) as (times & Hg & Hin). rewrite Hg.
    eexists. split; [reflexivity |]. split.
    + rewrite keys_set, Hg. exact Hk.
    + apply Forall_forall. intros e He. apply set_In in He.
      destruct He as [-> | He].
      * simpl. apply Forall_app. split.
        -- rewrite Forall_forall in Hp. exact (Hp _ Hin).
        -- constructor; [now apply present_gtb | constructor].
      * rewrite Forall_forall in Hp. now apply Hp.
Qed.

Lemma binRace_None (l : list RaceRecord) :
  fold_left Charts.binRace l None = None.
Proof. induction l; simpl; auto. Qed.

Lemma binDay (l : list RaceRecord) (b : obj (list num)) :
  wfBins b ->
  ((exists race, In race l /\ unbinned race) /\
   fold_left Charts.binRace l (Some b) = None) \/
  ((forall race, In race l -> ~ unbinned race) /\
   exists b', fold_left Charts.binRace l (Some b) = Some b' /\ wfBins b').
Proof.
  revert b. induction l as [| race l IH]; intros b Hb.
  - right. split; [intros race [] |]. exists b. now split.
  - cbn [fold_left].
    destruct (binRace_wf race Hb) as [[Hbad ->] | [Hok (b' & -> & Hb')]].
    + left. split; [exists race; split; [now left | assumption] |].
      apply binRace_None.
    + destruct (IH b' Hb') as [[(r & Hr & Hbad) Hn] | [Hall Hs]].
      * left. split; [exists r; split; [now right | assumption] | exact Hn].
      * right. split; [| exact Hs].
        intros r [<- | Hr]; [assumption | now apply Hall].
Qed.

Lemma ownEntries_In (V : Type) (o : obj V) (e : string * V) :
  In e (Charts.ownEntries o) <-> In e o.
Proof.
  unfold Charts.ownEntries. rewrite in_app_iff, sort_In, !filter_In.
  destruct (isIndex e); intuition congruence.
Qed.

Lemma binCells_In (date : string) (b : obj (list num)) (c : Charts.HeatCell) :
  wfBins b -> In c (Charts.binCells date b) ->
  Charts.day c = date /\
  (exists h, (1 <= h <= 10)%Z /\ Charts.hour c = ofZ h) /\
  positive (Charts.h_value c).
Proof.
  intros [Hk Hp] Hc. unfold Charts.binCells in Hc.
  apply in_flat_map in Hc. destruct Hc as ([k times] & He & Hc).
  apply (proj1 (ownEntries_In _ _)) in He.
  destruct (0 <? List.length times) eqn:El; [| contradiction].
  destruct Hc as [<- | []]. cbn [Charts.day Charts.hour Charts.h_value].
  split; [reflexivity | split].
  - pose proof binKeys_hours as Hh. rewrite Forall_forall in Hh.
    apply Hh. rewrite <- Hk. change k with (fst (k, times)).
    now apply in_map.
  - rewrite Forall_forall in Hp. specialize (Hp _ He). simpl in Hp.
    apply mean_positive; [assumption |].
    intros E. subst times. discriminate El.
Qed.

Lemma dayCells_spec (data : list RaceRecord) (date : string) :
  ((exists race, In race data /\ Date race = date /\ unbinned race) /\
   Charts.dayCells data date = None) \/
  ((forall race, In race data -> Date race = date -> ~ unbinned race) /\
   exists new, Charts.dayCells data date = Some new /\
     forall c, In c new ->
       Charts.day c = date /\
       (exists h, (1 <= h <= 10)%Z /\ Charts.hour c = ofZ h) /\
       positive (Charts.h_value c)).
Proof.
  unfold Charts.dayCells.
  destruct (binDay (filter (fun r => String.eqb (Date r) date) data)
              emptyBins_wf)
    as [[(r & Hr & Hbad) ->] | [Hall (b' & -> & Hb')]].
  - left. split; [| reflexivity]. apply filter_In in Hr.
    destruct Hr as [Hr Hd]. apply String.eqb_eq in Hd. now exists r.
  - right. split.
    + intros race Hin Hd. apply Hall. apply filter_In.
      split; [assumption | now apply String.eqb_eq].
    + eexists. split; [reflexivity |]. intros c. now apply binCells_In.
Qed.

Lemma heat_fold_None (data : list RaceRecord) (dates : list string) :
  fold_left
    (fun acc date =>
       match acc with
       | None => None
       | Some cells =>
           match Charts.dayCells data date with
           | Some new => Some (cells ++ new)
           | None => None
           end
       end)
    dates None = None.
Proof. induction dates; simpl; auto. Qed.

Lemma heat_fold (data : list RaceRecord) (dates : list string)
  (acc : list Charts.HeatCell) :
  match fold_left
          (fun acc date =>
             match acc with
             | None => None
             | Some cells =>
                 match Charts.dayCells data date with
                 | Some new => Some (cells ++ new)
                 | None => None
                 end
             end)
          dates (Some acc) with
  | None => exists date, In date dates /\ Charts.dayCells data date = None
  | Some cells =>
      (forall date, In date dates -> Charts.dayCells data date <> None) /\
      forall c, In c cells ->
        In c acc \/
        exists date new, In date dates /\
          Charts.dayCells data date = Some new /\ In c new
  end.
Proof.
  revert acc. induction dates as [| date dates IH]; intros acc.
  - simpl. split; [intros d [] | auto].
  - cbn [fold_left]. destruct (Charts.dayCells data date) as [new |] eqn:E.
    + specialize (IH (acc ++ new)).
      destruct (fold_left _ dates (Some (acc ++ new))) as [cells |].
      * destruct IH as [Hall Hc]. split.
        -- intros d [<- | Hd]; [congruence | now apply Hall].
        -- intros c Hin. destruct (Hc c Hin) as [H | (d & n & Hd & Hn & Hcn)].
           ++ apply in_app_or in H. destruct H as [H | H]; [now left |].
              right. exists date, new. repeat split; auto. now left.
           ++ right. exists d, n. repeat split; auto. now right.
      * destruct IH as (d & Hd & Hn). exists d. split; [now right | exact Hn].
    + rewrite heat_fold_None. exists date. split; [now left | exact E].
Qed.

(** The heat map stops with an error exactly when some record has an ET
    and a negative race number; otherwise each of its cells belongs to a
    date of the data, has an hour from 1 to 10 and a positive average ET. *)
Theorem heat_map_cells (data : list RaceRecord) :
  (Charts.heatMapData data = None <->
   exists race, In race data /\ unbinned race) /\
  (forall cells, Charts.heatMapData data = Some cells ->
   forall c, In c cells ->
     In (Charts.day c) (map Date data) /\
     (exists h, (1 <= h <= 10)%Z /\ Charts.hour c = ofZ h) /\
     positive (Charts.h_value c)).
Proof.
  unfold Charts.heatMapData.
  pose proof (heat_fold data (Charts.uniqueDates data) []) as H.
  destruct (fold_left _ (Charts.uniqueDates data) (Some [])) as [cells |].
  - destruct H as [Hall Hc]. split.
    + split; [discriminate |]. intros (race & Hin & Hbad). exfalso.
      assert (Hd : In (Date race) (Charts.uniqueDates data))
        by (apply uniqueDates_In; now apply in_map).
      apply (Hall _ Hd).
      destruct (dayCells_spec data (Date race)) as [[_ Hn] | [Hok _]];
        [exact Hn |].
      exfalso. now apply (Hok race).
    + intros cells' Heq c Hin. injection Heq as <-.
      destruct (Hc c Hin) as [[] | (d & new & Hd & Hn & Hcn)].
      destruct (dayCells_spec data d) as [[_ Hnone] | [_ (new' & Hs & Hprop)]];
        [congruence |].
      assert (new' = new) by congruence. subst new'.
      destruct (Hprop c Hcn) as (Hday & Hh & Hv).
      split; [| now split]. rewrite Hday. now apply uniqueDates_In.
  - destruct H as (d & Hd & Hn). split; [| discriminate].
    split; [| reflexivity]. intros _.
    destruct (dayCells_spec data d) as [[(race & Hin & _ & Hbad) _] | [_ (new & Hs & _)]];
      [now exists race | congruence].
Qed.

(** A run with an ET and race number -1 stops the heat map. *)
Lemma heat_map_of_negativeRound :
  Charts.heatMapData Samples.negativeRound = None.
Proof. vm_compute. reflexivity. Qed.
End HeatMap.

(* ================================================================== *)
(** ** Averages by race number                                         *)
(* ================================================================== *)

Section TimePerformance.
Import JS Race Spec.

Lemma showZ_read (z : Z) :
  NilZero.int_of_string (showZ z) = Some (Z.to_int z).
Proof.
  unfold showZ. apply NilZero.isi; destruct z; simpl; try discriminate;
    intros E; injection E; apply DecimalPos.Unsigned.to_uint_nonnil.
Qed.

Lemma showZ_inj (a b : Z) : showZ a = showZ b -> a = b.
Proof.
  intros H. apply DecimalZ.to_int_inj.
  pose proof (showZ_read a) as Ha. rewrite H, showZ_read in Ha. congruence.
Qed.

Lemma showZ_eqb (a b : Z) : String.eqb (showZ a) (showZ b) = (a =? b)%Z.
Proof.
  destruct (Z.eqb_spec a b) as [-> | Hne].
  - apply String.eqb_refl.
  - apply String.eqb_neq. intros H. now apply showZ_inj in H.
Qed.

Lemma slot_fold (g : list RaceRecord) (s0 : Statistics.TimeSlot) :
  let s := fold_left (fun item race => Statistics.addRace race item) g s0 in
  Statistics.t_raceNumber s = Statistics.t_raceNumber s0 /\
  Statistics.t_count s
  = Statistics.t_count s0
    + List.length (filter (fun r => present (ET r)) g) /\
  Statistics.totalET s
  = fold_left add (map ET (filter (fun r => present (ET r)) g))
      (Statistics.totalET s0).
Proof.
  revert s0. induction g as [| r g IH]; intros s0.
  - simpl. repeat split; lia.
  - cbn [fold_left]. specialize (IH (Statistics.addRace r s0)).
    cbv zeta in IH. destruct IH as (H1 & H2 & H3).
    cbv zeta. rewrite H1, H2, H3. clear H1 H2 H3.
    unfold Statistics.addRace. cbn [filter].
    destruct (present (ET r)), (present (Reaction r)), (present (MPH r));
      cbn [Statistics.t_raceNumber Statistics.t_count Statistics.totalET
           List.length map fold_left];
      repeat split; lia.
Qed.

Lemma performanceByRaceNumber_groupFold (data : list RaceRecord) :
  Statistics.performanceByRaceNumber data =
  groupFold (fun race => showZ (Z.min 10 (RaceNumber race)))
    (fun race =>
       {| Statistics.t_raceNumber := Z.min 10 (RaceNumber race);
          Statistics.totalET := zero; Statistics.totalReaction := zero;
          Statistics.totalMPH := zero; Statistics.t_count := 0 |})
    Statistics.addRace data.
Proof. reflexivity. Qed.

Lemma slotOf_group (n : Z) (data : list RaceRecord) :
  slotOf n data =
  filter (fun r => present (ET r))
    (groupOf (fun race => showZ (Z.min 10 (RaceNumber race))) (showZ n) data).
Proof.
  unfold slotOf, groupOf. f_equal. apply filter_ext. intros r.
  now rewrite showZ_eqb.
Qed.

(** What the dictionary holds for a slot. *)
Lemma timeSlot_values (data : list RaceRecord) (s : Statistics.TimeSlot) :
  In s (values (Statistics.performanceByRaceNumber data)) ->
  (Statistics.t_raceNumber s <= 10)%Z /\
  Statistics.t_count s
  = List.length (slotOf (Statistics.t_raceNumber s) data) /\
  Statistics.totalET s
  = sum (map ET (slotOf (Statistics.t_raceNumber s) data)).
Proof.
  rewrite performanceByRaceNumber_groupFold, groupFold_values.
  intros [k Hk]. unfold foldGroup in Hk.
  destruct (groupOf _ k data) as [| r g] eqn:E; [discriminate |].
  match type of Hk with
  | Some ?t = _ => assert (Hs : s = t) by congruence
  end.
  rewrite Hs. clear Hs Hk.
  pose proof (slot_fold (r :: g)
    {| Statistics.t_raceNumber := Z.min 10 (RaceNumber r);
       Statistics.totalET := zero; Statistics.totalReaction := zero;
       Statistics.totalMPH := zero; Statistics.t_count := 0 |}) as H.
  cbv zeta in H. destruct H as (H1 & H2 & H3).
  rewrite H1, H2, H3. cbn [Statistics.t_raceNumber Statistics.t_count
                           Statistics.totalET].
  assert (Hkey : showZ (Z.min 10 (RaceNumber r)) = k)
    by exact (@groupOf_head _ _ k data g r E).
  rewrite slotOf_group, Hkey, E. repeat split; lia.
Qed.

(** Every entry of the averages by race number has a race number of at
    most 10, counts the records of its slot that have an ET, at least
    one, and shows their mean ET, which is positive; the entries are in
    ascending order of distinct race numbers. *)
Theorem time_performance_entries (data : list RaceRecord) :
  (forall p, In p (Statistics.timePerformanceData data) ->
     let slot := slotOf (Statistics.p_raceNumber p) data in
     (Statistics.p_raceNumber p <= 10)%Z /\
     Statistics.p_count p = List.length slot /\
     1 <= Statistics.p_count p /\
     Statistics.avgET p = Statistics.mean (map ET slot) /\
     positive (Statistics.avgET p)) /\
  sortedAscending (fun p => ofZ (Statistics.p_raceNumber p))
    (Statistics.timePerformanceData data) /\
  NoDup (map Statistics.p_raceNumber (Statistics.timePerformanceData data)).
Proof.
  unfold Statistics.timePerformanceData. split; [| split].
  - intros p Hp. apply sort_In, in_map_iff in Hp.
    destruct Hp as (s & <- & Hs). apply filter_In in Hs.
    destruct Hs as [Hs Hc]. apply Nat.ltb_lt in Hc.
    apply timeSlot_values in Hs. destruct Hs as (H10 & Hn & Ht).
    cbn [Statistics.p_raceNumber Statistics.p_count Statistics.avgET].
    cbv zeta. rewrite Ht, Hn. unfold Statistics.mean. rewrite length_map.
    repeat split; try lia.
    rewrite <- (length_map ET). apply mean_positive.
    + apply Forall_forall. intros x Hx. apply in_map_iff in Hx.
      destruct Hx as (r & <- & Hr). unfold slotOf in Hr.
      apply filter_In in Hr. now apply present_gtb.
    + intros E. apply (f_equal (@List.length num)) in E.
      rewrite length_map in E. simpl in E. lia.
  - apply sort_ascending. apply Forall_forall. intros p _. discriminate.
  - eapply Permutation_NoDup.
    + symmetry. apply Permutation_map, sort_perm.
    + rewrite map_map. cbn [Statistics.p_raceNumber].
      apply (NoDup_map_inv showZ). rewrite map_map.
      assert (Hnd : NoDup (map (fun s => showZ (Statistics.t_raceNumber s))
                             (values (Statistics.performanceByRaceNumber data)))).
      { rewrite performanceByRaceNumber_groupFold.
        apply (groupFold_values_NoDup
                 (fun race => showZ (Z.min 10 (RaceNumber race)))
                 (fun race =>
                    {| Statistics.t_raceNumber := Z.min 10 (RaceNumber race);
                       Statistics.totalET := zero;
                       Statistics.totalReaction := zero;
                       Statistics.totalMPH := zero; Statistics.t_count := 0 |})
                 Statistics.addRace
                 (fun s => showZ (Statistics.t_raceNumber s))).
        - reflexivity.
        - intros r v. unfold Statistics.addRace.
          now destruct (present (ET r)), (present (Reaction r)),
            (present (MPH r)). }
      revert Hnd.
      generalize (values (Statistics.performanceByRaceNumber data)).
      intros l. induction l as [| s l IH]; simpl; [constructor |].
      intros Hnd. inversion Hnd as [| ? ? Hnin Hnd']; subst.
      destruct (0 <? Statistics.t_count s); [| now apply IH].
      simpl. constructor; [| now apply IH].
      intros Hin. apply Hnin. apply in_map_iff in Hin.
      destruct Hin as (s' & Heq & Hs'). apply filter_In in Hs'.
      apply in_map_iff. exists s'. split; [exact Heq | tauto].
Qed.
End TimePerformance.

(* ================================================================== *)
(** ** The sign of the improvement percentage                          *)
(* ================================================================== *)

Section ImprovementSign.
Import JS Race Spec.

Lemma sign_ratio (n a : Q) :
  (0 < a)%Q ->
  (Qred (Qred (n / a) * inject_Z (Z.of_nat 100)) ?= 0)%Q = (n ?= 0)%Q.
Proof.
  intros Ha. rewrite Qcompare_red_l.
  assert (Hi : (0 < / a)%Q) by now apply Qinv_lt_0_compat.
  change (inject_Z (Z.of_nat 100)) with 100%Q.
  set (i := (/ a)%Q) in *.
  destruct (Qcompare_spec n 0) as [H | H | H].
  - apply (proj1 (Qeq_alt _ _)). rewrite Qred_correct, H.
    unfold Qdiv. ring.
  - apply (proj1 (Qlt_alt _ _)). rewrite Qred_correct. unfold Qdiv.
    fold i. nra.
  - apply (proj1 (Qgt_alt _ _)). rewrite Qred_correct. unfold Qdiv.
    fold i. nra.
Qed.

Lemma gtb_sign (x : num) :
  gtb x zero = match sign x with Some Gt => true | _ => false end.
Proof. now destruct x. Qed.

Lemma ltb_sign (x : num) :
  ltb x zero = match sign x with Some Lt => true | _ => false end.
Proof. now destruct x. Qed.

Lemma pct_sign (n a : Q) :
  (0 < a)%Q ->
  sign (mul (div (Fin n) (Fin a)) (ofNat 100)) = Some (n ?= 0)%Q.
Proof.
  intros Ha. unfold div.
  rewrite (proj1 (Qgt_alt _ _) Ha). unfold mul, ofNat, ofZ, sign.
  now rewrite sign_ratio.
Qed.

Lemma runsAvg_two_positive (a b : Statistics.Run) :
  positive (Statistics.r_value a) -> positive (Statistics.r_value b) ->
  positive (Statistics.runsAvg [a; b]).
Proof.
  intros Ha Hb. unfold Statistics.runsAvg. cbn [fold_left List.length].
  apply div_positive; [| lia].
  apply add_positive; [right | assumption].
  apply add_positive; [now left | assumption].
Qed.

(** The averages of an analysed driver are finite and the early one is
    positive. *)
Lemma trend_averages (getTime : string -> num)
  (metric : RaceRecord -> num) (data : list RaceRecord)
  (p : Statistics.Progress) :
  (forall race, In race data -> finite (metric race)) ->
  In p (eligibleProgress metric data) ->
  exists a b,
    Statistics.earlyAvg getTime p = Fin a /\
    Statistics.lateAvg getTime p = Fin b /\ (0 < a)%Q.
Proof.
  intros Hfin Hp. apply eligibleProgress_In in Hp.
  destruct Hp as (d & Hrec & H4).
  apply progressRecord_driver in Hrec. destruct Hrec as [_ Hr].
  assert (Hall : forall run, In run (Statistics.sortedRuns getTime p) ->
            finite (Statistics.r_value run) /\
            positive (Statistics.r_value run)).
  { intros run Hrun. unfold Statistics.sortedRuns in Hrun.
    apply sort_In in Hrun. rewrite Hr in Hrun. apply in_map_iff in Hrun.
    destruct Hrun as (race & <- & Hrace). apply samplesOf_In in Hrace.
    simpl. split; [now apply Hfin | now apply present_gtb]. }
  destruct (@first_and_last_two _ (Statistics.sortedRuns getTime p))
    as (x & y & mid & u & v & Hl & Hfirst & Hlast).
  { unfold Statistics.sortedRuns. now rewrite sort_length, Hr, length_map. }
  unfold Statistics.lateAvg, Statistics.earlyAvg. rewrite Hfirst, Hlast.
  rewrite Hl in Hall.
  assert (Hx : In x ([x; y] ++ mid ++ [u; v])) by (simpl; auto).
  assert (Hy : In y ([x; y] ++ mid ++ [u; v])) by (simpl; auto).
  assert (Hu : In u ([x; y] ++ mid ++ [u; v]))
    by (simpl; rewrite ?in_app_iff; simpl; auto 10).
  assert (Hv : In v ([x; y] ++ mid ++ [u; v]))
    by (simpl; rewrite ?in_app_iff; simpl; auto 10).
  destruct (Hall _ Hx) as [Fx Px], (Hall _ Hy) as [Fy Py],
    (Hall _ Hu) as [Fu _], (Hall _ Hv) as [Fv _].
  destruct (@runsAvg_two getTime _ _ Fx Fy) as [a Ha].
  destruct (@runsAvg_two getTime _ _ Fu Fv) as [b Hb].
  exists a, b. repeat split; try assumption.
  apply positive_Fin. rewrite <- Ha. now apply runsAvg_two_positive.
Qed.

(** The ET ranking reports a positive percentage exactly when the delta
    is negative, the ET having dropped, and a negative one when it has
    risen; the MPH ranking reports a percentage of the sign of the delta.
    The ET and MPH are finite numbers. *)
Theorem improvement_percentage_sign
  (getTime : string -> num) (data : list RaceRecord)
  (HfinET : forall race, In race data -> finite (ET race))
  (HfinMPH : forall race, In race data -> finite (MPH race)) :
  (forall e, In e (Statistics.improvementData getTime data) ->
     exists pct, Statistics.improvementPct e = Some pct /\
       gtb pct zero = ltb (Statistics.value e) zero /\
       ltb pct zero = gtb (Statistics.value e) zero) /\
  (forall e, In e (Statistics.mphImprovementData getTime data) ->
     exists pct, Statistics.improvementPct e = Some pct /\
       gtb pct zero = gtb (Statistics.value e) zero /\
       ltb pct zero = ltb (Statistics.value e) zero).
Proof.
  split.
  - intros e He. unfold Statistics.improvementData in He.
    apply sliceTo_In, sort_In, in_map_iff in He.
    destruct He as (p & <- & Hp).
    destruct (trend_averages getTime ET data p HfinET Hp)
      as (a & b & Ha & Hb & Hpos).
    eexists. split; [reflexivity |].
    cbn [Statistics.improvementEntry Statistics.value]. rewrite Ha, Hb.
    rewrite !gtb_sign, !ltb_sign. unfold sub.
    rewrite (pct_sign (Qred (a - b)) Hpos). unfold sign.
    rewrite !Qcompare_sub, <- (Qcompare_antisym a b).
    now destruct (a ?= b)%Q.
  - intros e He. unfold Statistics.mphImprovementData in He.
    apply sliceTo_In, sort_In, in_map_iff in He.
    destruct He as (p & <- & Hp).
    destruct (trend_averages getTime MPH data p HfinMPH Hp)
      as (a & b & Ha & Hb & Hpos).
    eexists. split; [reflexivity |].
    cbn [Statistics.mphImprovementEntry Statistics.value]. rewrite Ha, Hb.
    rewrite !gtb_sign, !ltb_sign. unfold sub.
    rewrite (pct_sign (Qred (b - a)) Hpos). unfold sign.
    rewrite !Qcompare_sub.
    now destruct (b ?= a)%Q.
Qed.

Lemma improvement_percentage_sign_witness :
  (forall e, In e (Statistics.improvementData Samples.isoTime
                     Samples.fourRuns) ->
     exists pct, Statistics.improvementPct e = Some pct /\
       gtb pct zero = ltb (Statistics.value e) zero /\
       ltb pct zero = gtb (Statistics.value e) zero) /\
  (forall e, In e (Statistics.mphImprovementData Samples.isoTime
                     Samples.fourRuns) ->
     exists pct, Statistics.improvementPct e = Some pct /\
       gtb pct zero = gtb (Statistics.value e) zero /\
       ltb pct zero = ltb (Statistics.value e) zero).
Proof.
  apply (@improvement_percentage_sign Samples.isoTime Samples.fourRuns).
  - apply fourRuns_finite. now left.
  - apply fourRuns_finite. now right.
Defined.
End ImprovementSign.

(* ================================================================== *)
(** ** Dashboard: average performance by date                          *)
(* ================================================================== *)

Section TrendByDate.
Import JS Race Spec.

Lemma push_fold (f : RaceRecord -> num) (g : list RaceRecord)
  (l0 : list num) :
  fold_left (fun l r => Drivers.push (present (f r)) (f r) l) g l0
  = l0 ++ Drivers.samples f g.
Proof.
  revert l0. induction g as [| r g IH]; intros l0; simpl.
  - now rewrite app_nil_r.
  - rewrite IH. unfold Drivers.samples, Drivers.push. simpl.
    destruct (present (f r)); simpl; [| reflexivity].
    now rewrite <- app_assoc.
Qed.

Lemma dateStats_fold (g : list RaceRecord) (s0 : Trend.DateStats) :
  fold_left
    (fun dateStats record =>
       {| Trend.d_et := Drivers.push (present (ET record)) (ET record)
                          (Trend.d_et dateStats);
          Trend.d_mph := Drivers.push (present (MPH record)) (MPH record)
                           (Trend.d_mph dateStats);
          Trend.d_count := Trend.d_count dateStats + 1 |})
    g s0
  = {| Trend.d_et := Trend.d_et s0 ++ Drivers.samples ET g;
       Trend.d_mph := Trend.d_mph s0 ++ Drivers.samples MPH g;
       Trend.d_count := Trend.d_count s0 + List.length g |}.
Proof.
  revert s0. induction g as [| r g IH]; intros s0; simpl.
  - destruct s0; simpl. rewrite !app_nil_r. f_equal. lia.
  - rewrite IH. simpl. unfold Drivers.samples, Drivers.push. simpl.
    destruct (present (ET r)), (present (MPH r)); simpl;
      rewrite <- ?app_assoc; simpl; f_equal; lia.
Qed.

Lemma datePerformanceMap_groupFold (data : list RaceRecord) :
  Trend.datePerformanceMap data =
  groupFold Date
    (fun _ : RaceRecord =>
       {| Trend.d_et := []; Trend.d_mph := []; Trend.d_count := 0 |})
    (fun record dateStats =>
       {| Trend.d_et := Drivers.push (present (ET record)) (ET record)
                          (Trend.d_et dateStats);
          Trend.d_mph := Drivers.push (present (MPH record)) (MPH record)
                           (Trend.d_mph dateStats);
          Trend.d_count := Trend.d_count dateStats + 1 |})
    data.
Proof. reflexivity. Qed.

Lemma datePerformanceMap_In (data : list RaceRecord) (k : string)
  (s : Trend.DateStats) :
  In (k, s) (Trend.datePerformanceMap data) <->
  groupOf Date k data <> [] /\
  s = {| Trend.d_et := Drivers.samples ET (groupOf Date k data);
         Trend.d_mph := Drivers.samples MPH (groupOf Date k data);
         Trend.d_count := List.length (groupOf Date k data) |}.
Proof.
  rewrite datePerformanceMap_groupFold, groupFold_In. unfold foldGroup.
  destruct (groupOf Date k data) as [| r g]; [split |].
  - discriminate.
  - intros [H _]. congruence.
  - rewrite dateStats_fold. cbn [Trend.d_et Trend.d_mph Trend.d_count app].
    split.
    + intros H. injection H as <-. split; [discriminate | reflexivity].
    + intros [_ ->]. reflexivity.
Qed.

Lemma toFixed_zero (d : nat) : toFixed d zero = zero.
Proof.
  unfold toFixed, zero. cbn [Qcompare]. 
  change (0 ?= 0)%Q with Eq.
  assert (H : Qfloor (0 * inject_Z (10 ^ Z.of_nat d) + (1 # 2)) = 0%Z).
  { rewrite Qmult_0_l. reflexivity. }
  rewrite H. f_equal.
Qed.

(** The dashboard charts one point for each date of the data, in
    chronological order when the dates can be read: the number of records
    of the date, which add up to the number of records, and the averages
    of its ET and MPH values that are [> 0], rounded; the average of a date
    without such a value is 0. *)
Theorem performance_by_date
  (getTime : string -> num) (data : list RaceRecord)
  (Hdate : forall race, In race data -> notNaN (getTime (Date race))) :
  (forall p, In p (Trend.performanceByDate getTime data) <->
     groupOf Date (Trend.pd_date p) data <> [] /\
     p = pointOfDate (Trend.pd_date p) data) /\
  (forall p, In p (Trend.performanceByDate getTime data) ->
     Drivers.samples ET (groupOf Date (Trend.pd_date p) data) = [] ->
     Trend.pd_et p = zero) /\
  NoDup (map Trend.pd_date (Trend.performanceByDate getTime data)) /\
  list_sum (map Trend.pd_count (Trend.performanceByDate getTime data))
  = List.length data /\
  sortedAscending (fun p => getTime (Trend.pd_date p))
    (Trend.performanceByDate getTime data).
Proof.
  assert (Hin : forall p,
     In p (map Trend.performancePoint (entries (Trend.datePerformanceMap data)))
     <-> groupOf Date (Trend.pd_date p) data <> [] /\
         p = pointOfDate (Trend.pd_date p) data).
  { intros p. rewrite in_map_iff. unfold entries. split.
    - intros [[k s] [<- Hks]]. apply datePerformanceMap_In in Hks.
      destruct Hks as [Hne ->]. simpl. split; [assumption | reflexivity].
    - intros [Hne Hp].
      exists (Trend.pd_date p,
              {| Trend.d_et :=
                   Drivers.samples ET (groupOf Date (Trend.pd_date p) data);
                 Trend.d_mph :=
                   Drivers.samples MPH (groupOf Date (Trend.pd_date p) data);
                 Trend.d_count :=
                   List.length (groupOf Date (Trend.pd_date p) data) |}).
      split; [now rewrite Hp at 3 |].
      apply datePerformanceMap_In. now split. }
  assert (Hdates :
     map Trend.pd_date
       (map Trend.performancePoint (entries (Trend.datePerformanceMap data)))
     = map fst (Trend.datePerformanceMap data)).
  { unfold entries. rewrite map_map. apply map_ext. now intros [k s]. }
  assert (Hcounts :
     map Trend.pd_count
       (map Trend.performancePoint (entries (Trend.datePerformanceMap data)))
     = map Trend.d_count (map snd (Trend.datePerformanceMap data))).
  { unfold entries. rewrite !map_map. apply map_ext. now intros [k s]. }
  unfold Trend.performanceByDate. split; [| split; [| split; [| split]]].
  - intros p. rewrite sort_In. apply Hin.
  - intros p Hp Hnone. rewrite sort_In in Hp. apply Hin in Hp.
    destruct Hp as [_ ->]. unfold pointOfDate. cbn [Trend.pd_et Trend.pd_date].
    rewrite Hnone. apply toFixed_zero.
  - eapply Permutation_NoDup.
    + symmetry. apply Permutation_map, sort_perm.
    + rewrite Hdates, datePerformanceMap_groupFold. apply groupFold_NoDup.
  - rewrite (list_sum_perm (Permutation_map Trend.pd_count (sort_perm _ _))).
    rewrite Hcounts, <- values_sum, datePerformanceMap_groupFold.
    apply groupFold_sum; reflexivity.
  - apply sort_ascending. apply Forall_forall. intros p Hp.
    apply Hin in Hp. destruct Hp as [Hne _].
    destruct (groupOf Date (Trend.pd_date p) data) as [| r g] eqn:E;
      [congruence |].
    rewrite <- (@groupOf_head _ Date (Trend.pd_date p) data g r E).
    apply Hdate.
    assert (Hr : In r (groupOf Date (Trend.pd_date p) data))
      by (rewrite E; now left).
    unfold groupOf in Hr. now apply filter_In in Hr.
Qed.

Lemma performance_by_date_witness :
  (forall p, In p (Trend.performanceByDate Samples.isoTime Samples.fourRuns)
     <-> groupOf Date (Trend.pd_date p) Samples.fourRuns <> [] /\
         p = pointOfDate (Trend.pd_date p) Samples.fourRuns) /\
  (forall p, In p (Trend.performanceByDate Samples.isoTime Samples.fourRuns) ->
     Drivers.samples ET (groupOf Date (Trend.pd_date p) Samples.fourRuns) = []
     -> Trend.pd_et p = zero) /\
  NoDup (map Trend.pd_date
           (Trend.performanceByDate Samples.isoTime Samples.fourRuns)) /\
  list_sum (map Trend.pd_count
              (Trend.performanceByDate Samples.isoTime Samples.fourRuns))
  = List.length Samples.fourRuns /\
  sortedAscending (fun p => Samples.isoTime (Trend.pd_date p))
    (Trend.performanceByDate Samples.isoTime Samples.fourRuns).
Proof.
  apply (@performance_by_date Samples.isoTime Samples.fourRuns).
  intros race H. simpl in H.
  destruct H as [<- | [<- | [<- | [<- | []]]]]; vm_compute; discriminate.
Defined.
End TrendByDate.

(* ================================================================== *)
(** ** Drivers: the opponents table                                    *)
(* ================================================================== *)

Section Opponents.
Import JS Race Spec.

Lemma opponent_fold (g : list RaceRecord) (o0 : Tables.OpponentRow) :
  fold_left
    (fun o race =>
       {| Tables.opponent := Tables.opponent o;
          Tables.o_races := Tables.o_races o + 1;
          Tables.o_wins := if isWin race then Tables.o_wins o + 1
                           else Tables.o_wins o;
          Tables.o_losses := if isWin race then Tables.o_losses o
                             else Tables.o_losses o + 1 |})
    g o0
  = {| Tables.opponent := Tables.opponent o0;
       Tables.o_races := Tables.o_races o0 + List.length g;
       Tables.o_wins := Tables.o_wins o0 + List.length (filter isWin g);
       Tables.o_losses :=
         Tables.o_losses o0
         + List.length (filter (fun race => negb (isWin race)) g) |}.
Proof.
  revert o0. induction g as [| r g IH]; intros o0; simpl.
  - destruct o0; simpl. f_equal; lia.
  - rewrite IH. simpl. destruct (isWin r); simpl; f_equal; lia.
Qed.

Lemma opponentData_groupFold (driverRaces : list RaceRecord) :
  Tables.opponentData driverRaces =
  groupFold Opponent
    (fun race => {| Tables.opponent := Opponent race; Tables.o_races := 0;
                    Tables.o_wins := 0; Tables.o_losses := 0 |})
    (fun race o =>
       {| Tables.opponent := Tables.opponent o;
          Tables.o_races := Tables.o_races o + 1;
          Tables.o_wins := if isWin race then Tables.o_wins o + 1
                           else Tables.o_wins o;
          Tables.o_losses := if isWin race then Tables.o_losses o
                             else Tables.o_losses o + 1 |})
    driverRaces.
Proof. reflexivity. Qed.

Lemma opponentData_values (driverRaces : list RaceRecord)
  (o : Tables.OpponentRow) :
  In o (values (Tables.opponentData driverRaces)) <->
  groupOf Opponent (Tables.opponent o) driverRaces <> [] /\
  o = Tables.row (opponentStatsOf (Tables.opponent o) driverRaces).
Proof.
  rewrite opponentData_groupFold, groupFold_values. unfold foldGroup. split.
  - intros [k Hk].
    destruct (groupOf Opponent k driverRaces) as [| r g] eqn:E;
      [discriminate |].
    rewrite opponent_fold in Hk. injection Hk as <-.
    cbn [Tables.opponent Tables.o_races Tables.o_wins Tables.o_losses].
    rewrite (@groupOf_head _ Opponent k driverRaces g r E).
    unfold opponentStatsOf. rewrite E. split; [discriminate | reflexivity].
  - intros [Hne Ho]. exists (Tables.opponent o).
    destruct (groupOf Opponent (Tables.opponent o) driverRaces)
      as [| r g] eqn:E; [congruence |].
    rewrite opponent_fold.
    cbn [Tables.opponent Tables.o_races Tables.o_wins Tables.o_losses].
    rewrite (@groupOf_head _ Opponent (Tables.opponent o) driverRaces g r E).
    f_equal. unfold opponentStatsOf in Ho. rewrite E in Ho.
    cbn [Tables.row] in Ho. rewrite Ho at 2. reflexivity.
Qed.

(** The opponents table has one row for each opponent it lists, most
    races first: the races against the opponent, the wins among them and,
    as losses, all the other races, so that wins and losses make up the
    races; the win rate is a percentage.  When no opponent's name is an
    inherited property name, every opponent of the driver's races has a
    row, and the races of the rows add up to the driver's races. *)
Theorem opponents_table (driverRaces : list RaceRecord) :
  (forall s, In s (Tables.opponentDataArray driverRaces) ->
     groupOf Opponent (Tables.opponent (Tables.row s)) driverRaces <> [] /\
     s = opponentStatsOf (Tables.opponent (Tables.row s)) driverRaces) /\
  NoDup (map (fun s => Tables.opponent (Tables.row s))
           (Tables.opponentDataArray driverRaces)) /\
  (forall s, In s (Tables.opponentDataArray driverRaces) ->
     Tables.o_wins (Tables.row s) + Tables.o_losses (Tables.row s)
     = Tables.o_races (Tables.row s) /\
     0 < Tables.o_races (Tables.row s) /\
     percentage (Tables.o_winRate s)) /\
  sortedDescending (fun s => ofNat (Tables.o_races (Tables.row s)))
    (Tables.opponentDataArray driverRaces) /\
  (plainKeys Opponent driverRaces ->
   (forall race, In race driverRaces ->
      In (opponentStatsOf (Opponent race) driverRaces)
         (Tables.opponentDataArray driverRaces)) /\
   list_sum (map (fun s => Tables.o_races (Tables.row s))
               (Tables.opponentDataArray driverRaces))
   = List.length driverRaces).
Proof.
  set (mk := fun data =>
     {| Tables.row := data;
        Tables.o_winRate :=
          mul (div (ofNat (Tables.o_wins data)) (ofNat (Tables.o_races data)))
              (ofNat 100) |}).
  assert (Hin : forall s, In s (Tables.opponentDataArray driverRaces) <->
     groupOf Opponent (Tables.opponent (Tables.row s)) driverRaces <> [] /\
     s = opponentStatsOf (Tables.opponent (Tables.row s)) driverRaces).
  { assert (Hmk : forall o,
              mk (Tables.row (opponentStatsOf o driverRaces))
              = opponentStatsOf o driverRaces) by reflexivity.
    intros s. unfold Tables.opponentDataArray. rewrite sort_In, in_map_iff.
    fold mk. split.
    - intros [o [<- Ho]]. apply opponentData_values in Ho.
      destruct Ho as [Hne Ho]. cbn [Tables.row mk]. split; [assumption |].
      fold (mk o).
      transitivity
        (mk (Tables.row (opponentStatsOf (Tables.opponent o) driverRaces)));
        [now rewrite <- Ho | apply Hmk].
    - intros [Hne Hs]. exists (Tables.row s). split.
      + rewrite Hs. apply Hmk.
      + apply opponentData_values. split; [assumption |].
        now rewrite Hs at 1. }
  split; [apply Hin | split; [| split; [| split]]].
  - unfold Tables.opponentDataArray. eapply Permutation_NoDup.
    + symmetry. apply Permutation_map, sort_perm.
    + rewrite map_map. cbn [Tables.row]. rewrite opponentData_groupFold.
      apply (groupFold_values_NoDup Opponent
               (fun race => {| Tables.opponent := Opponent race;
                               Tables.o_races := 0; Tables.o_wins := 0;
                               Tables.o_losses := 0 |})
               (fun race o =>
                  {| Tables.opponent := Tables.opponent o;
                     Tables.o_races := Tables.o_races o + 1;
                     Tables.o_wins := if isWin race then Tables.o_wins o + 1
                                      else Tables.o_wins o;
                     Tables.o_losses := if isWin race then Tables.o_losses o
                                        else Tables.o_losses o + 1 |})
               Tables.opponent); reflexivity.
  - intros s Hs. apply Hin in Hs. destruct Hs as [Hne ->].
    unfold opponentStatsOf.
    cbn [Tables.row Tables.o_wins Tables.o_losses Tables.o_races
         Tables.o_winRate Tables.opponent].
    set (g := groupOf Opponent _ driverRaces) in *.
    assert (Hpos : 0 < List.length g)
      by (destruct g; [congruence | simpl; lia]).
    split; [apply filter_length | split; [assumption |]].
    apply (@percentOf_percentage (List.length (filter isWin g))
             (List.length g)); [apply filter_length_le | assumption].
  - apply sort_descending. apply Forall_forall. intros s _.
    apply finite_notNaN, finite_ofNat.
  - intros _. split.
    + intros race Hrace. apply Hin.
      cbn [opponentStatsOf Tables.row Tables.opponent].
      split; [| reflexivity]. intros E.
      assert (Hr : In race (groupOf Opponent (Opponent race) driverRaces)).
      { unfold groupOf. apply filter_In. split; [assumption |].
        apply String.eqb_refl. }
      rewrite E in Hr. destruct Hr.
    + unfold Tables.opponentDataArray.
      rewrite (list_sum_perm
                 (Permutation_map (fun s => Tables.o_races (Tables.row s))
                    (sort_perm _ _))).
      rewrite map_map. cbn [Tables.row]. rewrite opponentData_groupFold.
      apply groupFold_sum; reflexivity.
Qed.

Lemma opponents_table_witness :
  (forall race, In race Samples.twoCars ->
     In (opponentStatsOf (Opponent race) Samples.twoCars)
        (Tables.opponentDataArray Samples.twoCars)) /\
  list_sum (map (fun s => Tables.o_races (Tables.row s))
              (Tables.opponentDataArray Samples.twoCars))
  = List.length Samples.twoCars.
Proof.
  destruct (@opponents_table Samples.twoCars) as (_ & _ & _ & _ & Hall).
  apply Hall. reflexivity.
Defined.
End Opponents.

(* ================================================================== *)
(** ** Drivers: the best and the average values of the rollup          *)
(* ================================================================== *)

Section Extremes.
Import JS Race Spec.

Lemma leb_refl (x : num) : x <> NaN -> leb x x = true.
Proof.
  destruct x; try congruence; intros _; try reflexivity.
  unfold leb, compare. now rewrite (proj1 (Qeq_alt q q) (Qeq_refl q)).
Qed.

Lemma leb_total (x y : num) :
  x <> NaN -> y <> NaN -> leb x y = true \/ leb y x = true.
Proof.
  intros Hx Hy. destruct (gtb x y) eqn:E.
  - right. now apply gtb_true_leb.
  - left. now apply gtb_false_leb.
Qed.

Lemma min2_cases (a x : num) :
  a <> NaN -> x <> NaN ->
  (min2 a x = a /\ leb a x = true) \/ (min2 a x = x /\ leb x a = true).
Proof.
  intros Ha Hx. unfold min2.
  destruct (gtb a x) eqn:E.
  - right. split; [| now apply gtb_true_leb].
    unfold gtb in E. destruct (compare a x) as [[| |] |]; congruence.
  - left. split; [| now apply gtb_false_leb].
    unfold gtb in E. destruct (compare a x) as [[| |] |] eqn:C; try congruence.
    destruct a, x; simpl in C; congruence.
Qed.

Lemma max2_cases (a x : num) :
  a <> NaN -> x <> NaN ->
  (max2 a x = a /\ leb x a = true) \/ (max2 a x = x /\ leb a x = true).
Proof.
  destruct a as [| | | q], x as [| | | q0]; try congruence; intros _ _;
    try (left; split; reflexivity); try (right; split; reflexivity).
  unfold max2, leb, compare.
  rewrite <- (Qcompare_antisym q q0).
  destruct (q ?= q0)%Q; simpl; auto.
Qed.

Lemma fold_min2 (l : list num) (a : num) :
  a <> NaN -> Forall notNaN l ->
  fold_left min2 l a <> NaN /\
  (fold_left min2 l a = a \/ In (fold_left min2 l a) l) /\
  leb (fold_left min2 l a) a = true /\
  Forall (fun x => leb (fold_left min2 l a) x = true) l.
Proof.
  intros Ha Hl. revert a Ha.
  induction Hl as [| x l Hx Hl IH]; intros a Ha; simpl.
  - repeat split; auto. now apply leb_refl.
  - assert (Hb : min2 a x <> NaN)
      by (destruct (min2_cases Ha Hx) as [[-> _] | [-> _]]; assumption).
    destruct (IH _ Hb) as (Hn & Hm & Hle & Hall).
    split; [assumption |].
    destruct (min2_cases Ha Hx) as [[E L] | [E L]]; rewrite E in *.
    + split; [destruct Hm; auto |]. split; [assumption |].
      constructor; [| assumption]. now apply leb_trans with a.
    + split; [destruct Hm as [-> | Hm]; auto |].
      split; [now apply leb_trans with x |].
      constructor; assumption.
Qed.

Lemma fold_max2 (l : list num) (a : num) :
  a <> NaN -> Forall notNaN l ->
  fold_left max2 l a <> NaN /\
  (fold_left max2 l a = a \/ In (fold_left max2 l a) l) /\
  leb a (fold_left max2 l a) = true /\
  Forall (fun x => leb x (fold_left max2 l a) = true) l.
Proof.
  intros Ha Hl. revert a Ha.
  induction Hl as [| x l Hx Hl IH]; intros a Ha; simpl.
  - repeat split; auto. now apply leb_refl.
  - assert (Hb : max2 a x <> NaN)
      by (destruct (max2_cases Ha Hx) as [[-> _] | [-> _]]; assumption).
    destruct (IH _ Hb) as (Hn & Hm & Hle & Hall).
    split; [assumption |].
    destruct (max2_cases Ha Hx) as [[E L] | [E L]]; rewrite E in *.
    + split; [destruct Hm; auto |]. split; [assumption |].
      constructor; [| assumption]. now apply leb_trans with a.
    + split; [destruct Hm as [-> | Hm]; auto |].
      split; [now apply leb_trans with x |].
      constructor; assumption.
Qed.

(** [Math.min] of values without NaN is the least of them. *)
Lemma minOf_lowest (l : list num) :
  l <> [] -> Forall notNaN l -> lowest (minOf l) l.
Proof.
  intros Hne Hl. unfold minOf.
  destruct (@fold_min2 l PInf) as (Hn & Hm & _ & Hall);
    [discriminate | assumption |].
  split; [| assumption].
  destruct Hm as [Hm | Hm]; [| assumption].
  rewrite Hm in *. destruct l as [| x l]; [congruence |].
  inversion Hall as [| ? ? Hx _]; subst. left.
  destruct x; simpl in Hx; try discriminate. reflexivity.
Qed.

Lemma maxOf_highest (l : list num) :
  l <> [] -> Forall notNaN l -> highest (maxOf l) l.
Proof.
  intros Hne Hl. unfold maxOf.
  destruct (@fold_max2 l NInf) as (Hn & Hm & _ & Hall);
    [discriminate | assumption |].
  split; [| assumption].
  destruct Hm as [Hm | Hm]; [| assumption].
  rewrite Hm in *. destruct l as [| x l]; [congruence |].
  inversion Hall as [| ? ? Hx _]; subst. left.
  destruct x; simpl in Hx; try discriminate. reflexivity.
Qed.

Lemma leb_Fin (a b : Q) : leb (Fin a) (Fin b) = true <-> (a <= b)%Q.
Proof.
  unfold leb, compare. rewrite Qle_alt.
  destruct (a ?= b)%Q; split; congruence.
Qed.

Lemma positive_notNaNs (l : list num) : Forall positive l -> Forall notNaN l.
Proof. apply Forall_impl. intros x. apply positive_notNaN. Qed.

Lemma time_summary (f : RaceRecord -> num) (races : list RaceRecord) :
  timeSummary (Drivers.bestOf minOf (Drivers.samples f races))
    (Drivers.calcAverage (Drivers.samples f races))
    (Drivers.samples f races).
Proof.
  pose proof (samples_positive f races) as Hpos.
  set (l := Drivers.samples f races) in *.
  unfold timeSummary, Drivers.bestOf, Drivers.calcAverage. split.
  - intros ->. split; reflexivity.
  - intros Hne.
    assert (Hn : (0 <? List.length l) = true)
      by (apply Nat.ltb_lt; destruct l; [congruence | simpl; lia]).
    rewrite Hn. split; [| reflexivity].
    exact (minOf_lowest Hne (positive_notNaNs Hpos)).
Qed.

Lemma speed_summary (f : RaceRecord -> num) (races : list RaceRecord) :
  speedSummary (Drivers.bestOf maxOf (Drivers.samples f races))
    (Drivers.calcAverage (Drivers.samples f races))
    (Drivers.samples f races).
Proof.
  pose proof (samples_positive f races) as Hpos.
  set (l := Drivers.samples f races) in *.
  unfold speedSummary, Drivers.bestOf, Drivers.calcAverage. split.
  - intros ->. split; reflexivity.
  - intros Hne.
    assert (Hn : (0 <? List.length l) = true)
      by (apply Nat.ltb_lt; destruct l; [congruence | simpl; lia]).
    rewrite Hn. split; [| reflexivity].
    exact (maxOf_highest Hne (positive_notNaNs Hpos)).
Qed.

Lemma disjoint_filters (A : Type) (p q : A -> bool) (l : list A) :
  (forall x, p x = true -> q x = false) ->
  List.length (filter p l) + List.length (filter q l) <= List.length l.
Proof.
  intros H. induction l as [| x l IH]; simpl; [lia |].
  destruct (p x) eqn:P.
  - rewrite (H x P). simpl. lia.
  - destruct (q x); simpl; lia.
Qed.

Lemma win_not_loss (race : RaceRecord) : isWin race = true -> isLoss race = false.
Proof.
  unfold isWin, isLoss. intros H. apply String.eqb_eq in H. now rewrite H.
Qed.

(** The rollup of a driver: the wins and the losses are within the races
    and the win rate of a driver with races is a percentage.  Each best
    time is the least of its values [> 0] and the best speed is the
    greatest of the speeds [> 0]; each average is the sum of those values
    over their number; without such a value the best and the average are
    0. *)
Theorem rollup_bests_and_averages (d : string) (races : list RaceRecord) :
  Drivers.wins (Drivers.compileStats d races)
  + Drivers.losses (Drivers.compileStats d races)
  <= Drivers.races (Drivers.compileStats d races) /\
  (races <> [] -> percentage (Drivers.winRate (Drivers.compileStats d races)))
  /\
  timeSummary (Drivers.bestReaction (Drivers.compileStats d races))
    (Drivers.avgReaction (Drivers.compileStats d races))
    (Drivers.samples Reaction races) /\
  timeSummary (Drivers.bestSixtyFoot (Drivers.compileStats d races))
    (Drivers.avg60ft (Drivers.compileStats d races))
    (Drivers.samples ft60 races) /\
  timeSummary (Drivers.bestThreeThirty (Drivers.compileStats d races))
    (Drivers.avg330ft (Drivers.compileStats d races))
    (Drivers.samples ft330 races) /\
  timeSummary (Drivers.bestEighthET (Drivers.compileStats d races))
    (Drivers.avgEighthET (Drivers.compileStats d races))
    (Drivers.samples ET races) /\
  speedSummary (Drivers.bestEighthMPH (Drivers.compileStats d races))
    (Drivers.avgEighthMPH (Drivers.compileStats d races))
    (Drivers.samples MPH races).
Proof.
  cbn [Drivers.compileStats Drivers.wins Drivers.losses Drivers.races
       Drivers.winRate Drivers.bestReaction Drivers.avgReaction
       Drivers.bestSixtyFoot Drivers.avg60ft Drivers.bestThreeThirty
       Drivers.avg330ft Drivers.bestEighthET Drivers.avgEighthET
       Drivers.bestEighthMPH Drivers.avgEighthMPH].
  split; [| split; [| split; [| split; [| split; [| split]]]]].
  - apply disjoint_filters. apply win_not_loss.
  - intros Hne.
    apply (@percentOf_percentage (List.length (filter isWin races))
             (List.length races)); [apply filter_length_le |].
    destruct races; [congruence | simpl; lia].
  - apply (time_summary Reaction).
  - apply (time_summary ft60).
  - apply (time_summary ft330).
  - apply (time_summary ET).
  - apply (speed_summary MPH).
Qed.
End Extremes.

(* ================================================================== *)
(** ** Drivers: the options of the driver select                       *)
(* ================================================================== *)

Section DriverSelect.
Import JS Race Spec.

Lemma unique_NoDup (seen names : list string) :
  NoDup (Drivers.unique seen names) /\
  (forall x, In x (Drivers.unique seen names) -> ~ In x seen).
Proof.
  revert seen. induction names as [| y names IH]; intros seen; simpl.
  - split; [constructor | tauto].
  - destruct (existsb (String.eqb y) seen) eqn:E; [apply IH |].
    destruct (IH (y :: seen)) as [Hnd Hnot]. split.
    + constructor; [| assumption]. intros Hy. apply (Hnot y Hy). now left.
    + intros x [<- | Hx].
      * intros Hin. assert (Ht : existsb (String.eqb y) seen = true).
        { apply existsb_exists. exists y. split; [assumption |].
          apply String.eqb_refl. }
        congruence.
      * intros Hin. apply (Hnot x Hx). now right.
Qed.

Lemma after_stringOrder (x y : string) :
  after Drivers.stringOrder x y = true <-> String.compare x y = Gt.
Proof.
  unfold after, Drivers.stringOrder.
  destruct (String.compare x y); split; intros H; try discriminate H;
    reflexivity.
Qed.

Lemma string_le_trans (x y z : string) :
  String.compare x y <> Gt -> String.compare y z <> Gt ->
  String.compare x z <> Gt.
Proof.
  intros Hxy Hyz.
  destruct (String.compare x y) eqn:Exy; [| | congruence].
  - apply String.compare_eq_iff in Exy. now subst.
  - destruct (String.compare y z) eqn:Eyz; [| | congruence].
    + apply String.compare_eq_iff in Eyz. subst. now rewrite Exy.
    + apply OrderedTypeEx.String_as_OT.cmp_lt in Exy, Eyz.
      pose proof (OrderedTypeEx.String_as_OT.lt_trans _ _ _ Exy Eyz) as H.
      apply OrderedTypeEx.String_as_OT.cmp_lt in H.
      unfold OrderedTypeEx.String_as_OT.cmp in H. now rewrite H.
Qed.

(** The driver select offers every driver of the data once, in the order
    of the default sort. *)
Theorem driver_select_options (parsedData : list RaceRecord) :
  NoDup (Drivers.uniqueDrivers parsedData) /\
  (forall d, In d (Drivers.uniqueDrivers parsedData) <->
             In d (map Driver parsedData)) /\
  alphabetical (Drivers.uniqueDrivers parsedData).
Proof.
  unfold Drivers.uniqueDrivers. split; [| split].
  - eapply Permutation_NoDup; [symmetry; apply sort_perm |].
    apply unique_NoDup.
  - intros d. rewrite sort_In. split; [apply unique_In |].
    intros H. destruct (unique_complete [] _ _ H) as [[] | H']. exact H'.
  - apply (@sort_sorted _ Drivers.stringOrder (fun _ => True)).
    + intros x y _ _ H. apply after_stringOrder in H.
      rewrite String.compare_antisym, H. discriminate.
    + intros x y _ _ H E. apply after_stringOrder in E. congruence.
    + apply string_le_trans.
    + apply Forall_forall. auto.
Qed.
End DriverSelect.

(* ================================================================== *)
(** ** Drivers: the rollup follows the selection                       *)
(* ================================================================== *)

Section Selection.
Import JS Race Spec Drivers.

Lemma effect_runs (sel : string) (data : list RaceRecord)
  (prev : option DriverStats) :
  sel <> EmptyString -> In sel (map Driver data) ->
  driverRaces sel data <> [] /\
  driverStatsEffect sel data prev
  = Some (compileStats sel (driverRaces sel data)).
Proof.
  intros Hs Hin.
  pose proof (@driverRaces_nonempty sel data Hin) as Hne.
  split; [assumption |]. unfold driverStatsEffect.
  apply String.eqb_neq in Hs. rewrite Hs.
  destruct data as [| r data]; [contradiction |].
  cbn [List.length Nat.eqb orb].
  destruct (driverRaces sel (r :: data)) as [| r' l]; [congruence |].
  reflexivity.
Qed.

Lemma reachable_selection (s : State) :
  reachable s ->
  selectedDriver s <> EmptyString ->
  In (selectedDriver s) (map Driver (raceData s)) /\
  driverStats s
  = Some (compileStats (selectedDriver s)
            (driverRaces (selectedDriver s) (raceData s))).
Proof.
  intros Hr. destruct Hr as [| parsedData | d s Hr Hd].
  - cbn. congruence.
  - cbn [loaded runEffect selectedDriver raceData driverStats initial].
    intros Hsel.
    assert (Hin : In (match uniqueDrivers parsedData with
                      | d :: _ => d
                      | [] => EmptyString
                      end) (map Driver parsedData)).
    { destruct (uniqueDrivers parsedData) as [| d l] eqn:E; [congruence |].
      apply uniqueDrivers_In. rewrite E. now left. }
    split; [assumption |]. now apply effect_runs.
  - cbn [selected runEffect selectedDriver raceData driverStats].
    intros Hsel.
    assert (Hin : In d (map Driver (raceData s)))
      by now apply (proj1 (reachable_inv Hr)).
    split; [assumption |]. now apply effect_runs.
Qed.

(** In every state that the component reaches with a driver selected, the
    rollup is the one compiled from the records of that driver, which are
    not empty.  Picking an option whose driver name is empty leaves the
    rollup of the driver selected before. *)
Theorem rollup_follows_selection (s : State) :
  reachable s ->
  (selectedDriver s <> EmptyString ->
   driverRaces (selectedDriver s) (raceData s) <> [] /\
   driverStats s
   = Some (compileStats (selectedDriver s)
             (driverRaces (selectedDriver s) (raceData s)))) /\
  driverStats (selected EmptyString s) = driverStats s.
Proof.
  intros Hr. split; [| reflexivity].
  intros Hsel. destruct (reachable_selection Hr Hsel) as [Hin Hst].
  split; [now apply driverRaces_nonempty | assumption].
Qed.

Lemma rollup_follows_selection_witness :
  (selectedDriver (loaded Samples.threeRaces initial) <> EmptyString ->
   driverRaces (selectedDriver (loaded Samples.threeRaces initial))
     (raceData (loaded Samples.threeRaces initial)) <> [] /\
   driverStats (loaded Samples.threeRaces initial)
   = Some (compileStats (selectedDriver (loaded Samples.threeRaces initial))
             (driverRaces (selectedDriver (loaded Samples.threeRaces initial))
                (raceData (loaded Samples.threeRaces initial))))) /\
  driverStats (selected EmptyString (loaded Samples.threeRaces initial))
  = driverStats (loaded Samples.threeRaces initial).
Proof.
  apply (@rollup_follows_selection (loaded Samples.threeRaces initial)).
  apply reach_loaded.
Defined.
End Selection.

(* ================================================================== *)
(** ** Drivers: the performance trend by date and the race history     *)
(* ================================================================== *)

Section DriverTrend.
Import JS Race Spec.

Lemma racesByDate_In (driverRaces : list RaceRecord) (k : string)
  (g : list RaceRecord) :
  In (k, g) (Tables.racesByDate driverRaces) <->
  g <> [] /\ g = groupOf Date k driverRaces.
Proof.
  unfold Tables.racesByDate.
  change (fold_left _ driverRaces [])
    with (groupFold Date (fun _ : RaceRecord => @nil RaceRecord)
            (fun race races => races ++ [race]) driverRaces).
  rewrite groupFold_In. unfold foldGroup.
  destruct (groupOf Date k driverRaces) as [| r l].
  - split; [discriminate | intros [H ->]; congruence].
  - rewrite fold_left_collect, map_id. cbn [app]. split.
    + intros H. injection H as <-. split; [discriminate | reflexivity].
    + intros [_ ->]. reflexivity.
Qed.

Lemma filter_partition_perm (A : Type) (p : A -> bool) (l : list A) :
  Permutation (filter p l ++ filter (fun e => negb (p e)) l) l.
Proof.
  induction l as [| e l IH]; [reflexivity |].
  cbn [filter]. destruct (p e); cbn [negb app].
  - now apply perm_skip.
  - symmetry. apply Permutation_cons_app. now symmetry.
Qed.

Lemma ownEntries_perm (V : Type) (o : obj V) :
  Permutation (Charts.ownEntries o) o.
Proof.
  unfold Charts.ownEntries.
  eapply Permutation_trans; [| apply (filter_partition_perm (@isIndex V))].
  apply Permutation_app; [apply sort_perm | reflexivity].
Qed.

Lemma bestOrNull_lowest (l : list num) :
  Forall positive l -> lowestOrNull (Tables.bestOrNull minOf l) l.
Proof.
  intros Hpos. unfold Tables.bestOrNull, lowestOrNull.
  destruct l as [| x l]; [reflexivity |].
  cbn [List.length Nat.ltb Nat.leb].
  apply minOf_lowest; [discriminate | now apply positive_notNaNs].
Qed.

Lemma bestOrNull_highest (l : list num) :
  Forall positive l -> highestOrNull (Tables.bestOrNull maxOf l) l.
Proof.
  intros Hpos. unfold Tables.bestOrNull, highestOrNull.
  destruct l as [| x l]; [reflexivity |].
  cbn [List.length Nat.ltb Nat.leb].
  apply maxOf_highest; [discriminate | now apply positive_notNaNs].
Qed.

(** The performance trend of a driver has one point for each date of the
    driver's races, in chronological order when the dates can be read.
    Its races are the races of that date, which add up to the driver's
    races, and its wins are among them; its ET and reaction time are the
    least, and its MPH the greatest, of the values [> 0] of that date,
    and null without such a value. *)
Theorem driver_trend_by_date
  (getTime : string -> num) (driverRaces : list RaceRecord)
  (Hdate : forall race, In race driverRaces -> notNaN (getTime (Date race))) :
  (forall p, In p (Tables.performanceData getTime driverRaces) <->
     groupOf Date (Tables.t_date p) driverRaces <> [] /\
     p = trendOfDate (Tables.t_date p) driverRaces) /\
  NoDup (map Tables.t_date (Tables.performanceData getTime driverRaces)) /\
  list_sum (map Tables.t_races (Tables.performanceData getTime driverRaces))
  = List.length driverRaces /\
  (forall p, In p (Tables.performanceData getTime driverRaces) ->
     let g := groupOf Date (Tables.t_date p) driverRaces in
     Tables.t_races p = List.length g /\
     Tables.t_wins p <= Tables.t_races p /\
     lowestOrNull (Tables.t_et p) (Drivers.samples ET g) /\
     highestOrNull (Tables.t_mph p) (Drivers.samples MPH g) /\
     lowestOrNull (Tables.t_reaction p) (Drivers.samples Reaction g)) /\
  sortedAscending (fun p => getTime (Tables.t_date p))
    (Tables.performanceData getTime driverRaces).
Proof.
  assert (Hin : forall p,
     In p (map Tables.trendPoint
             (Charts.ownEntries (Tables.racesByDate driverRaces))) <->
     groupOf Date (Tables.t_date p) driverRaces <> [] /\
     p = trendOfDate (Tables.t_date p) driverRaces).
  { intros p. rewrite in_map_iff. split.
    - intros [[k g] [<- Hkg]]. apply ownEntries_In, racesByDate_In in Hkg.
      destruct Hkg as [Hne ->]. cbn [Tables.trendPoint Tables.t_date].
      split; [assumption | reflexivity].
    - intros [Hne Hp].
      exists (Tables.t_date p, groupOf Date (Tables.t_date p) driverRaces).
      split; [now rewrite Hp at 3 |].
      apply ownEntries_In, racesByDate_In. now split. }
  assert (Hperm : Permutation
     (Tables.performanceData getTime driverRaces)
     (map Tables.trendPoint (Tables.racesByDate driverRaces))).
  { unfold Tables.performanceData.
    eapply Permutation_trans; [apply sort_perm |].
    apply Permutation_map, ownEntries_perm. }
  split; [| split; [| split; [| split]]].
  - intros p. unfold Tables.performanceData. rewrite sort_In. apply Hin.
  - eapply Permutation_NoDup.
    + symmetry. apply Permutation_map. exact Hperm.
    + rewrite map_map.
      replace (map (fun x => Tables.t_date (Tables.trendPoint x))
                 (Tables.racesByDate driverRaces))
        with (map fst (Tables.racesByDate driverRaces))
        by (apply map_ext; now intros [k g]).
      apply (groupFold_NoDup Date (fun _ : RaceRecord => @nil RaceRecord)
               (fun race races => races ++ [race])).
  - rewrite (list_sum_perm (Permutation_map Tables.t_races Hperm)).
    rewrite map_map.
    replace (map (fun x => Tables.t_races (Tables.trendPoint x))
               (Tables.racesByDate driverRaces))
      with (map (@List.length RaceRecord)
              (map snd (Tables.racesByDate driverRaces)))
      by (rewrite map_map; apply map_ext; now intros [k g]).
    rewrite <- values_sum.
    apply (groupFold_sum (@List.length RaceRecord) Date
             (fun _ : RaceRecord => @nil RaceRecord)
             (fun race races => races ++ [race])).
    + intros r v. rewrite length_app. reflexivity.
    + reflexivity.
  - intros p Hp g. unfold Tables.performanceData in Hp.
    rewrite sort_In in Hp. apply Hin in Hp. destruct Hp as [_ Hp].
    subst g. remember (Tables.t_date p) as d eqn:Hd. clear Hd. subst p.
    unfold trendOfDate.
    cbn [Tables.trendPoint Tables.t_races Tables.t_wins Tables.t_et
         Tables.t_mph Tables.t_reaction].
    split; [reflexivity |]. split; [apply filter_length_le |].
    split; [| split].
    + apply bestOrNull_lowest, samples_positive.
    + apply bestOrNull_highest, samples_positive.
    + apply bestOrNull_lowest, samples_positive.
  - unfold Tables.performanceData.
    apply sort_ascending. apply Forall_forall. intros p Hp.
    apply Hin in Hp. destruct Hp as [Hne _].
    destruct (groupOf Date (Tables.t_date p) driverRaces) as [| r g] eqn:E;
      [congruence |].
    rewrite <- (@groupOf_head _ Date (Tables.t_date p) driverRaces g r E).
    apply Hdate.
    assert (Hr : In r (groupOf Date (Tables.t_date p) driverRaces))
      by (rewrite E; now left).
    unfold groupOf in Hr. now apply filter_In in Hr.
Qed.

Lemma driver_trend_by_date_witness :
  (forall p, In p (Tables.performanceData Samples.isoTime Samples.fourRuns)
     <-> groupOf Date (Tables.t_date p) Samples.fourRuns <> [] /\
         p = trendOfDate (Tables.t_date p) Samples.fourRuns) /\
  NoDup (map Tables.t_date
           (Tables.performanceData Samples.isoTime Samples.fourRuns)) /\
  list_sum (map Tables.t_races
              (Tables.performanceData Samples.isoTime Samples.fourRuns))
  = List.length Samples.fourRuns /\
  (forall p, In p (Tables.performanceData Samples.isoTime Samples.fourRuns) ->
     let g := groupOf Date (Tables.t_date p) Samples.fourRuns in
     Tables.t_races p = List.length g /\
     Tables.t_wins p <= Tables.t_races p /\
     lowestOrNull (Tables.t_et p) (Drivers.samples ET g) /\
     highestOrNull (Tables.t_mph p) (Drivers.samples MPH g) /\
     lowestOrNull (Tables.t_reaction p) (Drivers.samples Reaction g)) /\
  sortedAscending (fun p => Samples.isoTime (Tables.t_date p))
    (Tables.performanceData Samples.isoTime Samples.fourRuns).
Proof.
  apply (@driver_trend_by_date Samples.isoTime Samples.fourRuns).
  intros race H. simpl in H.
  destruct H as [<- | [<- | [<- | [<- | []]]]]; vm_compute; discriminate.
Defined.

Lemma same_date_not_after (getTime : string -> num) (x y : RaceRecord) :
  Date x = Date y ->
  after (Statistics.descending (fun r => getTime (Date r))) x y = false.
Proof.
  intros E. unfold after, Statistics.descending. rewrite E.
  destruct (sub_self (getTime (Date y))) as [-> | ->]; reflexivity.
Qed.

Lemma leb_not_gtb (x y : num) : leb x y = true -> gtb x y = false.
Proof.
  unfold leb, gtb. destruct (compare x y) as [[| |] |]; congruence.
Qed.

(** Sorting again a list that the comparator already has in order gives
    the same list. *)
Lemma sort_of_sorted (A : Type) (compareFn : A -> A -> num) (l : list A) :
  StronglySorted (fun a b => after compareFn a b = false) l ->
  sort compareFn l = l.
Proof.
  induction 1 as [| x l Hs IH Hx]; [reflexivity |].
  cbn [sort fold_right]. fold (sort compareFn l). rewrite IH.
  destruct l as [| y l']; [reflexivity |].
  inversion Hx as [| ? ? Hxy _]; subst. cbn [insert]. now rewrite Hxy.
Qed.

(** The race history lists the races of the rollup newest first, those of
    one date in the order of the data; the table sorts the stored history
    at each rendering, and sorting it again leaves it as it is. *)
Theorem race_history_newest_first
  (getTime : string -> num) (raceHistory : list RaceRecord)
  (Hdate : forall race, In race raceHistory -> notNaN (getTime (Date race))) :
  Permutation (Tables.raceHistoryRows getTime raceHistory) raceHistory /\
  sortedDescending (fun r => getTime (Date r))
    (Tables.raceHistoryRows getTime raceHistory) /\
  (forall d, groupOf Date d (Tables.raceHistoryRows getTime raceHistory)
             = groupOf Date d raceHistory) /\
  Tables.raceHistoryRows getTime
    (Tables.raceHistoryRows getTime raceHistory)
  = Tables.raceHistoryRows getTime raceHistory.
Proof.
  assert (Hsorted : sortedDescending (fun r => getTime (Date r))
            (Tables.raceHistoryRows getTime raceHistory)).
  { apply sort_descending. apply Forall_forall. exact Hdate. }
  split; [apply sort_perm | split; [exact Hsorted | split]].
  - intros d. unfold groupOf, Tables.raceHistoryRows. apply sort_stable.
    intros x y Hx Hy. apply String.eqb_eq in Hx, Hy.
    apply same_date_not_after. congruence.
  - unfold Tables.raceHistoryRows at 1. apply sort_of_sorted.
    assert (Hall : Forall (fun r => notNaN (getTime (Date r)))
              (Tables.raceHistoryRows getTime raceHistory)).
    { apply Forall_forall. intros r Hr. apply Hdate.
      unfold Tables.raceHistoryRows in Hr. now apply sort_In in Hr. }
    unfold sortedDescending in Hsorted.
    induction Hsorted as [| x l Hs IH Hx]; constructor.
    + apply IH. now inversion Hall.
    + inversion Hall as [| ? ? Nx Nl]; subst.
      rewrite Forall_forall in *. intros y Hy.
      unfold after, Statistics.descending.
      rewrite gtb_sub; [| now apply Nl | exact Nx].
      apply leb_not_gtb. now apply Hx.
Qed.

Lemma race_history_newest_first_witness :
  Permutation (Tables.raceHistoryRows Samples.isoTime Samples.fourRuns)
    Samples.fourRuns /\
  sortedDescending (fun r => Samples.isoTime (Date r))
    (Tables.raceHistoryRows Samples.isoTime Samples.fourRuns) /\
  (forall d, groupOf Date d
               (Tables.raceHistoryRows Samples.isoTime Samples.fourRuns)
             = groupOf Date d Samples.fourRuns) /\
  Tables.raceHistoryRows Samples.isoTime
    (Tables.raceHistoryRows Samples.isoTime Samples.fourRuns)
  = Tables.raceHistoryRows Samples.isoTime Samples.fourRuns.
Proof.
  apply (@race_history_newest_first Samples.isoTime Samples.fourRuns).
  intros race H. simpl in H.
  destruct H as [<- | [<- | [<- | [<- | []]]]]; vm_compute; discriminate.
Defined.
End DriverTrend.

(* ================================================================== *)
(** ** The generator: shuffle, bracket and results                     *)
(* ================================================================== *)

Section Shuffle.
Import JS Spec Generator.
Variable X : Type.

Lemma update_length (i : nat) (v : X) (a : list X) :
  List.length (update i v a) = List.length a.
Proof.
  revert i. induction a as [| x a IH]; intros [| i]; simpl; auto.
Qed.

Lemma update_perm (j : nat) (x y : X) (a : list X) :
  nth_error a j = Some y -> Permutation (y :: update j x a) (x :: a).
Proof.
  revert j. induction a as [| z a IH]; intros [| j] H; simpl in *;
    try discriminate.
  - injection H as ->. apply perm_swap.
  - eapply Permutation_trans; [apply perm_swap |].
    eapply Permutation_trans; [apply perm_skip, (IH _ H) |].
    apply perm_swap.
Qed.

Lemma swap_perm (i j : nat) (a : list X) : Permutation (swap i j a) a.
Proof.
  revert i j. induction a as [| z a IH]; intros i j.
  - unfold swap. destruct i, j; reflexivity.
  - unfold swap. destruct i as [| i], j as [| j]; cbn [nth_error].
    + reflexivity.
    + destruct (nth_error a j) as [y |] eqn:E; [| reflexivity].
      cbn [update]. now apply update_perm.
    + destruct (nth_error a i) as [x |] eqn:E; [| reflexivity].
      cbn [update]. now apply update_perm.
    + specialize (IH i j). unfold swap in IH.
      destruct (nth_error a i) as [x |], (nth_error a j) as [y |];
        try reflexivity.
      cbn [update]. now apply perm_skip.
Qed.

Lemma shuffleFrom_spec (random : nat -> Q) (i : nat) (a : list X) (k : nat) :
  Permutation (fst (shuffleFrom random i a k)) a /\
  snd (shuffleFrom random i a k) = k + i.
Proof.
  revert a k. induction i as [| i IH]; intros a k; cbn [shuffleFrom].
  - split; [reflexivity | simpl; lia].
  - destruct (IH (swap (S i) (drawIndex random (S i) k) a) (S k))
      as [Hp Hk].
    split; [| lia].
    eapply Permutation_trans; [exact Hp | apply swap_perm].
Qed.

Lemma shuffle_spec (random : nat -> Q) (a : list X) (k : nat) :
  Permutation (fst (shuffle random a k)) a /\
  snd (shuffle random a k) = k + (List.length a - 1).
Proof. apply shuffleFrom_spec. Qed.
End Shuffle.

Section DrawFacts.
Import JS Spec Generator.
Variable random : nat -> Q.
Hypothesis Hrand : unitInterval random.

Lemma drawIndex_le (i k : nat) : drawIndex random i k <= i.
Proof.
  unfold drawIndex. destruct (Hrand k) as [H0 H1].
  set (n := inject_Z (Z.of_nat (i + 1))).
  assert (Hn : (0 < n)%Q) by (apply ofNat_pos; lia).
  assert (Hlt : (Qfloor (random k * n) < Z.of_nat (i + 1))%Z).
  { rewrite Zlt_Qlt. fold n.
    eapply Qle_lt_trans; [apply Qfloor_le |]. nra. }
  assert (Hge : (0 <= Qfloor (random k * n))%Z).
  { change 0%Z with (Qfloor 0). apply Qfloor_resp_le. nra. }
  lia.
Qed.
End DrawFacts.

Section Measures.
Import JS Spec Generator.
Variable random : nat -> Q.
Hypothesis Hrand : unitInterval random.

Lemma scale_pos (d : nat) : (0 < inject_Z (10 ^ Z.of_nat d))%Q.
Proof.
  change 0%Q with (inject_Z 0). rewrite <- Zlt_Qlt.
  apply Z.pow_pos_nonneg; lia.
Qed.

(** Rounding to [d] decimals keeps a number within bounds that have [d]
    decimals themselves. *)
Lemma toFixed_between (d : nat) (x lo hi : Q) :
  (0 <= x)%Q -> (lo <= x)%Q -> (x <= hi)%Q ->
  (exists z, lo * inject_Z (10 ^ Z.of_nat d) == inject_Z z)%Q ->
  (exists z, hi * inject_Z (10 ^ Z.of_nat d) == inject_Z z)%Q ->
  between lo hi (toFixed d (Fin x)).
Proof.
  intros H0 Hlo Hhi [zlo Elo] [zhi Ehi].
  pose proof (scale_pos d) as Hs.
  set (s := inject_Z (10 ^ Z.of_nat d)) in *.
  assert (Hfloor : (zlo <= Qfloor (x * s + (1 # 2)))%Z /\
                   (Qfloor (x * s + (1 # 2)) <= zhi)%Z).
  { split.
    - rewrite <- (Qfloor_Z zlo). apply Qfloor_resp_le.
      rewrite <- Elo. nra.
    - assert (H : (Qfloor (x * s + (1 # 2)) < zhi + 1)%Z); [| lia].
      rewrite Zlt_Qlt.
      eapply Qle_lt_trans; [apply Qfloor_le |].
      rewrite inject_Z_plus, <- Ehi. change (inject_Z 1) with 1%Q. nra. }
  destruct Hfloor as [F1 F2].
  rewrite Zle_Qle in F1, F2. rewrite <- Elo in F1. rewrite <- Ehi in F2.
  unfold toFixed. fold s.
  assert (Hres : between lo hi
            (Fin (Qred (inject_Z (Qfloor (x * s + (1 # 2))) / s)))).
  { eexists. split; [reflexivity |]. rewrite Qred_correct. split.
    - now apply Qle_shift_div_l.
    - now apply Qle_shift_div_r. }
  destruct (Qcompare_spec x 0) as [E | E | E]; try exact Hres.
  lra.
Qed.

Lemma draw_between (scale offset : Q) (d k : nat) (lo hi : Q) :
  (0 <= scale)%Q -> (0 <= lo)%Q -> (lo <= offset)%Q ->
  (offset + scale <= hi)%Q ->
  (exists z, lo * inject_Z (10 ^ Z.of_nat d) == inject_Z z)%Q ->
  (exists z, hi * inject_Z (10 ^ Z.of_nat d) == inject_Z z)%Q ->
  between lo hi (draw random scale offset d k).
Proof.
  intros Hsc H0 Hlo Hhi Zlo Zhi. destruct (Hrand k) as [R0 R1].
  unfold draw, mul, add.
  apply toFixed_between; try assumption; rewrite !Qred_correct; nra.
Qed.

Lemma generated_measured (driver : Entrant) (opponent : option Entrant)
  (date : string) (raceNumber k : nat) :
  measured (fst (generateRaceData random driver opponent date raceNumber k)).
Proof.
  unfold measured, generateRaceData.
  cbn [fst reaction sixtyFt threethirtyFt eighthET eighthMPH].
  repeat split.
  - apply draw_between; try (unfold Qle; simpl; lia).
    + now exists 10%Z.
    + now exists 5010%Z.
  - apply draw_between; try (unfold Qle; simpl; lia).
    + now exists 10000%Z.
    + now exists 25000%Z.
  - apply draw_between; try (unfold Qle; simpl; lia).
    + now exists 40000%Z.
    + now exists 60000%Z.
  - apply draw_between; try (unfold Qle; simpl; lia).
    + now exists 70000%Z.
    + now exists 90000%Z.
  - apply draw_between; try (unfold Qle; simpl; lia).
    + now exists 9000%Z.
    + now exists 18000%Z.
Qed.
End Measures.

Lemma map_constant (A B : Type) (f : A -> B) (b : B) (l : list A) :
  Forall (fun a => f a = b) l -> map f l = repeat b (List.length l).
Proof.
  induction 1 as [| a l Ha _ IH]; simpl; [reflexivity |].
  now rewrite Ha, IH.
Qed.

Section Bracket.
Import JS Spec Generator.
Variable random : nat -> Q.
Hypothesis Hrand : unitInterval random.

Lemma pairs_ind (A : Type) (P : list A -> Prop) :
  P [] -> (forall a b l, P l -> P (a :: b :: l)) ->
  forall l, Nat.even (List.length l) = true -> P l.
Proof.
  intros H0 H2.
  assert (H : forall l,
            (Nat.even (List.length l) = true -> P l) /\
            (forall a, Nat.even (List.length (a :: l)) = true -> P (a :: l))).
  { induction l as [| x l [IH1 IH2]].
    - split; [auto | intros a Ha; discriminate Ha].
    - split; [apply IH2 |]. intros a Ha. apply H2, IH1. exact Ha. }
  intros l. apply H.
Qed.

Lemma entrantOf_generated (w : string) (d : Entrant) (o : option Entrant)
  (date : string) (n k : nat) :
  entrantOf (withResult w (fst (generateRaceData random d o date n k))) = d.
Proof. now destruct d. Qed.

Lemma alive_snoc (round : list (option Entrant)) (o : option Entrant) :
  alive (round ++ [o])
  = alive round ++ match o with Some e => [e] | None => [] end.
Proof. unfold alive. rewrite flat_map_app. simpl. now rewrite app_nil_r. Qed.

Lemma losers_app (l l' : list Race) : losers (l ++ l') = losers l ++ losers l'.
Proof. unfold losers. now rewrite filter_app, map_app. Qed.

Lemma bracketLog_app (date : string) (n m p : nat) (l l' : list Race) :
  bracketLog date n l m -> bracketLog date m l' p ->
  bracketLog date n (l ++ l') p.
Proof.
  induction 1 as [n | n r rest m Hr _ IH | n r1 r2 rest m Hr _ IH];
    intros H'; simpl.
  - assumption.
  - apply log_bye; auto.
  - apply log_pair; auto.
Qed.

Lemma draw_finite (scale offset : Q) (d k : nat) :
  finite (draw random scale offset d k).
Proof.
  unfold draw, mul, add, toFixed.
  destruct (_ ?= 0)%Q; eexists; reflexivity.
Qed.

Lemma not_ltb_leb (x y : num) :
  finite x -> finite y -> ltb x y = false -> leb y x = true.
Proof.
  intros [a ->] [b ->]. unfold ltb, leb, compare.
  rewrite <- (Qcompare_antisym a b). now destruct (a ?= b)%Q.
Qed.

Lemma playRound_spec (date : string) (cur : list (option Entrant)) :
  Nat.even (List.length cur) = true ->
  forall next res n k,
  exists next' added n' k',
    playRound random date cur next res n k
    = Some (next', res ++ added, n', k') /\
    roundOutcome date cur next n k next' added n' k'.
Proof.
  intros Heven. pattern cur. revert cur Heven. apply pairs_ind.
  - intros next res n k. exists next, [], n, k. cbn [playRound].
    rewrite app_nil_r. split; [reflexivity |].
    unfold roundOutcome. cbn [map nextPlaces roundRecords List.length alive
                              flat_map losers filter].
    rewrite !app_nil_r. repeat split; try lia; try constructor.
    reflexivity.
  - intros a b l IH next res n k. cbn [playRound].
    destruct a as [d1 |], b as [d2 |].
    + (* a race *)
      unfold generateRaceData at 1 2.
      set (r1 := {| driver := name d1; carNo := e_carNo d1; date := date;
                    raceNumber := n;
                    reaction := draw random (1 # 2) (1 # 1000) 4 k;
                    sixtyFt := draw random (3 # 2) 1 4 (k + 1);
                    threethirtyFt := draw random 2 4 4 (k + 2);
                    eighthET := draw random 2 7 4 (k + 3);
                    eighthMPH := draw random 90 90 2 (k + 4);
                    opponent := name d2; opponentCarNo := e_carNo d2;
                    winLoss := "TBD" |}).
      set (r2 := {| driver := name d2; carNo := e_carNo d2; date := date;
                    raceNumber := n;
                    reaction := draw random (1 # 2) (1 # 1000) 4 (k + 5);
                    sixtyFt := draw random (3 # 2) 1 4 (k + 5 + 1);
                    threethirtyFt := draw random 2 4 4 (k + 5 + 2);
                    eighthET := draw random 2 7 4 (k + 5 + 3);
                    eighthMPH := draw random 90 90 2 (k + 5 + 4);
                    opponent := name d1; opponentCarNo := e_carNo d1;
                    winLoss := "TBD" |}).
      assert (M1 : measured r1)
        by apply (generated_measured Hrand d1 (Some d2) date n k).
      assert (M2 : measured r2)
        by apply (generated_measured Hrand d2 (Some d1) date n (k + 5)).
      assert (E1 : entrantOf r1 = d1) by now destruct d1.
      assert (E2 : entrantOf r2 = d2) by now destruct d2.
      destruct (ltb (eighthET r1) (eighthET r2)) eqn:Hlt.
      * destruct (IH (next ++ [Some d1])
                    (res ++ [withResult "Win" r1; withResult "Loss" r2])
                    (S n) (k + 5 + 5))
          as (next' & added & n' & k' & Hrun & Hm & Hl & Hk & Hp & Hlog & Hms).
        exists next', (withResult "Win" r1 :: withResult "Loss" r2 :: added),
          n', k'.
        split.
        { rewrite Hrun. now rewrite <- app_assoc. }
        unfold roundOutcome. split; [| split; [| split; [| split; [| split]]]].
        -- rewrite Hm, map_app, <- app_assoc. reflexivity.
        -- cbn [List.length map isSome nextPlaces roundRecords andb].
           rewrite Hl. lia.
        -- cbn [List.length]. lia.
        -- rewrite alive_snoc in Hp.
           change (losers (withResult "Win" r1 :: withResult "Loss" r2
                           :: added))
             with (entrantOf r2 :: losers added).
           rewrite E2.
           change (alive (Some d1 :: Some d2 :: l))
             with (d1 :: d2 :: alive l).
           eapply Permutation_trans; [symmetry; apply Permutation_middle |].
           replace (alive next ++ d1 :: d2 :: alive l)
             with ((alive next ++ [d1]) ++ d2 :: alive l)
             by (now rewrite <- app_assoc).
           now apply Permutation_cons_app.
        -- apply log_pair; [| assumption].
           unfold pairRace, opposed, r1, r2.
           cbn [withResult Generator.date raceNumber opponent opponentCarNo driver
                carNo winLoss eighthET].
           repeat split. left. repeat split. exact Hlt.
        -- constructor; [exact M1 |]. constructor; [exact M2 | assumption].
      * destruct (IH (next ++ [Some d2])
                    (res ++ [withResult "Loss" r1; withResult "Win" r2])
                    (S n) (k + 5 + 5))
          as (next' & added & n' & k' & Hrun & Hm & Hl & Hk & Hp & Hlog & Hms).
        exists next', (withResult "Loss" r1 :: withResult "Win" r2 :: added),
          n', k'.
        split.
        { rewrite Hrun. now rewrite <- app_assoc. }
        unfold roundOutcome. split; [| split; [| split; [| split; [| split]]]].
        -- rewrite Hm, map_app, <- app_assoc. reflexivity.
        -- cbn [List.length map isSome nextPlaces roundRecords andb].
           rewrite Hl. lia.
        -- cbn [List.length]. lia.
        -- rewrite alive_snoc in Hp.
           change (losers (withResult "Loss" r1 :: withResult "Win" r2
                           :: added))
             with (entrantOf r1 :: losers added).
           rewrite E1.
           change (alive (Some d1 :: Some d2 :: l))
             with (d1 :: d2 :: alive l).
           eapply Permutation_trans; [symmetry; apply Permutation_middle |].
           apply Permutation_cons_app.
           now rewrite <- app_assoc in Hp.
        -- apply log_pair; [| assumption].
           unfold pairRace, opposed, r1, r2.
           cbn [withResult Generator.date raceNumber opponent opponentCarNo driver
                carNo winLoss eighthET].
           repeat split. right.
           repeat split. apply not_ltb_leb; try apply draw_finite.
           exact Hlt.
        -- constructor; [exact M1 |]. constructor; [exact M2 | assumption].
    + (* the second place is a bye *)
      unfold generateRaceData at 1.
      set (r1 := {| driver := name d1; carNo := e_carNo d1; date := date;
                    raceNumber := n;
                    reaction := draw random (1 # 2) (1 # 1000) 4 k;
                    sixtyFt := draw random (3 # 2) 1 4 (k + 1);
                    threethirtyFt := draw random 2 4 4 (k + 2);
                    eighthET := draw random 2 7 4 (k + 3);
                    eighthMPH := draw random 90 90 2 (k + 4);
                    opponent := "Bye"; opponentCarNo := "N/A";
                    winLoss := "TBD" |}).
      assert (M1 : measured r1)
        by apply (generated_measured Hrand d1 None date n k).
      destruct (IH (next ++ [Some d1]) (res ++ [withResult "Win" r1])
                  (S n) (k + 5))
        as (next' & added & n' & k' & Hrun & Hm & Hl & Hk & Hp & Hlog & Hms).
      exists next', (withResult "Win" r1 :: added), n', k'.
      split.
      { rewrite Hrun. now rewrite <- app_assoc. }
      unfold roundOutcome. split; [| split; [| split; [| split; [| split]]]].
      * rewrite Hm, map_app, <- app_assoc. reflexivity.
      * cbn [List.length map isSome nextPlaces roundRecords andb orb].
        rewrite Hl. lia.
      * cbn [List.length]. lia.
      * rewrite alive_snoc in Hp.
        change (losers (withResult "Win" r1 :: added)) with (losers added).
        change (alive (Some d1 :: None :: l)) with (d1 :: alive l).
        now rewrite <- app_assoc in Hp.
      * apply log_bye; [| assumption]. unfold byeRace, r1.
        cbn [withResult Generator.date raceNumber opponent opponentCarNo winLoss].
        auto.
      * constructor; [exact M1 | assumption].
    + (* the first place is a bye *)
      unfold generateRaceData at 1.
      set (r2 := {| driver := name d2; carNo := e_carNo d2; date := date;
                    raceNumber := n;
                    reaction := draw random (1 # 2) (1 # 1000) 4 k;
                    sixtyFt := draw random (3 # 2) 1 4 (k + 1);
                    threethirtyFt := draw random 2 4 4 (k + 2);
                    eighthET := draw random 2 7 4 (k + 3);
                    eighthMPH := draw random 90 90 2 (k + 4);
                    opponent := "Bye"; opponentCarNo := "N/A";
                    winLoss := "TBD" |}).
      assert (M2 : measured r2)
        by apply (generated_measured Hrand d2 None date n k).
      destruct (IH (next ++ [Some d2]) (res ++ [withResult "Win" r2])
                  (S n) (k + 5))
        as (next' & added & n' & k' & Hrun & Hm & Hl & Hk & Hp & Hlog & Hms).
      exists next', (withResult "Win" r2 :: added), n', k'.
      split.
      { rewrite Hrun. now rewrite <- app_assoc. }
      unfold roundOutcome. split; [| split; [| split; [| split; [| split]]]].
      * rewrite Hm, map_app, <- app_assoc. reflexivity.
      * cbn [List.length map isSome nextPlaces roundRecords andb orb].
        rewrite Hl. lia.
      * cbn [List.length]. lia.
      * rewrite alive_snoc in Hp.
        change (losers (withResult "Win" r2 :: added)) with (losers added).
        change (alive (None :: Some d2 :: l)) with (d2 :: alive l).
        now rewrite <- app_assoc in Hp.
      * apply log_bye; [| assumption]. unfold byeRace, r2.
        cbn [withResult Generator.date raceNumber opponent opponentCarNo winLoss].
        auto.
      * constructor; [exact M2 | assumption].
    + (* two byes *)
      destruct (IH (next ++ [None]) res n k)
        as (next' & added & n' & k' & Hrun & Hm & Hl & Hk & Hp & Hlog & Hms).
      exists next', added, n', k'. split; [exact Hrun |].
      unfold roundOutcome. split; [| split; [| split; [| split; [| split]]]];
        try assumption.
      * rewrite Hm, map_app, <- app_assoc. reflexivity.
      * rewrite alive_snoc, app_nil_r in Hp. exact Hp.
Qed.

Lemma halves_ind (P : list bool -> Prop) :
  P [] -> (forall a, P [a]) -> (forall a b l, P l -> P (a :: b :: l)) ->
  forall l, P l.
Proof.
  intros H0 H1 H2.
  assert (H : forall l, P l /\ forall a, P (a :: l)).
  { induction l as [| x l [IH1 IH2]]; [now split |].
    split; [apply IH2 |]. intros a. now apply H2. }
  intros l. apply H.
Qed.

Lemma nextPlaces_length (p : list bool) :
  List.length (nextPlaces p) = Nat.div2 (List.length p).
Proof.
  induction p as [| a | a b l IH] using halves_ind; try reflexivity.
  cbn [nextPlaces List.length Nat.div2]. now rewrite IH.
Qed.

Lemma nextPlaces_true (p : list bool) :
  Nat.even (List.length p) = true -> In true p -> In true (nextPlaces p).
Proof.
  induction p as [| a | a b l IH] using halves_ind.
  - intros _ [].
  - discriminate.
  - intros He Hin. cbn [nextPlaces].
    destruct a; [now left |]. destruct b; [now left |].
    right. apply IH; [exact He |].
    destruct Hin as [H | [H | H]]; try discriminate. exact H.
Qed.

Lemma alive_nonempty (round : list (option Entrant)) :
  alive round <> [] <-> In true (map (@isSome Entrant) round).
Proof.
  induction round as [| [e |] round IH]; simpl.
  - split; [congruence | tauto].
  - split; [auto | discriminate].
  - rewrite IH. split; [auto | intros [H | H]; [discriminate | exact H]].
Qed.

Lemma alive_somes (l : list Entrant) (p : nat) :
  alive (map Some l ++ repeat None p) = l.
Proof.
  unfold alive. rewrite flat_map_app.
  replace (flat_map _ (repeat None p)) with (@nil Entrant)
    by (induction p; simpl; auto).
  rewrite app_nil_r. induction l as [| x l IH]; simpl; [reflexivity |].
  now rewrite IH.
Qed.

Lemma places_of_bracket (l : list Entrant) (p : nat) :
  map (@isSome Entrant) (map Some l ++ repeat None p)
  = repeat true (List.length l) ++ repeat false p.
Proof.
  rewrite map_app. f_equal.
  - induction l as [| x l IH]; simpl; [reflexivity |]. now rewrite IH.
  - induction p as [| p IH]; simpl; [reflexivity |]. now rewrite IH.
Qed.

Lemma rounds_spec (date : string) (m : nat) :
  forall fuel cur res n k,
  List.length cur = 2 ^ m -> m <= fuel ->
  exists final added k',
    rounds random fuel date cur res n k = Some (res ++ added, k') /\
    bracketOutcome date fuel cur n k final added k'.
Proof.
  induction m as [| m IH]; intros fuel cur res n k Hlen Hfuel.
  - exists cur, [], k. cbn [Nat.pow] in Hlen.
    assert (Hrun : rounds random fuel date cur res n k = Some (res, k))
      by (destruct fuel; cbn [rounds]; now rewrite Hlen).
    assert (Hrec : bracketRecords fuel (map (@isSome Entrant) cur) = 0)
      by (destruct fuel; cbn [bracketRecords]; now rewrite length_map, Hlen).
    rewrite app_nil_r. split; [exact Hrun |].
    unfold bracketOutcome. rewrite Hrec. cbn [losers filter map List.length].
    rewrite app_nil_r.
    repeat split; auto; try lia.
    exists n. constructor.
  - destruct fuel as [| fuel]; [lia |].
    assert (Hpow : 2 ^ S m = 2 * 2 ^ m) by apply Nat.pow_succ_r'.
    assert (Hpos : 0 < 2 ^ m) by (pose proof (Nat.pow_nonzero 2 m); lia).
    assert (Hbig : (List.length cur <=? 1) = false)
      by (apply Nat.leb_gt; lia).
    assert (Heven : Nat.even (List.length cur) = true)
      by (rewrite Hlen, Hpow, Nat.even_mul; reflexivity).
    destruct (playRound_spec date cur Heven [] res n k)
      as (next' & added1 & n1 & k1 & Hrun1 & Hm & Hl1 & Hk1 & Hp1 & Hlog1
          & Hms1).
    cbn [map app alive flat_map] in Hm, Hp1.
    assert (Hlen' : List.length next' = 2 ^ m).
    { rewrite <- (length_map (@isSome Entrant)), Hm, nextPlaces_length,
        length_map, Hlen, Hpow.
      apply Nat.div2_double. }
    destruct (IH fuel next' (res ++ added1) n1 k1 Hlen' ltac:(lia))
      as (final & added2 & k2 & Hrun2 & Hf & Hne & Hp2 & [n2 Hlog2] & Hms2
          & Hl2 & Hk2).
    exists final, (added1 ++ added2), k2. split.
    { cbn [rounds]. rewrite Hbig, Hrun1, Hrun2. now rewrite <- app_assoc. }
    unfold bracketOutcome.
    split; [exact Hf |]. split; [| split; [| split; [| split; [| split]]]].
    + intros Hcur. apply Hne. apply alive_nonempty. rewrite Hm.
      apply nextPlaces_true; [now rewrite length_map |].
      now apply alive_nonempty.
    + rewrite losers_app.
      eapply Permutation_trans; [| exact Hp1].
      eapply Permutation_trans;
        [apply Permutation_app_head, Permutation_app_comm |].
      rewrite app_assoc. now apply Permutation_app_tail.
    + exists n2. now apply bracketLog_app with n1.
    + apply Forall_app. now split.
    + cbn [bracketRecords]. rewrite length_map, Hbig, length_app.
      rewrite Hl1, Hl2, Hm. reflexivity.
    + rewrite length_app. lia.
Qed.

Lemma requiredDrivers_spec (n : nat) :
  0 < n ->
  requiredDrivers n = 2 ^ Nat.log2_up n /\ n <= requiredDrivers n.
Proof.
  intros Hn. unfold requiredDrivers.
  destruct (Nat.eqb_spec n 0) as [E | E]; [lia |].
  split; [reflexivity |].
  destruct (Nat.eq_dec n 1) as [-> | H1]; [simpl; lia |].
  apply Nat.log2_up_spec. lia.
Qed.

Lemma tournament_spec (entrants : list Entrant) (date : string) (k : nat) :
  exists results k',
    simulateTournamentOf random entrants date k = Some (results, k') /\
    eventOutcome entrants date k results k'.
Proof.
  unfold simulateTournamentOf, bracket.
  destruct (shuffle_spec random entrants k) as [Hperm Hk].
  destruct (shuffle random entrants k) as [shuffled k1].
  cbn [fst snd] in Hperm, Hk.
  pose proof (Permutation_length Hperm) as Hlen. rewrite Hlen.
  set (size := requiredDrivers (List.length entrants)).
  set (cur := map Some shuffled ++ repeat None (size - List.length entrants)).
  assert (Halive : alive cur = shuffled) by apply alive_somes.
  assert (Hplaces : map (@isSome Entrant) cur
                    = repeat true (List.length entrants)
                      ++ repeat false (size - List.length entrants))
    by (unfold cur; now rewrite places_of_bracket, Hlen).
  destruct entrants as [| e entrants].
  - apply Permutation_sym, Permutation_nil in Hperm. subst shuffled.
    exists [], k1. split; [reflexivity |].
    unfold eventOutcome. cbn [List.length] in *.
    repeat split; try constructor; try lia; try congruence.
    exists 1. constructor.
  - destruct (@requiredDrivers_spec (List.length (e :: entrants)))
      as [Hsize Hge]; [simpl; lia |].
    fold size in Hsize, Hge.
    assert (Hcur : List.length cur = 2 ^ Nat.log2_up (List.length (e :: entrants))).
    { unfold cur. rewrite length_app, length_map, repeat_length, Hlen. lia. }
    destruct (@rounds_spec date (Nat.log2_up (List.length (e :: entrants)))
                (List.length cur) cur [] 1 k1 Hcur)
      as (final & added & k2 & Hrun & Hf & Hne & Hp & Hlog & Hms & Hl & Hk2).
    { rewrite Hcur. apply Nat.lt_le_incl, Nat.pow_gt_lin_r. lia. }
    exists added, k2. split; [exact Hrun |].
    unfold eventOutcome.
    split; [exact Hlog |]. split; [exact Hms |].
    split; [| split].
    + rewrite Hl, Hplaces. unfold eventRecords. fold size.
      unfold cur. rewrite length_app, length_map, repeat_length, Hlen.
      replace (List.length (e :: entrants) + (size - List.length (e :: entrants)))
        with size by lia.
      reflexivity.
    + lia.
    + intros _.
      destruct final as [| x [| y final]]; try discriminate Hf.
      destruct x as [champion |].
      * exists champion.
        eapply Permutation_trans; [exact Hp |].
        now rewrite Halive.
      * exfalso. apply Hne; [| reflexivity].
        rewrite Halive. intros E. rewrite E in Hperm.
        apply Permutation_nil in Hperm. discriminate.
Qed.

Lemma drivers_length : List.length drivers = 13.
Proof. reflexivity. Qed.

Lemma event_of_thirteen : eventRecords 13 = 26.
Proof. vm_compute. reflexivity. Qed.

Lemma bracketLog_dates (date : string) (n m : nat) (l : list Race) :
  bracketLog date n l m -> Forall (fun r => Generator.date r = date) l.
Proof.
  induction 1 as [n | n r rest m Hr _ IH | n r1 r2 rest m Hr _ IH].
  - constructor.
  - constructor; [apply Hr | exact IH].
  - destruct Hr as (H1 & H2 & _).
    constructor; [exact H1 |]. constructor; [exact H2 | exact IH].
Qed.

Lemma event_spec (date : string) (k : nat) :
  exists results k',
    simulateTournament random date k = Some (results, k') /\
    List.length results = 26 /\ k' = k + 142 /\
    Forall measured results /\
    Forall (fun r => Generator.date r = date) results.
Proof.
  destruct (tournament_spec drivers date k)
    as (results & k1 & Hrun & [m Hlog] & Hms & Hl & Hk & _).
  exists results, k1. split; [exact Hrun |].
  rewrite drivers_length in Hl, Hk. rewrite event_of_thirteen in Hl.
  split; [exact Hl |]. split; [lia |]. split; [exact Hms |].
  now apply bracketLog_dates with 1 m.
Qed.

Lemma season_fold (sim : string -> nat -> option (list Race * nat))
  (dates : list string) :
  (forall date k, exists results k',
      sim date k = Some (results, k') /\
      List.length results = 26 /\ k' = k + 142 /\
      Forall measured results /\
      Forall (fun r => Generator.date r = date) results) ->
  forall acc k,
  exists all k',
    fold_left
      (fun acc date =>
         match acc with
         | None => None
         | Some (allRaceData, k') =>
             match sim date k' with
             | Some (tournamentResults, k'') =>
                 Some (allRaceData ++ tournamentResults, k'')
             | None => None
             end
         end)
      dates (Some (acc, k))
    = Some (acc ++ all, k') /\
    List.length all = 26 * List.length dates /\
    k' = k + 142 * List.length dates /\
    Forall measured all /\
    map Generator.date all = flat_map (fun date => repeat date 26) dates.
Proof.
  intros Hsim.
  induction dates as [| d dates IH]; intros acc k.
  - exists [], k. cbn [fold_left List.length]. rewrite app_nil_r.
    repeat split; try lia; constructor.
  - cbn [fold_left].
    destruct (Hsim d k) as (results & k1 & Hrun & Hl & Hk & Hms & Hd).
    rewrite Hrun.
    destruct (IH (acc ++ results) k1) as (all & k2 & Hfold & Hl2 & Hk2 & Hms2
                                          & Hd2).
    exists (results ++ all), k2. rewrite Hfold, <- app_assoc.
    split; [reflexivity |]. split; [| split; [| split]].
    + rewrite length_app, Hl, Hl2. cbn [List.length]. lia.
    + rewrite Hk2, Hk. cbn [List.length]. lia.
    + apply Forall_app. now split.
    + rewrite map_app, Hd2, (@map_constant _ _ Generator.date d results Hd), Hl.
      reflexivity.
Qed.

Lemma season_spec (k : nat) :
  exists all k',
    generateSeasonData random k = Some (all, k') /\
    List.length all = 182 /\ k' = k + 994 /\
    Forall measured all /\
    map Generator.date all = flat_map (fun date => repeat date 26) eventDates.
Proof.
  destruct (@season_fold (simulateTournament random) eventDates event_spec
              [] k) as (all & k' & Hrun & Hl & Hk & Hms & Hd).
  exists all, k'. split; [exact Hrun |].
  split; [exact Hl |]. split; [exact Hk |]. now split.
Qed.
End Bracket.

(* ================================================================== *)
(** ** The generator: the properties of an event and of the season     *)
(* ================================================================== *)

Section GeneratedData.
Import JS Spec Generator.

(** The shuffle draws one index for each place but the first, within the
    places not yet settled, and yields a permutation of the array. *)
Theorem shuffle_permutes (random : nat -> Q) (Hrand : unitInterval random)
  (X : Type) (a : list X) (k : nat) :
  (forall i k', drawIndex random i k' <= i) /\
  Permutation (fst (shuffle random a k)) a /\
  snd (shuffle random a k) = k + (List.length a - 1).
Proof.
  split; [intros i k'; now apply drawIndex_le |]. apply shuffle_spec.
Qed.

Lemma shuffle_permutes_witness :
  (forall i k', drawIndex Samples.halves i k' <= i) /\
  Permutation (fst (shuffle Samples.halves [1; 2; 3] 0)) [1; 2; 3] /\
  snd (shuffle Samples.halves [1; 2; 3] 0) = 0 + (List.length [1; 2; 3] - 1).
Proof.
  apply (@shuffle_permutes Samples.halves).
  intros k. split; vm_compute; [discriminate | reflexivity].
Defined.

(** An event is a single elimination: the simulation returns, and every
    entrant but one, the champion, has exactly one record of a loss. *)
Theorem tournament_single_elimination
  (random : nat -> Q) (Hrand : unitInterval random)
  (entrants : list Entrant) (eventDate : string) (k : nat)
  (Hentrants : entrants <> []) :
  exists results k' champion,
    simulateTournamentOf random entrants eventDate k = Some (results, k') /\
    Permutation (champion :: losers results) entrants.
Proof.
  destruct (tournament_spec Hrand entrants eventDate k)
    as (results & k' & Hrun & _ & _ & _ & _ & Hchampion).
  destruct (Hchampion Hentrants) as [champion Hperm].
  now exists results, k', champion.
Qed.

Lemma tournament_single_elimination_witness :
  exists results k' champion,
    simulateTournamentOf Samples.halves drivers "2024-03-14" 0
    = Some (results, k') /\
    Permutation (champion :: losers results) drivers.
Proof.
  apply (@tournament_single_elimination Samples.halves).
  - intros k. split; vm_compute; [discriminate | reflexivity].
  - discriminate.
Defined.

(** The results of an event are, for the race numbers from 1 on, the
    record of a bye, a win against "Bye", or the two records of a race:
    each names the other driver as opponent, one is a win and the other a
    loss, and the winner's ET is not above the loser's.  Each record takes
    five calls of [Math.random], after those of the shuffle. *)
Theorem tournament_results_log
  (random : nat -> Q) (Hrand : unitInterval random)
  (entrants : list Entrant) (eventDate : string) (k : nat) :
  exists results k' m,
    simulateTournamentOf random entrants eventDate k = Some (results, k') /\
    bracketLog eventDate 1 results m /\
    k' = k + (List.length entrants - 1) + 5 * List.length results.
Proof.
  destruct (tournament_spec Hrand entrants eventDate k)
    as (results & k' & Hrun & [m Hlog] & _ & _ & Hk & _).
  now exists results, k', m.
Qed.

Lemma tournament_results_log_witness :
  exists results k' m,
    simulateTournamentOf Samples.halves drivers "2024-03-14" 0
    = Some (results, k') /\
    bracketLog "2024-03-14" 1 results m /\
    k' = 0 + (List.length drivers - 1) + 5 * List.length results.
Proof.
  apply (@tournament_results_log Samples.halves).
  intros k. split; vm_compute; [discriminate | reflexivity].
Defined.

(** Every record of an event has its five measures in the ranges of the
    generator: none is missing, zero or negative. *)
Theorem generated_measures_in_range
  (random : nat -> Q) (Hrand : unitInterval random)
  (entrants : list Entrant) (eventDate : string) (k : nat) :
  exists results k',
    simulateTournamentOf random entrants eventDate k = Some (results, k') /\
    Forall measured results.
Proof.
  destruct (tournament_spec Hrand entrants eventDate k)
    as (results & k' & Hrun & _ & Hms & _).
  now exists results, k'.
Qed.

Lemma generated_measures_in_range_witness :
  exists results k',
    simulateTournamentOf Samples.halves drivers "2024-03-14" 0
    = Some (results, k') /\
    Forall measured results.
Proof.
  apply (@generated_measures_in_range Samples.halves).
  intros k. split; vm_compute; [discriminate | reflexivity].
Defined.

Lemma entries_of_date (d : string) (l : list Race) :
  List.length (filter (fun r => String.eqb (Generator.date r) d) l)
  = count_occ string_dec (map Generator.date l) d.
Proof.
  induction l as [| r l IH]; simpl; [reflexivity |].
  destruct (string_dec (Generator.date r) d) as [E | E].
  - rewrite (proj2 (String.eqb_eq _ _) E). simpl. now rewrite IH.
  - rewrite (proj2 (String.eqb_neq _ _) E). exact IH.
Qed.

Lemma season_dates :
  forall d, In d eventDates ->
    count_occ string_dec (flat_map (fun date => repeat date 26) eventDates) d
    = 26.
Proof.
  intros d H. unfold eventDates in H. simpl in H.
  repeat (destruct H as [<- | H]; [vm_compute; reflexivity |]).
  destruct H.
Qed.
(** Whatever the random numbers, the season has 182 records and takes
    994 calls of [Math.random]; its records are those of the seven events
    in the order of the event dates, 26 for each event, so that each record
    is dated with an event date and each event date is that of 26
    records. *)
Theorem season_of_182_records
  (random : nat -> Q) (Hrand : unitInterval random) (k : nat) :
  exists all k',
    generateSeasonData random k = Some (all, k') /\
    List.length all = 182 /\
    k' = k + 994 /\
    Forall (fun r => In (Generator.date r) eventDates) all /\
    map Generator.date all
    = flat_map (fun date => repeat date 26) eventDates /\
    (forall d, In d eventDates ->
       List.length (filter (fun r => String.eqb (Generator.date r) d) all)
       = 26).
Proof.
  destruct (season_spec Hrand k) as (all & k' & Hrun & Hl & Hk & _ & Hd).
  exists all, k'.
  split; [exact Hrun |]. split; [exact Hl |]. split; [exact Hk |].
  split; [| split; [exact Hd |]].
  - apply Forall_forall. intros r Hr.
    apply (in_map Generator.date) in Hr. rewrite Hd in Hr.
    apply in_flat_map in Hr. destruct Hr as (d & Hin & Hrep).
    apply repeat_spec in Hrep. now rewrite Hrep.
  - intros d Hin. rewrite entries_of_date, Hd. now apply season_dates.
Qed.

Lemma season_of_182_records_witness :
  exists all k',
    generateSeasonData Samples.halves 0 = Some (all, k') /\
    List.length all = 182 /\
    k' = 0 + 994 /\
    Forall (fun r => In (Generator.date r) eventDates) all /\
    map Generator.date all
    = flat_map (fun date => repeat date 26) eventDates /\
    (forall d, In d eventDates ->
       List.length (filter (fun r => String.eqb (Generator.date r) d) all)
       = 26).
Proof.
  apply (@season_of_182_records Samples.halves).
  intros k. split; vm_compute; [discriminate | reflexivity].
Defined.
End GeneratedData.

(* ================================================================== *)
(** ** Drivers: the scores of the radar chart                          *)
(* ================================================================== *)

Section RadarScores.
Import JS Race Spec.

Lemma driverSamples_fold (g : list RaceRecord) (s0 : Drivers.DriverSamples) :
  fold_left
    (fun d race =>
       {| Drivers.reaction :=
            Drivers.push (present (Reaction race)) (Reaction race)
              (Drivers.reaction d);
          Drivers.sixtyFoot :=
            Drivers.push (present (ft60 race)) (ft60 race)
              (Drivers.sixtyFoot d);
          Drivers.threeThirty :=
            Drivers.push (present (ft330 race)) (ft330 race)
              (Drivers.threeThirty d);
          Drivers.eighthET :=
            Drivers.push (present (ET race)) (ET race) (Drivers.eighthET d);
          Drivers.eighthMPH :=
            Drivers.push (present (MPH race)) (MPH race) (Drivers.eighthMPH d);
          Drivers.d_wins := if isWin race then Drivers.d_wins d + 1
                            else Drivers.d_wins d;
          Drivers.d_races := Drivers.d_races d + 1 |})
    g s0
  = {| Drivers.reaction := Drivers.reaction s0 ++ Drivers.samples Reaction g;
       Drivers.sixtyFoot := Drivers.sixtyFoot s0 ++ Drivers.samples ft60 g;
       Drivers.threeThirty := Drivers.threeThirty s0 ++ Drivers.samples ft330 g;
       Drivers.eighthET := Drivers.eighthET s0 ++ Drivers.samples ET g;
       Drivers.eighthMPH := Drivers.eighthMPH s0 ++ Drivers.samples MPH g;
       Drivers.d_wins := Drivers.d_wins s0 + List.length (filter isWin g);
       Drivers.d_races := Drivers.d_races s0 + List.length g |}.
Proof.
  revert s0. induction g as [| r g IH]; intros s0.
  - destruct s0; cbn. rewrite !app_nil_r. f_equal; lia.
  - cbn [fold_left]. rewrite IH.
    cbn [Drivers.reaction Drivers.sixtyFoot Drivers.threeThirty
         Drivers.eighthET Drivers.eighthMPH Drivers.d_wins Drivers.d_races].
    unfold Drivers.samples, Drivers.push. cbn [filter List.length].
    destruct (present (Reaction r)), (present (ft60 r)),
      (present (ft330 r)), (present (ET r)), (present (MPH r)), (isWin r);
      cbn [map List.length]; rewrite <- ?app_assoc; cbn [app];
      f_equal; lia.
Qed.

Lemma allDrivers_get (raceData : list RaceRecord) (d : string) :
  get d (Drivers.allDrivers raceData)
  = match groupOf Driver d raceData with
    | [] => None
    | g => Some (driverSamplesOf g)
    end.
Proof.
  unfold Drivers.allDrivers.
  change (fold_left _ raceData [])
    with (groupFold Driver
            (fun _ : RaceRecord =>
               {| Drivers.reaction := []; Drivers.sixtyFoot := [];
                  Drivers.threeThirty := []; Drivers.eighthET := [];
                  Drivers.eighthMPH := []; Drivers.d_wins := 0;
                  Drivers.d_races := 0 |})
            (fun race d =>
               {| Drivers.reaction :=
                    Drivers.push (present (Reaction race)) (Reaction race)
                      (Drivers.reaction d);
                  Drivers.sixtyFoot :=
                    Drivers.push (present (ft60 race)) (ft60 race)
                      (Drivers.sixtyFoot d);
                  Drivers.threeThirty :=
                    Drivers.push (present (ft330 race)) (ft330 race)
                      (Drivers.threeThirty d);
                  Drivers.eighthET :=
                    Drivers.push (present (ET race)) (ET race)
                      (Drivers.eighthET d);
                  Drivers.eighthMPH :=
                    Drivers.push (present (MPH race)) (MPH race)
                      (Drivers.eighthMPH d);
                  Drivers.d_wins := if isWin race then Drivers.d_wins d + 1
                                    else Drivers.d_wins d;
                  Drivers.d_races := Drivers.d_races d + 1 |})
            raceData).
  rewrite groupFold_get. unfold foldGroup.
  destruct (groupOf Driver d raceData) as [| r g]; [reflexivity |].
  rewrite driverSamples_fold. reflexivity.
Qed.

Lemma allDrivers_values (raceData : list RaceRecord)
  (ds : Drivers.DriverSamples) :
  In ds (values (Drivers.allDrivers raceData)) <->
  exists d, groupOf Driver d raceData <> [] /\
            ds = driverSamplesOf (groupOf Driver d raceData).
Proof.
  rewrite values_In, in_map_iff. split.
  - intros [[d ds'] [E Hin]]. cbn [snd] in E. subst ds'. exists d.
    assert (Hget : get d (Drivers.allDrivers raceData) = Some ds).
    { apply In_get; [| exact Hin]. unfold Drivers.allDrivers.
      apply (groupFold_NoDup Driver). }
    rewrite allDrivers_get in Hget.
    destruct (groupOf Driver d raceData) as [| r g]; [discriminate |].
    injection Hget as <-. split; [discriminate | reflexivity].
  - intros (d & Hne & ->). exists (d, driverSamplesOf (groupOf Driver d raceData)).
    split; [reflexivity |].
    apply In_get; [unfold Drivers.allDrivers; apply (groupFold_NoDup Driver) |].
    rewrite allDrivers_get.
    destruct (groupOf Driver d raceData); [congruence | reflexivity].
Qed.

Lemma ltb_leb (x y : num) : ltb x y = true -> leb x y = true.
Proof.
  unfold ltb, leb. destruct (compare x y) as [[| |] |]; congruence.
Qed.

Lemma ltb_false_leb (x y : num) :
  x <> NaN -> y <> NaN -> ltb x y = false -> leb y x = true.
Proof.
  destruct x as [| | | a], y as [| | | b]; try congruence; intros _ _;
    try reflexivity; try discriminate.
  unfold ltb, leb, compare. rewrite <- (Qcompare_antisym a b).
  now destruct (a ?= b)%Q.
Qed.

Lemma lower_cases (avg m : num) :
  avg <> NaN -> m <> NaN ->
  (if ltb avg m then avg else m) <> NaN /\
  leb (if ltb avg m then avg else m) m = true /\
  leb (if ltb avg m then avg else m) avg = true /\
  ((if ltb avg m then avg else m) = m \/ (if ltb avg m then avg else m) = avg).
Proof.
  intros Ha Hm. destruct (ltb avg m) eqn:E.
  - repeat split; auto using ltb_leb, leb_refl.
  - repeat split; auto using ltb_false_leb, leb_refl.
Qed.

Lemma upper_cases (avg m : num) :
  avg <> NaN -> m <> NaN ->
  (if gtb avg m then avg else m) <> NaN /\
  leb m (if gtb avg m then avg else m) = true /\
  leb avg (if gtb avg m then avg else m) = true /\
  ((if gtb avg m then avg else m) = m \/ (if gtb avg m then avg else m) = avg).
Proof.
  intros Ha Hm. destruct (gtb avg m) eqn:E.
  - repeat split; auto using gtb_true_leb, leb_refl.
  - repeat split; auto using gtb_false_leb, leb_refl.
Qed.

(** The range that [findMinMax] accumulates over drivers whose averages
    are numbers. *)
Lemma range_fold (accessor : Drivers.DriverSamples -> list num)
  (vs : list Drivers.DriverSamples) :
  (forall ds, In ds vs -> accessor ds <> [] ->
              averageOf accessor ds <> NaN) ->
  forall r0, Drivers.min r0 <> NaN -> Drivers.max r0 <> NaN ->
  let r :=
    fold_left
      (fun r driverData =>
         let values := accessor driverData in
         if List.length values =? 0 then r
         else
           let avg := div (sum values) (ofNat (List.length values)) in
           {| Drivers.min := if ltb avg (Drivers.min r) then avg
                             else Drivers.min r;
              Drivers.max := if gtb avg (Drivers.max r) then avg
                             else Drivers.max r |})
      vs r0 in
  Drivers.min r <> NaN /\ Drivers.max r <> NaN /\
  leb (Drivers.min r) (Drivers.min r0) = true /\
  leb (Drivers.max r0) (Drivers.max r) = true /\
  (forall ds, In ds vs -> accessor ds <> [] ->
     leb (Drivers.min r) (averageOf accessor ds) = true /\
     leb (averageOf accessor ds) (Drivers.max r) = true) /\
  (Drivers.min r = Drivers.min r0 \/
   exists ds, In ds vs /\ accessor ds <> [] /\
              Drivers.min r = averageOf accessor ds) /\
  (Drivers.max r = Drivers.max r0 \/
   exists ds, In ds vs /\ accessor ds <> [] /\
              Drivers.max r = averageOf accessor ds).
Proof.
  induction vs as [| ds vs IH]; intros Havg r0 Hmin Hmax.
  - cbn. repeat split; auto using leb_refl.
  - cbn [fold_left]. cbv zeta.
    assert (Havg' : forall ds', In ds' vs -> accessor ds' <> [] ->
                      averageOf accessor ds' <> NaN)
      by (intros ds' Hin; apply Havg; now right).
    destruct (List.length (accessor ds) =? 0) eqn:E.
    + apply Nat.eqb_eq, length_zero_iff_nil in E.
      destruct (IH Havg' r0 Hmin Hmax) as (N1 & N2 & L1 & L2 & Hall & C1 & C2).
      split; [exact N1 |]. split; [exact N2 |]. split; [exact L1 |].
      split; [exact L2 |]. split; [| split].
      * intros ds' [<- | Hin] Hne; [congruence | now apply Hall].
      * destruct C1 as [C1 | (ds' & Hin & Hne & C1)]; [now left |].
        right. exists ds'. auto with datatypes.
      * destruct C2 as [C2 | (ds' & Hin & Hne & C2)]; [now left |].
        right. exists ds'. auto with datatypes.
    + assert (Hne : accessor ds <> [])
        by (intros H; rewrite H in E; discriminate).
      assert (Ha : averageOf accessor ds <> NaN)
        by (apply Havg; [now left | exact Hne]).
      fold (averageOf accessor ds).
      destruct (lower_cases Ha Hmin) as (A1 & A2 & A3 & A4).
      destruct (upper_cases Ha Hmax) as (B1 & B2 & B3 & B4).
      set (r1 := {| Drivers.min := if ltb (averageOf accessor ds)
                                        (Drivers.min r0)
                                   then averageOf accessor ds
                                   else Drivers.min r0;
                    Drivers.max := if gtb (averageOf accessor ds)
                                        (Drivers.max r0)
                                   then averageOf accessor ds
                                   else Drivers.max r0 |}).
      destruct (IH Havg' r1 A1 B1) as (N1 & N2 & L1 & L2 & Hall & C1 & C2).
      cbn [r1 Drivers.min Drivers.max] in L1, L2, C1, C2.
      split; [exact N1 |]. split; [exact N2 |].
      split; [eapply leb_trans; eassumption |].
      split; [eapply leb_trans; eassumption |].
      split; [| split].
      * intros ds' [<- | Hin] Hne'; [| now apply Hall].
        split; eapply leb_trans; eassumption.
      * destruct C1 as [C1 | (ds' & Hin & Hne' & C1)].
        -- rewrite C1. destruct A4 as [-> | ->]; [now left |].
           right. exists ds. auto with datatypes.
        -- right. exists ds'. auto with datatypes.
      * destruct C2 as [C2 | (ds' & Hin & Hne' & C2)].
        -- rewrite C2. destruct B4 as [-> | ->]; [now left |].
           right. exists ds. auto with datatypes.
        -- right. exists ds'. auto with datatypes.
Qed.

Lemma axis_range (f : RaceRecord -> num)
  (accessor : Drivers.DriverSamples -> list num) (raceData : list RaceRecord) :
  axis f accessor ->
  (forall race, In race raceData -> finite (f race)) ->
  spread accessor raceData ->
  exists a b,
    Drivers.min (Drivers.findMinMax accessor (Drivers.allDrivers raceData))
    = Fin a /\
    Drivers.max (Drivers.findMinMax accessor (Drivers.allDrivers raceData))
    = Fin b /\
    (0 < a)%Q /\ (a < b)%Q /\
    forall d, Drivers.samples f (Drivers.driverRaces d raceData) <> [] ->
      exists v,
        Drivers.calcAverage (Drivers.samples f (Drivers.driverRaces d raceData))
        = Fin v /\ (a <= v)%Q /\ (v <= b)%Q.
Proof.
  intros Hax Hfin Hspread.
  assert (Hsamples : forall g, incl g raceData ->
            Forall finite (Drivers.samples f g)).
  { intros g Hg. apply Forall_forall. intros x Hx.
    unfold Drivers.samples in Hx. apply in_map_iff in Hx.
    destruct Hx as (r & <- & Hr). apply filter_In in Hr.
    apply Hfin, Hg, Hr. }
  assert (Hmean : forall ds,
            In ds (values (Drivers.allDrivers raceData)) ->
            accessor ds <> [] ->
            exists q, averageOf accessor ds = Fin q /\ (0 < q)%Q).
  { intros ds Hds Hne. apply allDrivers_values in Hds.
    destruct Hds as (d & Hg & ->). unfold averageOf. rewrite Hax in *.
    assert (Hpos : positive
              (div (sum (Drivers.samples f (groupOf Driver d raceData)))
                 (ofNat (List.length
                           (Drivers.samples f (groupOf Driver d raceData))))))
      by (apply mean_positive; [apply samples_positive | exact Hne]).
    assert (Hf : finite
              (div (sum (Drivers.samples f (groupOf Driver d raceData)))
                 (ofNat (List.length
                           (Drivers.samples f (groupOf Driver d raceData)))))).
    { apply finite_div.
      - apply finite_sum; [| now exists 0%Q]. apply Hsamples.
        intros r Hr. unfold groupOf in Hr. now apply filter_In in Hr.
      - destruct (Drivers.samples f (groupOf Driver d raceData));
          [congruence | simpl; lia]. }
    destruct Hf as [q Hq]. exists q. split; [exact Hq |].
    apply positive_Fin. now rewrite <- Hq. }
  assert (Hnum : forall ds,
            In ds (values (Drivers.allDrivers raceData)) ->
            accessor ds <> [] -> averageOf accessor ds <> NaN).
  { intros ds Hds Hne. destruct (Hmean ds Hds Hne) as (q & -> & _).
    discriminate. }
  pose proof (@range_fold accessor (values (Drivers.allDrivers raceData))
                Hnum {| Drivers.min := PInf; Drivers.max := NInf |}) as Hrange.
  cbv zeta in Hrange.
  change (fold_left _ (values (Drivers.allDrivers raceData)) _)
    with (Drivers.findMinMax accessor (Drivers.allDrivers raceData))
    in Hrange.
  destruct Hrange as (N1 & N2 & _ & _ & Hall & C1 & C2); try discriminate.
  unfold spread in Hspread.
  set (rg := Drivers.findMinMax accessor (Drivers.allDrivers raceData)) in *.
  cbn [Drivers.min Drivers.max] in C1, C2.
  destruct C1 as [C1 | (ds1 & Hin1 & Hne1 & C1)].
  { rewrite C1 in Hspread. destruct (Drivers.max rg); discriminate. }
  destruct C2 as [C2 | (ds2 & Hin2 & Hne2 & C2)].
  { rewrite C2 in Hspread. destruct (Drivers.min rg); discriminate. }
  destruct (Hmean ds1 Hin1 Hne1) as (a & Ea & Ha).
  destruct (Hmean ds2 Hin2 Hne2) as (b & Eb & _).
  rewrite Ea in C1. rewrite Eb in C2. exists a, b.
  split; [exact C1 |]. split; [exact C2 |]. split; [exact Ha |].
  rewrite C1, C2 in Hspread. split.
  { unfold ltb, compare in Hspread. apply Qlt_alt.
    destruct (a ?= b)%Q; congruence. }
  intros d Hd.
  assert (Hg : groupOf Driver d raceData <> []).
  { intros E. apply Hd. unfold Drivers.driverRaces.
    unfold groupOf in E. now rewrite E. }
  assert (Hds : In (driverSamplesOf (groupOf Driver d raceData))
                  (values (Drivers.allDrivers raceData)))
    by (apply allDrivers_values; now exists d).
  assert (Hacc : accessor (driverSamplesOf (groupOf Driver d raceData)) <> [])
    by (rewrite Hax; exact Hd).
  destruct (Hall _ Hds Hacc) as [L U].
  destruct (Hmean _ Hds Hacc) as (v & Ev & _).
  rewrite Ev, C1 in L. rewrite Ev, C2 in U.
  exists v. split; [| split; now apply leb_Fin].
  unfold averageOf in Ev. rewrite Hax in Ev.
  unfold Drivers.calcAverage.
  change (Drivers.driverRaces d raceData) with (groupOf Driver d raceData)
    in Hd |- *.
  revert Hd Ev.
  destruct (Drivers.samples f (groupOf Driver d raceData)) as [| x l];
    intros Hd Ev; [congruence | exact Ev].
Qed.

Lemma normalize_percentage (a b v : Q) :
  (a < b)%Q -> (a <= v)%Q -> (v <= b)%Q ->
  percentage (Drivers.normalizeDirectly (Fin v) (Fin a) (Fin b)) /\
  percentage (Drivers.normalizeInverted (Fin v) (Fin a) (Fin b)).
Proof.
  intros Hab Hav Hvb.
  unfold Drivers.normalizeInverted, Drivers.normalizeDirectly, ofNat, ofZ.
  cbn [sub].
  assert (Hpos : (0 < Qred (b - a))%Q) by (rewrite Qred_correct; lra).
  unfold div. rewrite (proj1 (Qgt_alt _ _) Hpos).
  cbn [mul sub]. change (inject_Z (Z.of_nat 100)) with 100%Q.
  assert (H0 : (0 <= Qred (v - a) / Qred (b - a))%Q).
  { apply Qle_shift_div_l; [assumption |]. rewrite !Qred_correct. lra. }
  assert (H1 : (Qred (v - a) / Qred (b - a) <= 1)%Q).
  { apply Qle_shift_div_r; [assumption |]. rewrite !Qred_correct. lra. }
  set (q := (Qred (v - a) / Qred (b - a))%Q) in *.
  split; eexists; (split; [reflexivity |]); rewrite !Qred_correct; split; lra.
Qed.

Lemma normalize_of_zero (a b : Q) :
  (0 < a)%Q -> (a < b)%Q ->
  ltb (Drivers.normalizeDirectly zero (Fin a) (Fin b)) zero = true /\
  gtb (Drivers.normalizeInverted zero (Fin a) (Fin b)) (ofNat 100) = true.
Proof.
  intros Ha Hab.
  unfold Drivers.normalizeInverted, Drivers.normalizeDirectly, zero,
    ofNat, ofZ.
  cbn [sub].
  assert (Hpos : (0 < Qred (b - a))%Q) by (rewrite Qred_correct; lra).
  unfold div. rewrite (proj1 (Qgt_alt _ _) Hpos).
  cbn [mul sub]. unfold ltb, gtb, compare.
  change (inject_Z (Z.of_nat 100)) with 100%Q.
  assert (H0 : (Qred (0 - a) / Qred (b - a) < 0)%Q).
  { apply Qlt_shift_div_r; [assumption |]. rewrite !Qred_correct. lra. }
  set (q := (Qred (0 - a) / Qred (b - a))%Q) in *.
  split.
  - rewrite (proj1 (Qlt_alt _ _)); [reflexivity |].
    rewrite !Qred_correct. lra.
  - rewrite (proj1 (Qgt_alt _ _)); [reflexivity |].
    rewrite !Qred_correct. lra.
Qed.

Lemma axis_reaction : axis Reaction Drivers.reaction.
Proof. intros g. reflexivity. Qed.
Lemma axis_sixtyFoot : axis ft60 Drivers.sixtyFoot.
Proof. intros g. reflexivity. Qed.
Lemma axis_threeThirty : axis ft330 Drivers.threeThirty.
Proof. intros g. reflexivity. Qed.
Lemma axis_eighthET : axis ET Drivers.eighthET.
Proof. intros g. reflexivity. Qed.
Lemma axis_eighthMPH : axis MPH Drivers.eighthMPH.
Proof. intros g. reflexivity. Qed.

Lemma axis_scores (f : RaceRecord -> num)
  (accessor : Drivers.DriverSamples -> list num) (raceData : list RaceRecord)
  (d : string) :
  axis f accessor ->
  (forall race, In race raceData -> finite (f race)) ->
  spread accessor raceData ->
  Drivers.samples f (Drivers.driverRaces d raceData) <> [] ->
  percentage
    (Drivers.normalizeDirectly
       (Drivers.calcAverage (Drivers.samples f (Drivers.driverRaces d raceData)))
       (Drivers.min (Drivers.findMinMax accessor (Drivers.allDrivers raceData)))
       (Drivers.max (Drivers.findMinMax accessor (Drivers.allDrivers raceData))))
  /\
  percentage
    (Drivers.normalizeInverted
       (Drivers.calcAverage (Drivers.samples f (Drivers.driverRaces d raceData)))
       (Drivers.min (Drivers.findMinMax accessor (Drivers.allDrivers raceData)))
       (Drivers.max (Drivers.findMinMax accessor (Drivers.allDrivers raceData)))).
Proof.
  intros Hax Hfin Hspread Hd.
  destruct (axis_range Hax Hfin Hspread) as (a & b & -> & -> & _ & Hab & Hv).
  destruct (Hv d Hd) as (v & -> & L & U).
  now apply normalize_percentage.
Qed.

Lemma axis_without_samples (f : RaceRecord -> num)
  (accessor : Drivers.DriverSamples -> list num) (raceData : list RaceRecord)
  (d : string) :
  axis f accessor ->
  (forall race, In race raceData -> finite (f race)) ->
  spread accessor raceData ->
  Drivers.samples f (Drivers.driverRaces d raceData) = [] ->
  ltb
    (Drivers.normalizeDirectly
       (Drivers.calcAverage (Drivers.samples f (Drivers.driverRaces d raceData)))
       (Drivers.min (Drivers.findMinMax accessor (Drivers.allDrivers raceData)))
       (Drivers.max (Drivers.findMinMax accessor (Drivers.allDrivers raceData))))
    zero = true /\
  gtb
    (Drivers.normalizeInverted
       (Drivers.calcAverage (Drivers.samples f (Drivers.driverRaces d raceData)))
       (Drivers.min (Drivers.findMinMax accessor (Drivers.allDrivers raceData)))
       (Drivers.max (Drivers.findMinMax accessor (Drivers.allDrivers raceData))))
    (ofNat 100) = true.
Proof.
  intros Hax Hfin Hspread Hd.
  destruct (axis_range Hax Hfin Hspread) as (a & b & -> & -> & Ha & Hab & _).
  rewrite Hd. change (Drivers.calcAverage []) with zero.
  now apply normalize_of_zero.
Qed.

Lemma finiteMeasures_of (f : RaceRecord -> num) (raceData : list RaceRecord) :
  In f [Reaction; ft60; ft330; ET; MPH] ->
  Forall finiteMeasures raceData ->
  forall race, In race raceData -> finite (f race).
Proof.
  intros Hf Hfin race Hrace. rewrite Forall_forall in Hfin.
  destruct (Hfin race Hrace) as (H1 & H2 & H3 & H4 & H5).
  destruct Hf as [<- | [<- | [<- | [<- | [<- | []]]]]]; assumption.
Qed.

(** When the driver has a value [> 0] of each measure and the averages of
    the drivers differ on each axis, the six scores of the radar chart
    lie between 0 and 100.  The measures are finite numbers. *)
Theorem radar_scores_in_range (raceData : list RaceRecord) (d : string)
  (Hfin : Forall finiteMeasures raceData)
  (Hsamples : forall f, In f [Reaction; ft60; ft330; ET; MPH] ->
     Drivers.samples f (Drivers.driverRaces d raceData) <> [])
  (Hspread : forall accessor,
     In accessor [Drivers.reaction; Drivers.sixtyFoot; Drivers.threeThirty;
                  Drivers.eighthET; Drivers.eighthMPH] ->
     spread accessor raceData) :
  Forall (fun e => percentage (snd e))
    (Drivers.radarData
       (Drivers.compileStats d (Drivers.driverRaces d raceData)) raceData).
Proof.
  unfold Drivers.radarData. cbv zeta.
  cbn [Drivers.compileStats Drivers.avgReaction Drivers.avg60ft
       Drivers.avg330ft Drivers.avgEighthET Drivers.avgEighthMPH
       Drivers.winRate].
  repeat constructor; cbn [snd].
  - apply (axis_scores d axis_reaction);
      [apply finiteMeasures_of | apply Hspread | apply Hsamples];
      simpl; auto.
  - apply (axis_scores d axis_sixtyFoot);
      [apply finiteMeasures_of | apply Hspread | apply Hsamples];
      simpl; auto.
  - apply (axis_scores d axis_threeThirty);
      [apply finiteMeasures_of | apply Hspread | apply Hsamples];
      simpl; auto.
  - apply (axis_scores d axis_eighthET);
      [apply finiteMeasures_of | apply Hspread | apply Hsamples];
      simpl; auto.
  - apply (axis_scores d axis_eighthMPH);
      [apply finiteMeasures_of | apply Hspread | apply Hsamples];
      simpl; auto 10.
  - apply (@percentOf_percentage
             (List.length (filter isWin (Drivers.driverRaces d raceData)))
             (List.length (Drivers.driverRaces d raceData)));
      [apply filter_length_le |].
    specialize (Hsamples Reaction (or_introl eq_refl)).
    destruct (Drivers.driverRaces d raceData); [| simpl; lia].
    now contradiction Hsamples.
Qed.

Lemma radar_scores_in_range_witness :
  Forall (fun e => percentage (snd e))
    (Drivers.radarData
       (Drivers.compileStats "Ann" (Drivers.driverRaces "Ann" Samples.twoCars))
       Samples.twoCars).
Proof.
  apply (@radar_scores_in_range Samples.twoCars "Ann").
  - repeat constructor; eexists; reflexivity.
  - intros f [<- | [<- | [<- | [<- | [<- | []]]]]]; vm_compute; discriminate.
  - intros accessor [<- | [<- | [<- | [<- | [<- | []]]]]]; vm_compute;
      reflexivity.
Defined.

(** A driver without a value [> 0] of a measure is charted with the
    average 0: on an axis where the averages of the other drivers differ,
    the score of a time is then above 100 and the score of the speed is
    negative.  The measures are finite numbers. *)
Theorem radar_score_without_samples (raceData : list RaceRecord) (d : string)
  (Hfin : Forall finiteMeasures raceData) :
  (forall name f accessor,
     In (name, f, accessor) timeAxes ->
     Drivers.samples f (Drivers.driverRaces d raceData) = [] ->
     spread accessor raceData ->
     forall v,
       In (name, v)
          (Drivers.radarData
             (Drivers.compileStats d (Drivers.driverRaces d raceData))
             raceData) ->
       gtb v (ofNat 100) = true) /\
  (Drivers.samples MPH (Drivers.driverRaces d raceData) = [] ->
   spread Drivers.eighthMPH raceData ->
   forall v,
     In ("1/8 MPH"%string, v)
        (Drivers.radarData
           (Drivers.compileStats d (Drivers.driverRaces d raceData))
           raceData) ->
     ltb v zero = true).
Proof.
  split.
  - intros name f accessor Hax Hnone Hsp v Hv.
    unfold Drivers.radarData in Hv. cbv zeta in Hv.
    cbn [Drivers.compileStats Drivers.avgReaction Drivers.avg60ft
         Drivers.avg330ft Drivers.avgEighthET Drivers.avgEighthMPH
         Drivers.winRate] in Hv.
    unfold timeAxes in Hax.
    destruct Hax as [E | [E | [E | [E | []]]]]; injection E as <- <- <-;
      destruct Hv as [E | [E | [E | [E | [E | [E | []]]]]]];
      try discriminate E; injection E as <-.
    + apply (axis_without_samples d axis_reaction); try assumption.
      apply finiteMeasures_of; simpl; auto.
    + apply (axis_without_samples d axis_sixtyFoot); try assumption.
      apply finiteMeasures_of; simpl; auto.
    + apply (axis_without_samples d axis_threeThirty); try assumption.
      apply finiteMeasures_of; simpl; auto.
    + apply (axis_without_samples d axis_eighthET); try assumption.
      apply finiteMeasures_of; simpl; auto.
  - intros Hnone Hsp v Hv.
    unfold Drivers.radarData in Hv. cbv zeta in Hv.
    cbn [Drivers.compileStats Drivers.avgReaction Drivers.avg60ft
         Drivers.avg330ft Drivers.avgEighthET Drivers.avgEighthMPH
         Drivers.winRate] in Hv.
    destruct Hv as [E | [E | [E | [E | [E | [E | []]]]]]];
      try discriminate E; injection E as <-.
    apply (axis_without_samples d axis_eighthMPH); try assumption.
    apply finiteMeasures_of; simpl; auto 10.
Qed.

Lemma radar_score_without_samples_witness :
  (forall name f accessor,
     In (name, f, accessor) timeAxes ->
     Drivers.samples f (Drivers.driverRaces "Cy" Samples.threeCars) = [] ->
     spread accessor Samples.threeCars ->
     forall v,
       In (name, v)
          (Drivers.radarData
             (Drivers.compileStats "Cy"
                (Drivers.driverRaces "Cy" Samples.threeCars))
             Samples.threeCars) ->
       gtb v (ofNat 100) = true) /\
  (Drivers.samples MPH (Drivers.driverRaces "Cy" Samples.threeCars) = [] ->
   spread Drivers.eighthMPH Samples.threeCars ->
   forall v,
     In ("1/8 MPH"%string, v)
        (Drivers.radarData
           (Drivers.compileStats "Cy"
              (Drivers.driverRaces "Cy" Samples.threeCars))
           Samples.threeCars) ->
     ltb v zero = true).
Proof.
  apply (@radar_score_without_samples Samples.threeCars "Cy").
  repeat constructor; eexists; reflexivity.
Defined.

(** The chart of the driver of [threeCars] without a reaction time and
    without a speed. *)
Lemma radar_of_threeCars :
  Drivers.radarData
    (Drivers.compileStats "Cy" (Drivers.driverRaces "Cy" Samples.threeCars))
    Samples.threeCars
  = [ ("Reaction"%string, Fin 200); ("60ft"%string, Fin 100);
      ("330ft"%string, Fin 100); ("1/8 ET"%string, Fin 100);
      ("1/8 MPH"%string, Fin (-900)); ("Win Rate"%string, Fin 100) ].
Proof. vm_compute. reflexivity. Qed.
End RadarScores.

(* ================================================================== *)
(** ** The earlier dashboard: the driver in focus                      *)
(* ================================================================== *)

Section FocusDriver.
Import JS Race Spec.

Lemma raceCounts_In (data : list RaceRecord) (c : Trend.RaceCount) :
  In c (Trend.driverRaceCounts data) <->
  racesOf (Trend.rc_driver c) data <> [] /\
  Trend.rc_count c = List.length (racesOf (Trend.rc_driver c) data).
Proof.
  unfold Trend.driverRaceCounts. rewrite sort_In, in_map_iff. split.
  - intros [[d stats] [<- Hin]]. apply dashboard_driverStats_In in Hin.
    unfold winTotalOf in Hin. cbn [Trend.rc_driver Trend.rc_count].
    destruct (racesOf d data) as [| r g]; [discriminate |].
    injection Hin as <-. split; [discriminate | reflexivity].
  - intros [Hne Hc].
    exists (Trend.rc_driver c,
            {| Dashboard.wins :=
                 List.length (filter isWin (racesOf (Trend.rc_driver c) data));
               Dashboard.total :=
                 List.length (racesOf (Trend.rc_driver c) data) |}).
    split.
    + destruct c as [d n]. cbn in *. now rewrite Hc.
    + apply dashboard_driverStats_In. unfold winTotalOf.
      destruct (racesOf (Trend.rc_driver c) data); [congruence | reflexivity].
Qed.

Lemma leb_ofNat (a b : nat) : leb (ofNat a) (ofNat b) = true <-> a <= b.
Proof.
  unfold ofNat, ofZ. rewrite leb_Fin, <- Zle_Qle. lia.
Qed.

(** The earlier dashboard charts no driver when there is no record; else
    it charts a driver with the most records, and all the records of that
    driver, in the order of their race numbers. *)
Theorem focus_driver_performance (data : list RaceRecord) :
  (Trend.focusPerformance data = None <-> data = []) /\
  (forall points, Trend.focusPerformance data = Some points ->
     exists d races,
       racesOf d data <> [] /\
       (forall d', List.length (racesOf d' data)
                   <= List.length (racesOf d data)) /\
       Permutation races (racesOf d data) /\
       sortedAscending (fun r => ofZ (RaceNumber r)) races /\
       points = map Trend.racePoint races).
Proof.
  assert (Hsorted : sortedDescending (fun c => ofNat (Trend.rc_count c))
            (Trend.driverRaceCounts data)).
  { apply sort_descending. apply Forall_forall. intros c _.
    apply finite_notNaN, finite_ofNat. }
  unfold Trend.focusPerformance.
  destruct (Trend.driverRaceCounts data) as [| top rest] eqn:E.
  - split.
    + split; [intros _ | reflexivity].
      destruct data as [| r data]; [reflexivity |]. exfalso.
      assert (Hin : In {| Trend.rc_driver := Driver r;
                          Trend.rc_count :=
                            List.length (racesOf (Driver r) (r :: data)) |}
                      (Trend.driverRaceCounts (r :: data))).
      { apply raceCounts_In. cbn [Trend.rc_driver Trend.rc_count].
        split; [| reflexivity]. unfold racesOf, groupOf. cbn [filter].
        rewrite String.eqb_refl. discriminate. }
      rewrite E in Hin. contradiction.
    + discriminate.
  - split.
    + split; [discriminate |]. intros ->. discriminate E.
    + intros points H. injection H as <-.
      assert (Htop : In top (Trend.driverRaceCounts data))
        by (rewrite E; now left).
      apply raceCounts_In in Htop. destruct Htop as [Hne Hc].
      exists (Trend.rc_driver top),
        (sort (Statistics.ascending (fun r => ofZ (RaceNumber r)))
           (racesOf (Trend.rc_driver top) data)).
      split; [exact Hne |]. split; [| split; [| split]].
      * intros d'. rewrite <- Hc.
        destruct (racesOf d' data) as [| r g] eqn:Ed; [simpl; lia |].
        assert (Hin : In {| Trend.rc_driver := d';
                            Trend.rc_count := List.length (racesOf d' data) |}
                        (Trend.driverRaceCounts data)).
        { apply raceCounts_In. cbn [Trend.rc_driver Trend.rc_count].
          split; [congruence | reflexivity]. }
        rewrite E, Ed in Hin.
        destruct Hin as [Heq | Hin]; [rewrite Heq; simpl; lia |].
        unfold sortedDescending in Hsorted.
        apply StronglySorted_inv in Hsorted. destruct Hsorted as [_ Hall].
        rewrite Forall_forall in Hall. specialize (Hall _ Hin).
        cbn [Trend.rc_count] in Hall. now apply leb_ofNat in Hall.
      * apply sort_perm.
      * apply sort_ascending. apply Forall_forall. intros r _.
        apply finite_notNaN. now eexists.
      * reflexivity.
Qed.
End FocusDriver.

(* ================================================================== *)
(** ** Dashboard: the points of the driver charts                      *)
(* ================================================================== *)

Section DriverCharts.
Import JS Race Spec.

Lemma collected_In (f : RaceRecord -> num) (data : list RaceRecord)
  (d : string) (l : list num) :
  In (d, l)
     (fold_left
        (fun m record =>
           if present (f record)
           then upsert (Driver record) [] (fun xs => xs ++ [f record]) m
           else m)
        data []) <->
  samplesOf f d data <> [] /\ l = map f (samplesOf f d data).
Proof.
  rewrite (fold_left_cond (fun record => present (f record))
             (fun m record =>
                upsert (Driver record) [] (fun xs => xs ++ [f record]) m)).
  change (fold_left _ ?l0 []) with
    (groupFold Driver (fun _ : RaceRecord => @nil num)
       (fun record xs => xs ++ [f record]) l0).
  rewrite groupFold_In. unfold foldGroup, samplesOf.
  destruct (groupOf Driver d _) as [| r g].
  - split; [discriminate | intros [H _]; congruence].
  - rewrite fold_left_collect. cbn [app]. split.
    + intros H. injection H as <-. split; [discriminate | reflexivity].
    + intros [_ ->]. reflexivity.
Qed.

Lemma round_percentage (x : num) : percentage x -> wholePercent (round x).
Proof.
  intros (q & -> & H0 & H1). exists (Qfloor (q + (1 # 2))).
  split; [reflexivity |]. split.
  - change 0%Z with (Qfloor 0). apply Qfloor_resp_le. lra.
  - assert (H : (Qfloor (q + (1 # 2)) < 101)%Z); [| lia].
    rewrite Zlt_Qlt. eapply Qle_lt_trans; [apply Qfloor_le |].
    change (inject_Z 101) with 101%Q. lra.
Qed.

Lemma toFixed_nonneg (d : nat) (x : num) : nonneg x -> nonneg (toFixed d x).
Proof.
  intros (q & -> & Hq). unfold toFixed.
  assert (Hs : (0 < inject_Z (10 ^ Z.of_nat d))%Q).
  { change 0%Q with (inject_Z 0). rewrite <- Zlt_Qlt.
    apply Z.pow_pos_nonneg; lia. }
  set (s := inject_Z (10 ^ Z.of_nat d)) in *.
  assert (Hf : (0 <= inject_Z (Qfloor (q * s + (1 # 2))))%Q).
  { change 0%Q with (inject_Z 0). rewrite <- Zle_Qle.
    change 0%Z with (Qfloor 0). apply Qfloor_resp_le. nra. }
  destruct (Qcompare_spec q 0) as [E | E | E]; try lra;
    (eexists; split; [reflexivity |]; rewrite Qred_correct;
     apply Qle_shift_div_l; [assumption | lra]).
Qed.

Lemma mean_nonneg (l : list num) :
  l <> [] -> Forall positive l -> Forall finite l ->
  nonneg (div (sum l) (ofNat (List.length l))).
Proof.
  intros Hne Hpos Hfin.
  assert (Hf : finite (div (sum l) (ofNat (List.length l)))).
  { apply finite_div; [apply finite_sum; [assumption | now exists 0%Q] |].
    destruct l; [congruence | simpl; lia]. }
  pose proof (mean_positive Hpos Hne) as Hp.
  destruct Hf as [q Hq]. rewrite Hq in *. exists q. split; [reflexivity |].
  apply positive_Fin in Hp. lra.
Qed.

Lemma samples_finite (f : RaceRecord -> num) (d : string)
  (data : list RaceRecord) :
  (forall race, In race data -> finite (f race)) ->
  Forall finite (map f (samplesOf f d data)) /\
  Forall positive (map f (samplesOf f d data)).
Proof.
  intros Hfin. split; apply Forall_forall; intros x Hx;
    apply in_map_iff in Hx; destruct Hx as (r & <- & Hr);
    apply samplesOf_In in Hr.
  - now apply Hfin.
  - now apply present_gtb.
Qed.

(** The dashboard charts, per driver: the win rate of a driver with
    records, a whole percentage; the average reaction time and the average
    speed of a driver with such a value [> 0], over those values and
    rounded, which are not negative.  The reaction times and the speeds
    are finite numbers. *)
Theorem dashboard_driver_charts (data : list RaceRecord)
  (Hfin : forall race, In race data ->
            finite (Reaction race) /\ finite (MPH race)) :
  (forall p, In p (Dashboard.winRateData data) ->
     exists d, racesOf d data <> [] /\ p = winRatePointOf d data /\
               wholePercent (Dashboard.value p)) /\
  (forall p, In p (Dashboard.avgReactions data) ->
     exists d, samplesOf Reaction d data <> [] /\
               p = reactionPointOf d data /\
               nonneg (Dashboard.r_value p)) /\
  (forall p, In p (Dashboard.avgSpeeds data) ->
     exists d, samplesOf MPH d data <> [] /\
               p = speedPointOf d data /\
               nonneg (Dashboard.speed p)).
Proof.
  split; [| split].
  - intros p Hp. unfold Dashboard.winRateData in Hp.
    apply sliceTo_In, sort_In, in_map_iff in Hp.
    destruct Hp as ([d stats] & <- & Hin).
    unfold entries in Hin. apply dashboard_driverStats_In in Hin.
    unfold winTotalOf in Hin. exists d.
    destruct (racesOf d data) as [| r g] eqn:E; [discriminate |].
    assert (Hpos : 0 < List.length (r :: g)) by (simpl; lia).
    remember (r :: g) as g' eqn:Eg.
    assert (Hstats : stats
                     = {| Dashboard.wins := List.length (filter isWin g');
                          Dashboard.total := List.length g' |})
      by congruence.
    clear Hin. subst stats.
    split; [intros H; rewrite H in Hpos; simpl in Hpos; lia |].
    split; [unfold winRatePointOf; now rewrite E |].
    cbn [Dashboard.winRatePoint Dashboard.value Dashboard.total
         Dashboard.wins].
    rewrite (proj2 (Nat.ltb_lt _ _) Hpos).
    apply round_percentage.
    apply (@percentOf_percentage (List.length (filter isWin g'))
             (List.length g')); [apply filter_length_le | exact Hpos].
  - intros p Hp. unfold Dashboard.avgReactions in Hp.
    apply sliceTo_In, sort_In, in_map_iff in Hp.
    destruct Hp as ([d l] & <- & Hin).
    unfold entries, Dashboard.reactionsByDriver in Hin.
    apply collected_In in Hin. destruct Hin as [Hne ->]. exists d.
    split; [exact Hne |]. split; [reflexivity |].
    cbn [Dashboard.reactionPoint Dashboard.r_value].
    destruct (@samples_finite Reaction d data) as [F P];
      [intros r Hr; apply Hfin, Hr |].
    apply toFixed_nonneg, mean_nonneg; try assumption.
    destruct (samplesOf Reaction d data); [congruence | discriminate].
  - intros p Hp. unfold Dashboard.avgSpeeds in Hp.
    apply sliceTo_In, sort_In, in_map_iff in Hp.
    destruct Hp as ([d l] & <- & Hin).
    unfold entries, Dashboard.speedsByDriver in Hin.
    apply collected_In in Hin. destruct Hin as [Hne ->]. exists d.
    split; [exact Hne |]. split; [reflexivity |].
    cbn [Dashboard.speedPoint Dashboard.speed].
    destruct (@samples_finite MPH d data) as [F P];
      [intros r Hr; apply Hfin, Hr |].
    apply toFixed_nonneg, mean_nonneg; try assumption.
    destruct (samplesOf MPH d data); [congruence | discriminate].
Qed.

Lemma dashboard_driver_charts_witness :
  (forall p, In p (Dashboard.winRateData Samples.twoCars) ->
     exists d, racesOf d Samples.twoCars <> [] /\
               p = winRatePointOf d Samples.twoCars /\
               wholePercent (Dashboard.value p)) /\
  (forall p, In p (Dashboard.avgReactions Samples.twoCars) ->
     exists d, samplesOf Reaction d Samples.twoCars <> [] /\
               p = reactionPointOf d Samples.twoCars /\
               nonneg (Dashboard.r_value p)) /\
  (forall p, In p (Dashboard.avgSpeeds Samples.twoCars) ->
     exists d, samplesOf MPH d Samples.twoCars <> [] /\
               p = speedPointOf d Samples.twoCars /\
               nonneg (Dashboard.speed p)).
Proof.
  apply (@dashboard_driver_charts Samples.twoCars).
  intros race H. simpl in H.
  destruct H as [<- | [<- | []]]; split; eexists; reflexivity.
Defined.
End DriverCharts.

(* ================================================================== *)
(** ** The display name of a driver                                    *)
(* ================================================================== *)

Section DisplayName.
Import JS Race Spec.

Lemma split_space_word (s : string) :
  noSpace s = true -> split_space s = [s].
Proof.
  induction s as [| c s IH]; [reflexivity |].
  cbn [noSpace split_space]. intros H. apply andb_true_iff in H.
  destruct H as [Hc Hs]. apply negb_true_iff in Hc. rewrite Hc, (IH Hs).
  reflexivity.
Qed.

Lemma split_space_first (first rest : string) :
  noSpace first = true ->
  split_space (first ++ String " " rest)%string = first :: split_space rest.
Proof.
  induction first as [| c s IH]; [reflexivity |].
  cbn [noSpace append split_space]. intros H. apply andb_true_iff in H.
  destruct H as [Hc Hs]. apply negb_true_iff in Hc. rewrite Hc, (IH Hs).
  reflexivity.
Qed.

Lemma split_space_initial (c : ascii) (rest : string) :
  c <> " "%char ->
  exists w ws, split_space (String c rest) = String c w :: ws.
Proof.
  intros Hc. cbn [split_space]. apply Ascii.eqb_neq in Hc. rewrite Hc.
  destruct (split_space rest) as [| w ws]; eauto.
Qed.

(** A name of one word is displayed as it is; of a name of several words,
    the first word, the initial of the second and the dot are displayed,
    so that drivers who share these share the label; a name with two
    blanks after the first word is displayed as the first word. *)
Theorem display_name_label (dot first rest : string) (c : ascii)
  (Hfirst : noSpace first = true) (Hc : c <> " "%char) :
  displayName dot first = first /\
  displayName dot (first ++ " " ++ String c rest)%string
  = (first ++ " " ++ String c EmptyString ++ dot)%string /\
  displayName dot (first ++ "  " ++ rest)%string = first.
Proof.
  unfold displayName. split; [| split].
  - now rewrite split_space_word.
  - change (first ++ " " ++ String c rest)%string
      with (first ++ String " " (String c rest))%string.
    rewrite split_space_first by assumption.
    destruct (split_space_initial rest Hc) as (w & ws & ->). reflexivity.
  - change (first ++ "  " ++ rest)%string
      with (first ++ String " " (String " " rest))%string.
    rewrite split_space_first by assumption. reflexivity.
Qed.

Lemma display_name_label_witness :
  displayName ". " "Kavon" = "Kavon"%string /\
  displayName ". " ("Kavon" ++ " " ++ String "T" "ibbs")%string
  = ("Kavon" ++ " " ++ String "T" EmptyString ++ ". ")%string /\
  displayName ". " ("Kavon" ++ "  " ++ "ibbs")%string = "Kavon"%string.
Proof.
  apply (@display_name_label ". " "Kavon" "ibbs" "T").
  - reflexivity.
  - discriminate.
Defined.
End DisplayName.
